(** * egos-2000: the memory management unit and the server stubs

    A shallow embedding of [earth/cpu_mmu.c] (frame allocator, software
    TLB, Sv32 identity mapping, boot-time mechanism selection) and of
    [library/syscall/servers.c] (directory and file server stubs).

    C [int] values are [Z]; the machine is a 32-bit RISC-V, so addresses
    and [unsigned int] values wrap modulo [2^32].  Global and [static]
    variables are fields of an explicit machine state that every function
    threads through; [FATAL] ends the run. *)

From Stdlib Require Import ZArith List Lia String Ascii Bool.
Import ListNotations.
Open Scope Z_scope.

(** ** Machine words and byte-addressed memory *)

(** An [unsigned int], or a pointer, after an arithmetic operation. *)
Definition wrap32 (x : Z) : Z := x mod 2 ^ 32.

(** Physical memory: the byte stored at each address. *)
Definition mem : Type := Z -> Z.

Definition in_range (base len a : Z) : bool := (base <=? a) && (a <? base + len).

(** [memset(dst, c, len)] *)
Definition memset (m : mem) (dst c len : Z) : mem :=
  fun a => if in_range dst len a then c else m a.

(** [memcpy(dst, src, len)] *)
Definition memcpy (m : mem) (dst src len : Z) : mem :=
  fun a => if in_range dst len a then m (src + (a - dst)) else m a.

(** Byte [k] of a 32-bit word, little-endian as on RISC-V. *)
Definition byte_of (v k : Z) : Z := Z.shiftr v (8 * k) mod 256.

(** [*(unsigned int* )a = v] *)
Definition store32 (m : mem) (a v : Z) : mem :=
  fun x => if in_range a 4 x then byte_of v (x - a) else m x.

(** [*(unsigned int* )a] *)
Definition load32 (m : mem) (a : Z) : Z :=
  m a + Z.shiftl (m (a + 1)) 8 + Z.shiftl (m (a + 2)) 16 + Z.shiftl (m (a + 3)) 24.

(** Modelled from the spec: [PAGE_SIZE] is defined in [egos.h], which is
    not among the sources; a frame is "a fixed-size (4096-byte) unit of
    physical memory" and pages are addressed by [page_no << 12]. *)
Definition PAGE_SIZE : Z := 4096.

(** ** The frame table *)

Definition NFRAMES : Z := 256.

Module Frame.
Record mapping : Type := mk
  { use : Z      (* Is the frame allocated? *)
  ; pid : Z      (* Which process owns the frame? *)
  ; page_no : Z  (* Which virtual page is the frame mapped to? *) }.

(** What [memset(&table[i], 0, sizeof(struct frame_mapping))] leaves. *)
Definition zero : mapping := mk 0 0 0.
End Frame.

(** [table[i] = e] for an index inside the array. *)
Definition upd {A : Type} (f : Z -> A) (i : Z) (x : A) : Z -> A :=
  fun j => if j =? i then x else f j.

(** The indices [lo, lo+1, ..., lo+n-1] a [for] loop runs through. *)
Fixpoint indices (lo : Z) (n : nat) : list Z :=
  match n with
  | O => []
  | S n' => lo :: indices (lo + 1) n'
  end.

(** [for (int i = 0; i < NFRAMES; i++)] *)
Definition frame_ids : list Z := indices 0 (Z.to_nat NFRAMES).

(** ** The [earth] interface structure *)

(** The functions of this file that are stored in function pointers. *)
Inductive funptr : Type :=
| NULL
| fn_mmu_alloc
| fn_mmu_free
| fn_soft_mmu_map
| fn_soft_mmu_switch
| fn_pagetable_mmu_map
| fn_pagetable_mmu_switch
| fn_platform_detect.

Inductive platform_t : Type := QEMU | ARTY.

Module Earth.
Record t : Type := mk
  { platform : platform_t
  ; excp_handler : funptr   (* what [excp_register] was last given *)
  ; mmu_alloc : funptr
  ; mmu_free : funptr
  ; mmu_map : funptr
  ; mmu_switch : funptr }.
End Earth.

(** ** Observable events *)

(** Calls that leave this file: to the paging device, and to the console. *)
Inductive event : Type :=
| PagingInit
| PagingInvalidate (frame : Z)
| PagingWrite (frame page : Z)
| PagingRead (frame alloc_only : Z)
| ConsoleOut (msg : string).

(** ** Machine state *)

Record state : Type := mkState
  { table : Z -> Frame.mapping          (* [table[NFRAMES]] *)
  ; pid_to_pagetable_base : Z -> Z      (* [pid_to_pagetable_base[MAX_NPROCESS]] *)
  ; curr_vm_pid : Z                     (* [static] in [soft_mmu_switch] *)
  ; frame_id : Z                        (* [static unsigned int frame_id] *)
  ; root : Z                            (* [static unsigned int *root] *)
  ; leaf : Z                            (* [static unsigned int *leaf] *)
  ; earth : Earth.t
  ; memory : mem
  ; probe_traps : bool                  (* does the store to [0x1000] raise an exception? *)
  ; console : list ascii                (* first character of each line still to be typed *)
  ; trace : list event                  (* events so far, oldest first *) }.

Definition set_table (t : Z -> Frame.mapping) (s : state) : state :=
  mkState t (pid_to_pagetable_base s) (curr_vm_pid s) (frame_id s) (root s) (leaf s)
          (earth s) (memory s) (probe_traps s) (console s) (trace s).

Definition set_pid_to_pagetable_base (b : Z -> Z) (s : state) : state :=
  mkState (table s) b (curr_vm_pid s) (frame_id s) (root s) (leaf s)
          (earth s) (memory s) (probe_traps s) (console s) (trace s).

Definition set_curr_vm_pid (p : Z) (s : state) : state :=
  mkState (table s) (pid_to_pagetable_base s) p (frame_id s) (root s) (leaf s)
          (earth s) (memory s) (probe_traps s) (console s) (trace s).

Definition set_frame_id (f : Z) (s : state) : state :=
  mkState (table s) (pid_to_pagetable_base s) (curr_vm_pid s) f (root s) (leaf s)
          (earth s) (memory s) (probe_traps s) (console s) (trace s).

Definition set_root (r : Z) (s : state) : state :=
  mkState (table s) (pid_to_pagetable_base s) (curr_vm_pid s) (frame_id s) r (leaf s)
          (earth s) (memory s) (probe_traps s) (console s) (trace s).

Definition set_leaf (l : Z) (s : state) : state :=
  mkState (table s) (pid_to_pagetable_base s) (curr_vm_pid s) (frame_id s) (root s) l
          (earth s) (memory s) (probe_traps s) (console s) (trace s).

Definition set_earth (e : Earth.t) (s : state) : state :=
  mkState (table s) (pid_to_pagetable_base s) (curr_vm_pid s) (frame_id s) (root s) (leaf s)
          e (memory s) (probe_traps s) (console s) (trace s).

Definition set_memory (m : mem) (s : state) : state :=
  mkState (table s) (pid_to_pagetable_base s) (curr_vm_pid s) (frame_id s) (root s) (leaf s)
          (earth s) m (probe_traps s) (console s) (trace s).

Definition set_console (c : list ascii) (s : state) : state :=
  mkState (table s) (pid_to_pagetable_base s) (curr_vm_pid s) (frame_id s) (root s) (leaf s)
          (earth s) (memory s) (probe_traps s) c (trace s).

Definition log (e : event) (s : state) : state :=
  mkState (table s) (pid_to_pagetable_base s) (curr_vm_pid s) (frame_id s) (root s) (leaf s)
          (earth s) (memory s) (probe_traps s) (console s) (trace s ++ [e]).

(** ** Outcomes of a call *)

(** A call returns ([Done]), stops the machine in [FATAL] ([Halted]),
    waits for input that never comes ([Blocked]), or leaves the behaviour
    C defines ([Undefined]: an array index out of bounds, a call through a
    pointer that holds no function). *)
Inductive outcome (S A : Type) : Type :=
| Done (a : A) (s : S)
| Halted (msg : string) (s : S)
| Blocked (s : S)
| Undefined.
Arguments Done {S A} a s.
Arguments Halted {S A} msg s.
Arguments Blocked {S A} s.
Arguments Undefined {S A}.

Definition M (S A : Type) : Type := S -> outcome S A.

Definition ret {S A : Type} (a : A) : M S A := fun s => Done a s.

Definition bind {S A B : Type} (m : M S A) (k : A -> M S B) : M S B :=
  fun s =>
    match m s with
    | Done a s' => k a s'
    | Halted msg s' => Halted msg s'
    | Blocked s' => Blocked s'
    | Undefined => Undefined
    end.

(** Modelled from the spec: the [FATAL] macro comes from [egos.h], which
    is not among the sources; "the kernel halts with a diagnostic
    message", with "no local recovery, no retry". *)
Definition FATAL {S A : Type} (msg : string) : M S A := fun s => Halted msg s.

Declare Scope monad_scope.
Delimit Scope monad_scope with monad.
Notation "x <- m ;; k" := (bind m (fun x => k))
  (at level 61, m at next level, right associativity) : monad_scope.
Notation "m ;;; k" := (bind m (fun _ => k))
  (at level 61, right associativity) : monad_scope.

Local Open Scope monad_scope.

(** Is index [i] one of [l]? *)
Definition mem_index (i : Z) (l : list Z) : bool := existsb (Z.eqb i) l.

(** * Lists, index ranges, memory words *)

Lemma in_indices (n : nat) : forall lo i, In i (indices lo n) <-> lo <= i < lo + Z.of_nat n.
Proof.
  induction n as [|n IH]; intros lo i; simpl indices.
  - simpl. lia.
  - simpl In. rewrite IH. lia.
Qed.

Lemma in_frame_ids (i : Z) : In i frame_ids <-> 0 <= i < NFRAMES.
Proof. unfold frame_ids. rewrite in_indices, Z2Nat.id; unfold NFRAMES; lia. Qed.

Lemma NoDup_indices (n : nat) : forall lo, NoDup (indices lo n).
Proof.
  induction n as [|n IH]; intros lo; simpl; constructor; auto.
  rewrite in_indices. lia.
Qed.

Lemma NoDup_frame_ids : NoDup frame_ids.
Proof. exact (NoDup_indices (Z.to_nat NFRAMES) 0). Qed.

Lemma length_indices (n : nat) : forall lo, List.length (indices lo n) = n.
Proof. induction n as [|n IH]; intros lo; simpl; [reflexivity|now rewrite IH]. Qed.

Lemma length_frame_ids : List.length frame_ids = Z.to_nat NFRAMES.
Proof. exact (length_indices (Z.to_nat NFRAMES) 0). Qed.

Lemma find_indices_first (P : Z -> bool) (n : nat) :
  forall lo i, lo <= i < lo + Z.of_nat n -> P i = true ->
               (forall j, lo <= j < i -> P j = false) ->
               find P (indices lo n) = Some i.
Proof.
  induction n as [|n IH]; intros lo i Hi Pi Hlow; simpl.
  - lia.
  - destruct (Z.eq_dec lo i) as [->|Hne].
    + now rewrite Pi.
    + rewrite (Hlow lo) by lia. apply IH; [lia|assumption|].
      intros j Hj. apply Hlow. lia.
Qed.

Lemma find_frame_ids_first (P : Z -> bool) (i : Z) :
  0 <= i < NFRAMES -> P i = true -> (forall j, 0 <= j < i -> P j = false) ->
  find P frame_ids = Some i.
Proof.
  intros Hi Pi Hlow. unfold frame_ids.
  apply find_indices_first; [rewrite Z2Nat.id; unfold NFRAMES in *; lia|assumption|assumption].
Qed.

(** The indices a filter keeps stay in increasing order. *)
Lemma filter_indices_after (P : Z -> bool) (n : nat) :
  forall lo f,
    In f (filter P (indices lo n)) ->
    exists L1 L2,
      filter P (indices lo n) = L1 ++ f :: L2 /\ forall j, In j L2 -> f < j.
Proof.
  induction n as [|n IH]; intros lo f Hf; [destruct Hf|].
  cbn [indices filter] in *.
  assert (Hrest : In f (filter P (indices (lo + 1) n)) ->
                  exists L1 L2,
                    (if P lo then lo :: filter P (indices (lo + 1) n)
                     else filter P (indices (lo + 1) n)) = L1 ++ f :: L2 /\
                    forall j, In j L2 -> f < j).
  { intros H. destruct (IH _ _ H) as (L1 & L2 & E & Hlt). rewrite E.
    destruct (P lo); [exists (lo :: L1), L2|exists L1, L2]; split; auto. }
  destruct (P lo); [|auto].
  destruct Hf as [<-|Hf]; [|auto].
  exists [], (filter P (indices (lo + 1) n)). split; [reflexivity|].
  intros j Hj. apply filter_In in Hj. destruct Hj as [Hj _].
  apply in_indices in Hj. lia.
Qed.

Lemma filter_frame_ids_after (P : Z -> bool) (f : Z) :
  In f (filter P frame_ids) ->
  exists L1 L2, filter P frame_ids = L1 ++ f :: L2 /\ forall j, In j L2 -> f < j.
Proof. unfold frame_ids. apply filter_indices_after. Qed.

Lemma frame_ids_head : frame_ids = 0 :: 1 :: 2 :: 3 :: 4 :: 5 :: 6 :: indices 7 249.
Proof. vm_compute. reflexivity. Qed.

(** The loops over the frame table are reasoned about through the
    lemmas above, never by running through the 256 indices. *)
Opaque frame_ids.

Lemma find_filter_head {A : Type} (P : A -> bool) (l : list A) :
  find P l = hd_error (filter P l).
Proof.
  induction l as [|a l IH]; simpl; [reflexivity|].
  destruct (P a); [reflexivity|exact IH].
Qed.

Lemma upd_same {A : Type} (f : Z -> A) (i : Z) (x : A) : upd f i x i = x.
Proof. unfold upd. now rewrite Z.eqb_refl. Qed.

Lemma upd_other {A : Type} (f : Z -> A) (i j : Z) (x : A) : j <> i -> upd f i x j = f j.
Proof. unfold upd. intros H. apply Z.eqb_neq in H. now rewrite H. Qed.

(** Taking the first free frame leaves the others free, in order. *)
Lemma filter_drop_head (P : Z -> bool) (l : list Z) :
  NoDup l ->
  forall i rest, filter P l = i :: rest ->
  filter (fun j => if j =? i then false else P j) l = rest.
Proof.
  induction 1 as [|a l Ha Hl IH]; intros i rest; simpl; [discriminate|].
  destruct (P a) eqn:Pa.
  - intros [= -> <-]. rewrite Z.eqb_refl.
    apply filter_ext_in. intros x Hx.
    destruct (Z.eqb_spec x i) as [->|]; [contradiction|reflexivity].
  - intros H. destruct (a =? i); rewrite ?Pa; now apply IH.
Qed.

Lemma in_firstn {A : Type} (n : nat) : forall (l : list A) (x : A), In x (firstn n l) -> In x l.
Proof.
  induction n as [|n IH]; intros [|a l] x; simpl; try tauto.
  intros [->|H]; [now left|right; now apply IH].
Qed.

Lemma NoDup_firstn {A : Type} (n : nat) : forall l : list A, NoDup l -> NoDup (firstn n l).
Proof.
  induction n as [|n IH]; intros l H; simpl; [constructor|].
  destruct H as [|a l Ha Hl]; constructor; auto.
  intros Hin. apply Ha. revert Hin. apply in_firstn.
Qed.

Lemma filter_all {A : Type} (P : A -> bool) (l : list A) :
  (forall x, In x l -> P x = true) -> filter P l = l.
Proof.
  induction l as [|a l IH]; intros H; simpl; [reflexivity|].
  rewrite (H a) by now left. f_equal. apply IH. intros x Hx. apply H. now right.
Qed.

Lemma filter_none {A : Type} (P : A -> bool) (l : list A) :
  (forall x, In x l -> P x = false) <-> filter P l = [].
Proof.
  induction l as [|a l IH]; simpl; [tauto|].
  destruct (P a) eqn:Pa; split.
  - intros H. specialize (H a (or_introl eq_refl)). congruence.
  - discriminate.
  - intros H. apply IH. intros x Hx. apply H. now right.
  - intros H x [<-|Hx]; [assumption|]. now apply IH.
Qed.

Lemma mem_index_In (i : Z) (l : list Z) : mem_index i l = true <-> In i l.
Proof.
  unfold mem_index. rewrite existsb_exists. split.
  - intros (x & Hx & E). apply Z.eqb_eq in E. now subst.
  - intros H. exists i. split; [assumption|apply Z.eqb_refl].
Qed.

Lemma memcpy_inside (m : mem) (dst src len a : Z) :
  in_range dst len a = true -> memcpy m dst src len a = m (src + (a - dst)).
Proof. unfold memcpy. now intros ->. Qed.

Lemma memcpy_outside (m : mem) (dst src len a : Z) :
  in_range dst len a = false -> memcpy m dst src len a = m a.
Proof. unfold memcpy. now intros ->. Qed.

Lemma load32_store32_same (m : mem) (a v : Z) :
  0 <= v < 2 ^ 32 -> load32 (store32 m a v) a = v.
Proof.
  intros Hv. unfold load32, store32, in_range, byte_of.
  replace (a <=? a) with true by lia.
  replace (a <? a + 4) with true by lia.
  replace (a <=? a + 1) with true by lia. replace (a + 1 <? a + 4) with true by lia.
  replace (a <=? a + 2) with true by lia. replace (a + 2 <? a + 4) with true by lia.
  replace (a <=? a + 3) with true by lia. replace (a + 3 <? a + 4) with true by lia.
  cbn [andb].
  replace (a - a) with 0 by lia. replace (a + 1 - a) with 1 by lia.
  replace (a + 2 - a) with 2 by lia. replace (a + 3 - a) with 3 by lia.
  rewrite !Z.shiftr_div_pow2, !Z.shiftl_mul_pow2 by lia.
  change (2 ^ (8 * 0)) with 1. change (2 ^ (8 * 1)) with 256.
  change (2 ^ (8 * 2)) with 65536. change (2 ^ (8 * 3)) with 16777216.
  change (2 ^ 8) with 256. change (2 ^ 16) with 65536. change (2 ^ 24) with 16777216.
  change (2 ^ 32) with 4294967296 in Hv.
  Z.to_euclidean_division_equations. lia.
Qed.

Lemma load32_store32_other (m : mem) (a b v : Z) :
  a + 4 <= b \/ b + 4 <= a -> load32 (store32 m a v) b = load32 m b.
Proof.
  intros H. unfold load32, store32, in_range.
  replace ((a <=? b) && (b <? a + 4)) with false by lia.
  replace ((a <=? b + 1) && (b + 1 <? a + 4)) with false by lia.
  replace ((a <=? b + 2) && (b + 2 <? a + 4)) with false by lia.
  replace ((a <=? b + 3) && (b + 3 <? a + 4)) with false by lia.
  reflexivity.
Qed.

Lemma load32_memset_zero (m : mem) (dst len b : Z) :
  dst <= b -> b + 4 <= dst + len -> load32 (memset m dst 0 len) b = 0.
Proof.
  intros H1 H2. unfold load32, memset, in_range.
  replace ((dst <=? b) && (b <? dst + len)) with true by lia.
  replace ((dst <=? b + 1) && (b + 1 <? dst + len)) with true by lia.
  replace ((dst <=? b + 2) && (b + 2 <? dst + len)) with true by lia.
  replace ((dst <=? b + 3) && (b + 3 <? dst + len)) with true by lia.
  reflexivity.
Qed.

(** The flag bits and the page number of an entry [x | flags]. *)
Lemma entry_flags (x flags : Z) (n : Z) :
  0 <= n -> Z.land flags (Z.ones n) = flags -> x mod 2 ^ n = 0 ->
  Z.land (Z.lor x flags) (Z.ones n) = flags.
Proof.
  intros Hn Hf Hx. rewrite Z.land_lor_distr_l, Hf, Z.land_ones, Hx by assumption.
  apply Z.lor_0_l.
Qed.

Lemma entry_low_flags (x : Z) : Z.land (Z.lor x 0xF) 0xF = 0xF.
Proof.
  apply Z.bits_inj'. intros k _. rewrite Z.land_spec, Z.lor_spec.
  destruct (Z.testbit x k), (Z.testbit 15 k); reflexivity.
Qed.

Lemma entry_ppn (x flags : Z) :
  0 <= flags < 2 ^ 10 -> Z.shiftr (Z.lor x flags) 10 = Z.shiftr x 10.
Proof.
  intros Hf. rewrite Z.shiftr_lor.
  replace (Z.shiftr flags 10) with 0; [apply Z.lor_0_r|].
  rewrite Z.shiftr_div_pow2 by lia. symmetry. apply Z.div_small. assumption.
Qed.

Lemma entry_bound (x flags : Z) :
  0 <= x < 2 ^ 32 -> 0 <= flags < 2 ^ 32 -> 0 <= Z.lor x flags < 2 ^ 32.
Proof.
  intros Hx Hf. split; [apply Z.lor_nonneg; lia|].
  destruct (Z.eq_dec (Z.lor x flags) 0) as [->|Hnz]; [lia|].
  assert (0 <= Z.lor x flags) by (apply Z.lor_nonneg; lia).
  apply Z.log2_lt_pow2; [lia|]. rewrite Z.log2_lor by lia.
  apply Z.max_lub_lt.
  - destruct (Z.eq_dec x 0) as [->|]; [cbn; lia|apply Z.log2_lt_pow2; lia].
  - destruct (Z.eq_dec flags 0) as [->|]; [cbn; lia|apply Z.log2_lt_pow2; lia].
Qed.

Lemma bind_done {S A B : Type} (m : M S A) (k : A -> M S B) (s s' : S) (a : A) :
  m s = Done a s' -> bind m k s = k a s'.
Proof. unfold bind. now intros ->. Qed.

Lemma bind_step {S A B : Type} (f : S -> S) (a : A) (k : A -> M S B) (s : S) :
  bind (fun s0 => Done a (f s0)) k s = k a (f s).
Proof. reflexivity. Qed.

(** * [earth/cpu_mmu.c] *)

Section Mmu.

Set Default Proof Using "Type".

(** [MAX_NPROCESS] is defined in [egos.h], which is not among the
    sources: the number of entries of [pid_to_pagetable_base]. *)
Variable MAX_NPROCESS : Z.

(** The address at which the paging device keeps the storage of each
    frame (see [paging_read] below). *)
Variable frame_address : Z -> Z.

(** Propositional steps, kept from depending on the two parameters. *)
Ltac prop := try clear frame_address; try clear MAX_NPROCESS; tauto.
Ltac prop_eq := try clear frame_address; try clear MAX_NPROCESS; intuition congruence.

(** The page that [(void* )(page_no << 12)] points at. *)
Definition page_addr (page_no : Z) : Z := wrap32 (Z.shiftl page_no 12).

(** ** Interface of the paging device *)

(** Modelled from the spec: [paging_init] of [earth/dev_page.c], which
    is not among the sources: "initializes the Paging Device". *)
Definition paging_init (s : state) : state := log PagingInit s.

(** Modelled from the spec: [paging_invalidate_cache] of
    [earth/dev_page.c]: "invalidate any cached backing-store copy"; the
    frame's storage in memory is left as it is. *)
Definition paging_invalidate_cache (fid : Z) (s : state) : state :=
  log (PagingInvalidate fid) s.

(** Modelled from the spec: [paging_write] of [earth/dev_page.c]: "write
    its contents out to the Paging Device keyed by its bound page number",
    "[write] persists content keyed by [(frame_id, page_no)] for later
    [read]": the page at [page_no << 12] is copied into the storage of
    frame [fid]. *)
Definition paging_write (fid page_no : Z) (s : state) : state :=
  log (PagingWrite fid page_no)
      (set_memory (memcpy (memory s) (frame_address fid) (page_addr page_no) PAGE_SIZE) s).

(** Modelled from the spec: [paging_read] of [earth/dev_page.c]:
    "materialize that frame's storage in memory" and give its "in-memory
    address"; with [alloc_only] the "content need not be read from
    backing store, only reserved". *)
Definition paging_read (fid alloc_only : Z) (s : state) : Z * state :=
  (frame_address fid, log (PagingRead fid alloc_only) s).

(** ** Allocation and free of physical frames *)

(** [!table[i].use] *)
Definition unused (s : state) (i : Z) : bool := Frame.use (table s i) =? 0.

(** [table[i].use = 1] *)
Definition mark_used (e : Frame.mapping) : Frame.mapping :=
  Frame.mk 1 (Frame.pid e) (Frame.page_no e).

(** [int mmu_alloc(int* frame_id, void** cached_addr)]: the result is
    the returned [int] with the values stored through the two pointers. *)
Definition mmu_alloc : M state (Z * Z * Z) :=
  fun s =>
    match find (unused s) frame_ids with
    | Some i =>
        let (cached_addr, s1) := paging_read i 1 s in
        Done (0, i, cached_addr) (set_table (upd (table s1) i (mark_used (table s1 i))) s1)
    | None => FATAL "mmu_alloc: no more available frames" s
    end.

(** [table[i].use && table[i].pid == pid] *)
Definition owned_by (pid : Z) (e : Frame.mapping) : bool :=
  negb (Frame.use e =? 0) && (Frame.pid e =? pid).

(** One iteration of the loop of [mmu_free]. *)
Definition mmu_free_step (pid : Z) (s : state) (i : Z) : state :=
  if owned_by pid (table s i) then
    let s1 := paging_invalidate_cache i s in
    set_table (upd (table s1) i Frame.zero) s1
  else s.

(** [pid] indexes [pid_to_pagetable_base]. *)
Definition valid_pid (pid : Z) : bool := (0 <=? pid) && (pid <? MAX_NPROCESS).

(** [int mmu_free(int pid)]; the function has no [return] statement.
    The store [pid_to_pagetable_base[pid] = 0] is outside the array, hence
    undefined, unless [0 <= pid < MAX_NPROCESS]. *)
Definition mmu_free (pid : Z) : M state unit :=
  fun s =>
    let s1 := fold_left (mmu_free_step pid) frame_ids s in
    if valid_pid pid then
      Done tt (set_pid_to_pagetable_base (upd (pid_to_pagetable_base s1) pid 0) s1)
    else Undefined.

(** ** Software TLB translation *)

(** [fid] indexes [table]. *)
Definition valid_frame (fid : Z) : bool := (0 <=? fid) && (fid <? NFRAMES).

(** [int soft_mmu_map(int pid, int page_no, int frame_id)]; the function
    has no [return] statement.  The two stores are outside [table], hence
    undefined, unless [0 <= frame_id < NFRAMES]. *)
Definition soft_mmu_map (pid page_no fid : Z) : M state unit :=
  fun s =>
    if valid_frame fid then
      Done tt (set_table (upd (table s) fid
                              (Frame.mk (Frame.use (table s fid)) pid page_no)) s)
    else Undefined.

(** One iteration of the first loop of [soft_mmu_switch]. *)
Definition unmap_step (s : state) (i : Z) : state :=
  if owned_by (curr_vm_pid s) (table s i)
  then paging_write i (Frame.page_no (table s i)) s
  else s.

(** One iteration of the second loop of [soft_mmu_switch]. *)
Definition map_step (pid : Z) (s : state) (i : Z) : state :=
  if owned_by pid (table s i) then
    let (src, s1) := paging_read i 0 s in
    set_memory (memcpy (memory s1) (page_addr (Frame.page_no (table s1 i))) src PAGE_SIZE) s1
  else s.

(** [int soft_mmu_switch(int pid)]: [Some 0] is [return 0]; the end of
    the function is reached without a [return] statement. *)
Definition soft_mmu_switch (pid : Z) : M state (option Z) :=
  fun s =>
    if pid =? curr_vm_pid s then Done (Some 0) s
    else
      let s1 := fold_left unmap_step frame_ids s in
      let s2 := fold_left (map_step pid) frame_ids s1 in
      Done None (set_curr_vm_pid pid s2).

(** ** Page table translation *)

Definition FLAG_VALID_RWX : Z := 0xF.
Definition FLAG_NEXT_LEVEL : Z := 0x1.

(** [earth->mmu_alloc(...)]: a call through the function pointer. *)
Definition earth_mmu_alloc : M state (Z * Z * Z) :=
  fun s =>
    match Earth.mmu_alloc (earth s) with
    | fn_mmu_alloc => mmu_alloc s
    | _ => Undefined
    end.

(** [leaf[vpn0 + i] = ((addr + i * PAGE_SIZE) >> 2) | FLAG_VALID_RWX] *)
Definition leaf_step (addr vpn0 : Z) (s : state) (i : Z) : state :=
  set_memory (store32 (memory s) (leaf s + 4 * (vpn0 + i))
                      (Z.lor (Z.shiftr (wrap32 (addr + i * PAGE_SIZE)) 2) FLAG_VALID_RWX)) s.

(** [void setup_identity_region(unsigned int addr, int npages)] *)
Definition setup_identity_region (addr npages : Z) : M state unit :=
  r <- earth_mmu_alloc ;;
  fun s =>
    let '(_, fid, cached_addr) := r in
    (* Allocate the leaf page table *)
    let s := set_leaf cached_addr (set_frame_id fid s) in
    let s := set_memory (memset (memory s) (leaf s) 0 PAGE_SIZE) s in
    (* Setup the entry in the root page table *)
    let vpn1 := Z.shiftr addr 22 in
    let s := set_memory (store32 (memory s) (root s + 4 * vpn1)
                                 (Z.lor (Z.shiftr (leaf s) 2) FLAG_NEXT_LEVEL)) s in
    (* Setup the entries in the leaf page table *)
    let vpn0 := Z.land (Z.shiftr addr 12) 0x3FF in
    Done tt (fold_left (leaf_step addr vpn0) (indices 0 (Z.to_nat npages)) s).

(** [void pagetable_identity_mapping(int pid)] *)
Definition pagetable_identity_mapping (pid : Z) : M state unit :=
  r <- earth_mmu_alloc ;;
  (fun s =>
     let '(_, fid, cached_addr) := r in
     (* Allocate the root page table and set the page table base (satp) *)
     let s := set_root cached_addr (set_frame_id fid s) in
     let s := set_memory (memset (memory s) (root s) 0 PAGE_SIZE) s in
     if valid_pid pid
     then Done tt (set_pid_to_pagetable_base (upd (pid_to_pagetable_base s) pid (root s)) s)
     else Undefined) ;;;
  (* Allocate the leaf page tables *)
  setup_identity_region 0x02000000 16 ;;;   (* CLINT *)
  setup_identity_region 0x10013000 1 ;;;    (* UART0 *)
  setup_identity_region 0x20400000 1024 ;;; (* boot ROM *)
  setup_identity_region 0x20800000 1024 ;;; (* disk image *)
  setup_identity_region 0x08000000 8 ;;;    (* ITIM memory *)
  setup_identity_region 0x80000000 1024.    (* DTIM memory *)

(** [int pagetable_mmu_map(int pid, int page_no, int frame_id)] *)
Definition pagetable_mmu_map (pid page_no fid : Z) : M state Z :=
  FATAL "mmu_map() using page table translation not implemented".

(** [int pagetable_mmu_switch(int pid)] *)
Definition pagetable_mmu_switch (pid : Z) : M state Z :=
  FATAL "mmu_switch() using page table translation not implemented".

(** ** MMU initialization *)

Definition set_platform (p : platform_t) (s : state) : state :=
  let e := earth s in
  set_earth (Earth.mk p (Earth.excp_handler e) (Earth.mmu_alloc e) (Earth.mmu_free e)
                      (Earth.mmu_map e) (Earth.mmu_switch e)) s.

(** [void platform_detect(int id)]: besides setting the platform it moves
    [mepc] past the store that trapped, so that the store is skipped. *)
Definition platform_detect (id : Z) (s : state) : state := set_platform ARTY s.

(** Modelled from the spec: [earth->excp_register], which is not among
    the sources: "[register(handler)] / [register(none)] installs/removes
    a one-shot fault handler". *)
Definition excp_register (h : funptr) (s : state) : state :=
  let e := earth s in
  set_earth (Earth.mk (Earth.platform e) h (Earth.mmu_alloc e) (Earth.mmu_free e)
                      (Earth.mmu_map e) (Earth.mmu_switch e)) s.

(** [*(int* )(0x1000) = 1]: the store either traps into the registered
    handler, which skips it, or is carried out. *)
Definition probe_store : M state unit :=
  fun s =>
    if probe_traps s then
      match Earth.excp_handler (earth s) with
      | fn_platform_detect => Done tt (platform_detect 0 s)
      | _ => Undefined
      end
    else Done tt (set_memory (store32 (memory s) 0x1000 1) s).

Definition is_choice (c : ascii) : bool := (c =? "0")%char || (c =? "1")%char.

(** [for (buf[0] = 0; buf[0] != '0' && buf[0] != '1'; earth->tty_read(buf, 2));]
    Modelled from the spec: [earth->tty_read], which is not among the
    sources, is the "blocking single-line read": each call takes the next
    line of [console] and leaves its first character in [buf[0]]. *)
Fixpoint await_choice (pending : list ascii) : M state ascii :=
  fun s =>
    match pending with
    | [] => Blocked (set_console [] s)
    | c :: rest =>
        if is_choice c then Done c (set_console rest s) else await_choice rest s
    end.

Definition install (alloc free map switch : funptr) (s : state) : state :=
  let e := earth s in
  set_earth (Earth.mk (Earth.platform e) (Earth.excp_handler e) alloc free map switch) s.

Definition platform_eqb (a b : platform_t) : bool :=
  match a, b with
  | QEMU, QEMU | ARTY, ARTY => true
  | _, _ => false
  end.

(** [void mmu_init()] *)
Definition mmu_init : M state unit :=
  (* Choose memory translation mechanism *)
  (fun s => Done tt
     (log (ConsoleOut "  Enter 1: software TLB (QEMU or Arty board)")
        (log (ConsoleOut "  Enter 0: page tables  (QEMU)")
           (log (ConsoleOut "Choose a memory translation mechanism:") s)))) ;;;
  c <- (fun s => await_choice (console s) s) ;;
  (fun s => Done tt
     (log (ConsoleOut ((if (c =? "0")%char then "Page table" else "Software")
                         ++ " translation is chosen")) s)) ;;;
  (* Check whether the hardware platform supports supervisor mode *)
  (fun s => Done tt (excp_register fn_platform_detect (set_platform QEMU s))) ;;;
  probe_store ;;;
  (fun s => Done tt (excp_register NULL s)) ;;;
  (fun s =>
     if platform_eqb (Earth.platform (earth s)) ARTY && (c =? "0")%char
     then FATAL "Arty board doesn't support page tables (supervisor mode)." s
     else Done tt s) ;;;
  (* Initialize MMU interface functions *)
  (fun s => Done tt (install fn_mmu_alloc fn_mmu_free fn_soft_mmu_map fn_soft_mmu_switch s)) ;;;
  (if (c =? "0")%char then
     pagetable_identity_mapping 0 ;;;
     (fun s =>
        let e := earth s in
        Done tt (install (Earth.mmu_alloc e) (Earth.mmu_free e)
                         fn_pagetable_mmu_map fn_pagetable_mmu_switch s))
   else ret tt) ;;;
  (* Initialize the paging device *)
  (fun s => Done tt (paging_init s)).

(** The machine as the boot loader leaves it: static storage is zero,
    except [curr_vm_pid], initialized to [-1]. *)
Definition boot_state (m : mem) (traps : bool) (input : list ascii) : state :=
  mkState (fun _ => Frame.zero) (fun _ => 0) (-1) 0 0 0
          (Earth.mk QEMU NULL NULL NULL NULL NULL) m traps input [].

(** ** Auxiliary definitions for the properties *)

(** [n] calls of [mmu_alloc] in a row, with no call of [mmu_free] in
    between; the result lists the frame ids in the order returned. *)
Fixpoint alloc_many (n : nat) : M state (list Z) :=
  match n with
  | O => ret []
  | S n' =>
      r <- mmu_alloc ;;
      ids <- alloc_many n' ;;
      ret (snd (fst r) :: ids)
  end.

(** The unused frames, lowest index first. *)
Definition free_frames (s : state) : list Z := filter (unused s) frame_ids.

(** The used frames of [pid], lowest index first. *)
Definition frames_of (pid : Z) (s : state) : list Z :=
  filter (fun i => owned_by pid (table s i)) frame_ids.

(** The state a successful [mmu_alloc] that picks frame [i] leaves. *)
Definition allocated (i : Z) (s : state) : state :=
  set_table (upd (table s) i (mark_used (table s i))) (log (PagingRead i 1) s).

(** [paging_write(i, table[i].page_no)] on the memory: the page of frame
    [i] goes from the address window to the frame's storage. *)
Definition write_out (tbl : Z -> Frame.mapping) (m : mem) (i : Z) : mem :=
  memcpy m (frame_address i) (page_addr (Frame.page_no (tbl i))) PAGE_SIZE.

(** [memcpy((void* )(table[i].page_no << 12), paging_read(i, 0), PAGE_SIZE)]
    on the memory: the storage of frame [i] goes to its page. *)
Definition copy_in (tbl : Z -> Frame.mapping) (m : mem) (i : Z) : mem :=
  memcpy m (page_addr (Frame.page_no (tbl i))) (frame_address i) PAGE_SIZE.

(** Two pages, given by their first addresses, do not overlap. *)
Definition apart (a b : Z) : bool := (a + PAGE_SIZE <=? b) || (b + PAGE_SIZE <=? a).

Definition usedb (tbl : Z -> Frame.mapping) (g : Z) : bool :=
  negb (Frame.use (tbl g) =? 0).

(** The storage of the used frames lies outside the pages that used
    frames are bound to, and no two used frames share storage. *)
Definition separated (tbl : Z -> Frame.mapping) : bool :=
  forallb
    (fun g =>
       negb (usedb tbl g) ||
       forallb
         (fun j =>
            negb (usedb tbl j) ||
            (((g =? j) || apart (frame_address g) (frame_address j)) &&
             apart (frame_address g) (page_addr (Frame.page_no (tbl j)))))
         frame_ids)
    frame_ids.

(** [table[f] = { use, pid, page_no }] as [soft_mmu_map] leaves it. *)
Definition bound (pid page_no f : Z) (s : state) : state :=
  set_table (upd (table s) f (Frame.mk (Frame.use (table s f)) pid page_no)) s.

(** Modelled from the spec: the two-level Sv32 walk that the hardware
    performs (no source file holds it): the "root table: 1024 entries,
    indexed by virtual address bits [31:22]", the "leaf table: 1024
    entries, indexed by bits [21:12]"; in an entry the "high bits encode a
    physical frame number (physical address shifted right 2 bits)", flags
    [0x1] mean "valid, points to next-level table" and [0xF] a "terminal
    leaf mapping".  The result is the physical address, if any. *)
Definition sv32_walk (m : mem) (root_table va : Z) : option Z :=
  let pte1 := load32 m (root_table + 4 * Z.shiftr va 22) in
  if Z.land pte1 0xF =? FLAG_NEXT_LEVEL then
    let leaf_table := Z.shiftl (Z.shiftr pte1 10) 12 in
    let pte0 := load32 m (leaf_table + 4 * Z.land (Z.shiftr va 12) 0x3FF) in
    if Z.land pte0 0xF =? FLAG_VALID_RWX
    then Some (Z.shiftl (Z.shiftr pte0 10) 12 + Z.land va 0xFFF)
    else None
  else None.

(** The leaf entry that [setup_identity_region] writes for page [i] of
    the region. *)
Definition leaf_entry (addr i : Z) : Z :=
  Z.lor (Z.shiftr (wrap32 (addr + i * PAGE_SIZE)) 2) FLAG_VALID_RWX.

(** The state in which the loop of [setup_identity_region] starts, when
    the leaf table went to frame [i]. *)
Definition leaf_installed (addr i : Z) (s : state) : state :=
  let s := set_leaf (frame_address i) (set_frame_id i (allocated i s)) in
  let s := set_memory (memset (memory s) (leaf s) 0 PAGE_SIZE) s in
  set_memory (store32 (memory s) (root s + 4 * Z.shiftr addr 22)
                      (Z.lor (Z.shiftr (leaf s) 2) FLAG_NEXT_LEVEL)) s.

(** The state in which [pagetable_identity_mapping] starts on the
    regions, when the root table went to frame [i]. *)
Definition root_installed (pid i : Z) (s : state) : state :=
  let s := set_root (frame_address i) (set_frame_id i (allocated i s)) in
  let s := set_memory (memset (memory s) (root s) 0 PAGE_SIZE) s in
  set_pid_to_pagetable_base (upd (pid_to_pagetable_base s) pid (root s)) s.

(** The table [tbl'] is [tbl] with [use = 1] in the entries listed. *)
Definition marks (ids : list Z) (tbl tbl' : Z -> Frame.mapping) : Prop :=
  forall j, tbl' j = if mem_index j ids then mark_used (tbl j) else tbl j.

(** What [mmu_init] prints before it probes the platform. *)
Definition banner (c : ascii) : list event :=
  [ ConsoleOut "Choose a memory translation mechanism:"
  ; ConsoleOut "  Enter 0: page tables  (QEMU)"
  ; ConsoleOut "  Enter 1: software TLB (QEMU or Arty board)"
  ; ConsoleOut ((if (c =? "0")%char then "Page table" else "Software")
                  ++ " translation is chosen") ].

(** The state after the choice [c] was read and the platform probed. *)
Definition probed (c : ascii) (rest : list ascii) (s : state) : state :=
  let s := log (ConsoleOut "Choose a memory translation mechanism:") s in
  let s := log (ConsoleOut "  Enter 0: page tables  (QEMU)") s in
  let s := log (ConsoleOut "  Enter 1: software TLB (QEMU or Arty board)") s in
  let s := set_console rest s in
  let s := log (ConsoleOut ((if (c =? "0")%char then "Page table" else "Software")
                              ++ " translation is chosen")) s in
  let s := excp_register fn_platform_detect (set_platform QEMU s) in
  let s := if probe_traps s then platform_detect 0 s
           else set_memory (store32 (memory s) 0x1000 1) s in
  excp_register NULL s.

(** The same with the software-TLB interface installed. *)
Definition wired (c : ascii) (rest : list ascii) (s : state) : state :=
  install fn_mmu_alloc fn_mmu_free fn_soft_mmu_map fn_soft_mmu_switch (probed c rest s).

(** A call of the frame interface, as the rest of the kernel makes it. *)
Inductive call : Type :=
| CallAlloc
| CallFree (pid : Z)
| CallMap (pid page_no fid : Z).

(** A sequence of calls.  Besides the state it keeps the frames that
    [soft_mmu_map] has bound since their entry was last zeroed (at boot or
    by [mmu_free]) and returns them at the end. *)
Fixpoint run_calls (cs : list call) (bound_frames : list Z) : M state (list Z) :=
  match cs with
  | [] => ret bound_frames
  | CallAlloc :: cs' => mmu_alloc ;;; run_calls cs' bound_frames
  | CallFree pid :: cs' =>
      fun s =>
        (mmu_free pid ;;;
         run_calls cs' (filter (fun i => negb (owned_by pid (table s i))) bound_frames)) s
  | CallMap pid page_no fid :: cs' =>
      soft_mmu_map pid page_no fid ;;; run_calls cs' (fid :: bound_frames)
  end.

(** Entries outside [bound_frames] still have owner and page zero. *)
Definition unbound_clean (bound_frames : list Z) (s : state) : Prop :=
  (forall i, In i bound_frames -> 0 <= i < NFRAMES) /\
  (forall i, ~ In i bound_frames ->
             Frame.pid (table s i) = 0 /\ Frame.page_no (table s i) = 0).

(** ** Auxiliary definitions for the further properties *)

(** The regions that [pagetable_identity_mapping] sets up, in the order
    of its calls: first address and number of pages. *)
Definition identity_regions : list (Z * Z) :=
  [ (0x02000000, 16)      (* CLINT *)
  ; (0x10013000, 1)       (* UART0 *)
  ; (0x20400000, 1024)    (* boot ROM *)
  ; (0x20800000, 1024)    (* disk image *)
  ; (0x08000000, 8)       (* ITIM memory *)
  ; (0x80000000, 1024) ]. (* DTIM memory *)

(** Calls of [setup_identity_region], one per region, in order. *)
Fixpoint setup_regions (l : list (Z * Z)) : M state unit :=
  match l with
  | [] => ret tt
  | r :: l' => setup_identity_region (fst r) (snd r) ;;; setup_regions l'
  end.

(** The page of [va] is one of the [npages] pages from [addr] on. *)
Definition in_region (addr npages va : Z) : bool :=
  (Z.shiftr addr 12 <=? Z.shiftr va 12) && (Z.shiftr va 12 <? Z.shiftr addr 12 + npages).

(** [va] lies in a page of one of the [identity_regions]. *)
Definition covered (va : Z) : bool :=
  existsb (fun r => in_region (fst r) (snd r) va) identity_regions.

(** A leaf table set up by [setup_identity_region]: the address and the
    number of pages of its region, and the frame the table went to. *)
Definition leaf_table : Type := (Z * Z * Z)%type.

(** The root entry at index [j], when the [tables] were set up one
    after the other, the most recent first in the list. *)
Definition root_entry_of (tables : list leaf_table) (j : Z) : Z :=
  match find (fun t => Z.shiftr (fst (fst t)) 22 =? j) tables with
  | Some t => Z.lor (Z.shiftr (frame_address (snd t)) 2) FLAG_NEXT_LEVEL
  | None => 0
  end.

(** The entry at index [j] of leaf table [t]. *)
Definition leaf_entry_of (t : leaf_table) (j : Z) : Z :=
  let vpn0 := Z.land (Z.shiftr (fst (fst t)) 12) 0x3FF in
  if (vpn0 <=? j) && (j <? vpn0 + snd (fst t))
  then Z.lor (Z.shiftr (fst (fst t) + (j - vpn0) * PAGE_SIZE) 2) FLAG_VALID_RWX
  else 0.

(** Memory holds the root table and the leaf [tables]. *)
Definition tables_installed (tables : list leaf_table) (s : state) : Prop :=
  (forall j, 0 <= j < 1024 ->
             load32 (memory s) (root s + 4 * j) = root_entry_of tables j) /\
  (forall t j, In t tables -> 0 <= j < 1024 ->
               load32 (memory s) (frame_address (snd t) + 4 * j) = leaf_entry_of t j).

(** A region that one leaf table can hold. *)
Definition fits (addr npages : Z) : Prop :=
  0 <= addr < 2 ^ 32 /\ 0 <= npages /\
  Z.land (Z.shiftr addr 12) 0x3FF + npages <= 1024.

(** The storage of frame [i] can hold a page table: it is a page of the
    32-bit physical address space. *)
Definition table_frame (i : Z) : Prop :=
  frame_address i mod PAGE_SIZE = 0 /\ 0 <= frame_address i < 2 ^ 32.

(** * Properties of [earth/cpu_mmu.c] *)

(** ** The frame allocator *)

Lemma mmu_alloc_unfold (s : state) :
  mmu_alloc s =
  match free_frames s with
  | i :: _ => Done (0, i, frame_address i) (allocated i s)
  | [] => Halted "mmu_alloc: no more available frames" s
  end.
Proof.
  unfold mmu_alloc, free_frames. rewrite find_filter_head.
  destruct (filter (unused s) frame_ids); reflexivity.
Qed.

Lemma unused_allocated (i j : Z) (s : state) :
  unused (allocated i s) j = if j =? i then false else unused s j.
Proof.
  unfold unused, allocated. simpl. unfold upd.
  destruct (j =? i); reflexivity.
Qed.

Lemma free_frames_allocated (s : state) (i : Z) (rest : list Z) :
  free_frames s = i :: rest -> free_frames (allocated i s) = rest.
Proof.
  intros H. unfold free_frames.
  rewrite (filter_ext_in (unused (allocated i s))
                          (fun j => if j =? i then false else unused s j) frame_ids).
  - exact (filter_drop_head (unused s) frame_ids NoDup_frame_ids i rest H).
  - intros x _. apply unused_allocated.
Qed.

Lemma free_frames_spec (s : state) (i : Z) :
  In i (free_frames s) <-> 0 <= i < NFRAMES /\ unused s i = true.
Proof. unfold free_frames. rewrite filter_In, in_frame_ids. prop. Qed.

Lemma NoDup_free_frames (s : state) : NoDup (free_frames s).
Proof. exact (NoDup_filter (unused s) NoDup_frame_ids). Qed.

(** [n] calls succeed exactly when [n] frames are free, and then hand
    out the first [n] free frames in order; otherwise the run halts. *)
Lemma alloc_many_spec (n : nat) :
  forall s,
    (n <= List.length (free_frames s))%nat ->
    exists s',
      alloc_many n s = Done (firstn n (free_frames s)) s' /\
      free_frames s' = skipn n (free_frames s) /\
      (forall j, ~ In j (firstn n (free_frames s)) -> table s' j = table s j) /\
      (forall j, In j (firstn n (free_frames s)) -> table s' j = mark_used (table s j)).
Proof.
  induction n as [|n IH]; intros s Hn.
  - exists s. simpl. repeat split; intros; prop.
  - simpl alloc_many. unfold bind at 1. rewrite mmu_alloc_unfold.
    destruct (free_frames s) as [|i rest] eqn:E; [simpl in Hn; lia|].
    pose proof (free_frames_allocated s i rest E) as Hrest.
    destruct (IH (allocated i s)) as (s' & Hrun & Hfree & Hout & Hin).
    { rewrite Hrest. simpl in Hn. lia. }
    assert (Hnot : ~ In i rest).
    { pose proof (NoDup_free_frames s) as ND. rewrite E in ND. now inversion ND. }
    exists s'. unfold bind. rewrite Hrun. simpl. rewrite Hrest in *.
    repeat split.
    + assumption.
    + intros j Hj. rewrite Hout by prop. unfold allocated. simpl.
      apply upd_other. intros ->. prop.
    + intros j [<-|Hj].
      * rewrite Hout.
        -- unfold allocated. simpl. apply upd_same.
        -- intros Hi. apply Hnot. revert Hi. apply in_firstn.
      * rewrite Hin by assumption. unfold allocated. simpl.
        rewrite upd_other; [reflexivity|].
        intros ->. apply Hnot. revert Hj. apply in_firstn.
Qed.

Lemma free_frames_all (s : state) :
  (forall i, 0 <= i < NFRAMES -> unused s i = true) -> free_frames s = frame_ids.
Proof.
  intros H. apply filter_all. intros i Hi. apply H. now apply in_frame_ids.
Qed.

Lemma free_frames_nil (s : state) :
  (forall i, 0 <= i < NFRAMES -> unused s i = false) <-> free_frames s = [].
Proof.
  unfold free_frames. rewrite <- filter_none. split; intros H i Hi; apply H; now apply in_frame_ids.
Qed.

Lemma alloc_many_S (n : nat) (s : state) :
  alloc_many (S n) s =
  match mmu_alloc s with
  | Done r s1 =>
      match alloc_many n s1 with
      | Done ids s2 => Done (snd (fst r) :: ids) s2
      | Halted msg s2 => Halted msg s2
      | Blocked s2 => Blocked s2
      | Undefined => Undefined
      end
  | Halted msg s1 => Halted msg s1
  | Blocked s1 => Blocked s1
  | Undefined => Undefined
  end.
Proof.
  cbn [alloc_many]. unfold bind, ret.
  destruct (mmu_alloc s) as [r s1|m s1|s1|]; reflexivity.
Qed.

(** A further call after [n] successful ones halts the whole run where
    that call halts. *)
Lemma alloc_many_then_halt (n : nat) :
  forall s ids s' msg,
    alloc_many n s = Done ids s' -> mmu_alloc s' = Halted msg s' ->
    alloc_many (S n) s = Halted msg s'.
Proof.
  induction n as [|n IH]; intros s ids s' msg Hrun Hhalt.
  - injection Hrun as <- <-. rewrite alloc_many_S. now rewrite Hhalt.
  - rewrite alloc_many_S in Hrun. rewrite (alloc_many_S (S n)).
    destruct (mmu_alloc s) as [r s1|m s1|s1|]; try discriminate.
    destruct (alloc_many n s1) as [ids1 s2|m s2|s2|] eqn:E; try discriminate.
    injection Hrun as <- <-.
    now rewrite (IH s1 ids1 s2 msg E Hhalt).
Qed.

(** C1: [mmu_alloc] takes the lowest unused frame [i]: it calls
    [paging_read(i, 1)], sets [table[i].use], leaves the owner pid and page
    number of the frame (and every other entry) as they were, and returns 0
    with the frame id and the address of its storage.  Hence [n] calls in a
    row, when [n] frames are free (any [n <= NFRAMES] when all are), return
    [n] pairwise distinct ids, none of which was allocated before. *)
Theorem mmu_alloc_first_fit_unique_ids :
  (forall s i,
      0 <= i < NFRAMES -> unused s i = true ->
      (forall j, 0 <= j < i -> unused s j = false) ->
      mmu_alloc s = Done (0, i, frame_address i) (allocated i s) /\
      trace (allocated i s) = trace s ++ [PagingRead i 1] /\
      table (allocated i s) i
        = Frame.mk 1 (Frame.pid (table s i)) (Frame.page_no (table s i)) /\
      (forall j, j <> i -> table (allocated i s) j = table s j)) /\
  (forall s n,
      (n <= List.length (free_frames s))%nat ->
      exists ids s',
        alloc_many n s = Done ids s' /\
        List.length ids = n /\
        NoDup ids /\
        (forall i, In i ids ->
                   0 <= i < NFRAMES /\ unused s i = true /\ unused s' i = false)) /\
  (forall s,
      (forall i, 0 <= i < NFRAMES -> unused s i = true) ->
      List.length (free_frames s) = Z.to_nat NFRAMES).
Proof.
  split; [|split].
  - intros s i Hi Ui Hlow. split; [|split; [|split]].
    + unfold mmu_alloc.
      now rewrite (find_frame_ids_first (unused s) i Hi Ui Hlow).
    + reflexivity.
    + unfold allocated. simpl. now rewrite upd_same.
    + intros j Hj. unfold allocated. simpl. now apply upd_other.
  - intros s n Hn.
    destruct (alloc_many_spec n s Hn) as (s' & Hrun & Hfree & Hout & Hin).
    exists (firstn n (free_frames s)), s'. split; [assumption|]. split; [|split].
    + apply firstn_length_le. assumption.
    + apply NoDup_firstn, NoDup_free_frames.
    + intros i Hi. pose proof (in_firstn _ _ _ Hi) as Hi'.
      apply free_frames_spec in Hi'. destruct Hi' as [Hr Hu].
      repeat split; try lia; try assumption.
      unfold unused. rewrite (Hin i Hi). reflexivity.
  - intros s H. rewrite (free_frames_all s H). apply length_frame_ids.
Qed.

(** C2: [mmu_alloc] ends in [FATAL] exactly when no frame has
    [use == 0]; it then changes nothing and no continuation runs.  With a
    free frame it returns; it never waits.  From a table with every frame
    unused, [NFRAMES] calls in a row succeed and call [NFRAMES + 1] is the
    one that halts. *)
Theorem mmu_alloc_fatal_iff_exhausted :
  (forall s,
      (exists msg s', mmu_alloc s = Halted msg s') <->
      (forall i, 0 <= i < NFRAMES -> unused s i = false)) /\
  (forall s,
      (forall i, 0 <= i < NFRAMES -> unused s i = false) ->
      mmu_alloc s = Halted "mmu_alloc: no more available frames" s /\
      forall (B : Type) (k : Z * Z * Z -> M state B),
        bind mmu_alloc k s = Halted "mmu_alloc: no more available frames" s) /\
  (forall s i,
      0 <= i < NFRAMES -> unused s i = true ->
      exists r s', mmu_alloc s = Done r s') /\
  (forall s,
      (exists r s', mmu_alloc s = Done r s') \/
      mmu_alloc s = Halted "mmu_alloc: no more available frames" s) /\
  (forall s,
      (forall i, 0 <= i < NFRAMES -> unused s i = true) ->
      exists s',
        alloc_many (Z.to_nat NFRAMES) s = Done frame_ids s' /\
        mmu_alloc s' = Halted "mmu_alloc: no more available frames" s' /\
        alloc_many (S (Z.to_nat NFRAMES)) s
          = Halted "mmu_alloc: no more available frames" s').
Proof.
  assert (Hhalt : forall s, (forall i, 0 <= i < NFRAMES -> unused s i = false) ->
                            mmu_alloc s = Halted "mmu_alloc: no more available frames" s).
  { intros s H. rewrite mmu_alloc_unfold. apply free_frames_nil in H. now rewrite H. }
  split; [|split; [|split; [|split]]].
  - intros s. split.
    + intros (msg & s' & H). apply free_frames_nil.
      rewrite mmu_alloc_unfold in H. destruct (free_frames s); [reflexivity|discriminate].
    + intros H. eauto.
  - intros s H. split; [now apply Hhalt|].
    intros B k. unfold bind. now rewrite (Hhalt s H).
  - intros s i Hi Ui. rewrite mmu_alloc_unfold.
    destruct (free_frames s) as [|j rest] eqn:E; [|eauto].
    rewrite <- free_frames_nil in E. rewrite (E i Hi) in Ui. discriminate.
  - intros s. rewrite mmu_alloc_unfold.
    destruct (free_frames s) as [|j rest]; [right; reflexivity|left; eauto].
  - intros s H.
    destruct (alloc_many_spec (Z.to_nat NFRAMES) s) as (s' & Hrun & Hfree & _).
    { rewrite (free_frames_all s H), length_frame_ids. lia. }
    rewrite (free_frames_all s H) in Hrun, Hfree.
    rewrite <- length_frame_ids in Hrun, Hfree.
    rewrite firstn_all in Hrun. rewrite skipn_all in Hfree.
    exists s'. rewrite length_frame_ids in Hrun.
    assert (Hs' : mmu_alloc s' = Halted "mmu_alloc: no more available frames" s').
    { apply Hhalt. now apply free_frames_nil. }
    split; [assumption|]. split; [assumption|].
    now apply (alloc_many_then_halt _ s frame_ids s').
Qed.

(** ** [mmu_free] *)

Lemma owned_by_zero (pid : Z) : owned_by pid Frame.zero = false.
Proof. reflexivity. Qed.

Lemma table_free_step (pid : Z) (s : state) (a i : Z) :
  table (mmu_free_step pid s a) i =
  if (i =? a) && owned_by pid (table s i) then Frame.zero else table s i.
Proof.
  unfold mmu_free_step. destruct (Z.eqb_spec i a) as [->|Hne]; simpl.
  - destruct (owned_by pid (table s a)); simpl; [apply upd_same|reflexivity].
  - destruct (owned_by pid (table s a)); simpl; [now apply upd_other|reflexivity].
Qed.

(** The loop of [mmu_free] clears exactly the used frames of [pid]. *)
Lemma table_free_loop (pid : Z) (l : list Z) :
  forall s i,
    table (fold_left (mmu_free_step pid) l s) i =
    if mem_index i l && owned_by pid (table s i) then Frame.zero else table s i.
Proof.
  induction l as [|a l IH]; intros s i; [reflexivity|].
  cbn [fold_left]. rewrite IH, table_free_step. unfold mem_index. cbn [existsb].
  fold (mem_index i l).
  destruct (i =? a), (mem_index i l), (owned_by pid (table s i)) eqn:Ho;
    cbn [andb orb]; rewrite ?owned_by_zero, ?Ho; reflexivity.
Qed.

Lemma trace_free_loop (pid : Z) (l : list Z) :
  NoDup l ->
  forall s,
    trace (fold_left (mmu_free_step pid) l s) =
    trace s ++ map PagingInvalidate (filter (fun i => owned_by pid (table s i)) l).
Proof.
  induction 1 as [|a l Ha Hl IH]; intros s.
  - simpl. now rewrite app_nil_r.
  - cbn [fold_left filter]. rewrite IH.
    rewrite (filter_ext_in (fun i => owned_by pid (table (mmu_free_step pid s a) i))
                           (fun i => owned_by pid (table s i)) l).
    + unfold mmu_free_step. destruct (owned_by pid (table s a)); [|reflexivity].
      simpl. now rewrite <- app_assoc.
    + intros x Hx. rewrite table_free_step.
      destruct (Z.eqb_spec x a) as [->|]; [contradiction|reflexivity].
Qed.

(** Nothing else is written by the loop. *)
Lemma rest_free_loop (pid : Z) (l : list Z) :
  forall s,
    let s' := fold_left (mmu_free_step pid) l s in
    pid_to_pagetable_base s' = pid_to_pagetable_base s /\
    memory s' = memory s /\ curr_vm_pid s' = curr_vm_pid s /\ earth s' = earth s.
Proof.
  induction l as [|a l IH]; intros s; [simpl; prop|].
  cbn [fold_left]. cbn zeta in *.
  destruct (IH (mmu_free_step pid s a)) as (-> & -> & -> & ->).
  unfold mmu_free_step. destruct (owned_by pid (table s a)); simpl; prop.
Qed.

Lemma frames_of_spec (pid : Z) (s : state) (i : Z) :
  In i (frames_of pid s) <-> 0 <= i < NFRAMES /\ owned_by pid (table s i) = true.
Proof. unfold frames_of. rewrite filter_In, in_frame_ids. prop. Qed.

(** The state the loop of [mmu_free] leaves, by its fields. *)
Lemma mmu_free_loop_spec (pid : Z) (s : state) :
  exists s1,
    fold_left (mmu_free_step pid) frame_ids s = s1 /\
    trace s1 = trace s ++ map PagingInvalidate (frames_of pid s) /\
    (forall i, In i (frames_of pid s) -> table s1 i = Frame.zero) /\
    (forall i, ~ In i (frames_of pid s) -> table s1 i = table s i) /\
    pid_to_pagetable_base s1 = pid_to_pagetable_base s /\
    memory s1 = memory s /\ curr_vm_pid s1 = curr_vm_pid s /\ earth s1 = earth s.
Proof.
  eexists. split; [reflexivity|].
  split; [exact (trace_free_loop pid frame_ids NoDup_frame_ids s)|].
  split; [|split; [|exact (rest_free_loop pid frame_ids s)]].
  - intros i Hi. rewrite table_free_loop. apply frames_of_spec in Hi. destruct Hi as [Hr ->].
    apply in_frame_ids, mem_index_In in Hr. now rewrite Hr.
  - intros i Hi. rewrite table_free_loop.
    destruct (mem_index i frame_ids) eqn:Hm; [|reflexivity].
    destruct (owned_by pid (table s i)) eqn:Ho; [|reflexivity].
    exfalso. apply Hi, frames_of_spec. split; [|assumption].
    now apply in_frame_ids, mem_index_In.
Qed.

Lemma mmu_free_unfold (pid : Z) (s s1 : state) :
  valid_pid pid = true ->
  fold_left (mmu_free_step pid) frame_ids s = s1 ->
  mmu_free pid s
  = Done tt (set_pid_to_pagetable_base (upd (pid_to_pagetable_base s1) pid 0) s1).
Proof. intros Hpid <-. unfold mmu_free. now rewrite Hpid. Qed.

(** C3 (amended): for a process id that indexes
    [pid_to_pagetable_base] (the function checks no range, and for any
    other [pid] its last store is outside the array), [mmu_free(pid)] calls
    [paging_invalidate_cache] on every used frame owned by [pid] (lowest
    index first), zeroes the [use], [pid] and [page_no] fields of exactly
    those frames and clears [pid_to_pagetable_base[pid]].  Afterwards no
    used frame is owned by [pid], and a second call (like a call for a
    [pid] that owns nothing) makes no device call and changes no entry. *)
Theorem mmu_free_clears_and_idempotent (pid : Z) (s : state) :
  valid_pid pid = true ->
  exists s',
    mmu_free pid s = Done tt s' /\
    trace s' = trace s ++ map PagingInvalidate (frames_of pid s) /\
    (forall i, In i (frames_of pid s) -> table s' i = Frame.mk 0 0 0) /\
    (forall i, ~ In i (frames_of pid s) -> table s' i = table s i) /\
    pid_to_pagetable_base s' pid = 0 /\
    (forall q, q <> pid -> pid_to_pagetable_base s' q = pid_to_pagetable_base s q) /\
    memory s' = memory s /\
    (forall i, 0 <= i < NFRAMES -> owned_by pid (table s' i) = false) /\
    (frames_of pid s = [] -> trace s' = trace s /\ forall i, table s' i = table s i) /\
    exists s'',
      mmu_free pid s' = Done tt s'' /\
      trace s'' = trace s' /\
      (forall i, table s'' i = table s' i) /\
      (forall q, pid_to_pagetable_base s'' q = pid_to_pagetable_base s' q).
Proof.
  intros Hpid.
  destruct (mmu_free_loop_spec pid s) as (s1 & E1 & Htr & Hin & Hout & Hb & Hm & _).
  assert (Hnone : forall i, 0 <= i < NFRAMES -> owned_by pid (table s1 i) = false).
  { intros i Hi. destruct (owned_by pid (table s i)) eqn:Ho.
    - rewrite Hin; [reflexivity|]. now apply frames_of_spec.
    - rewrite Hout; [assumption|]. rewrite frames_of_spec. intros [_ H]. congruence. }
  exists (set_pid_to_pagetable_base (upd (pid_to_pagetable_base s1) pid 0) s1).
  split; [now apply mmu_free_unfold|].
  split; [exact Htr|]. split; [exact Hin|]. split; [exact Hout|].
  split; [apply upd_same|].
  split; [intros q Hq; cbn; rewrite upd_other by assumption; now rewrite Hb|].
  split; [exact Hm|]. split; [exact Hnone|].
  split.
  { intros E. rewrite E in *. split; [cbn; rewrite Htr; apply app_nil_r|].
    intros i. apply Hout. intros []. }
  remember (set_pid_to_pagetable_base (upd (pid_to_pagetable_base s1) pid 0) s1) as s' eqn:Es'.
  assert (Ht : forall i, table s' i = table s1 i) by (subst s'; reflexivity).
  assert (E : frames_of pid s' = []).
  { apply filter_none. intros i Hi. rewrite Ht. apply Hnone. now apply in_frame_ids. }
  destruct (mmu_free_loop_spec pid s') as (s2 & E2 & Htr2 & _ & Hout2 & Hb2 & _).
  rewrite E in *.
  exists (set_pid_to_pagetable_base (upd (pid_to_pagetable_base s2) pid 0) s2).
  split; [now apply mmu_free_unfold|].
  split; [cbn; rewrite Htr2; apply app_nil_r|].
  split; [intros i; apply Hout2; intros []|].
  intros q. cbn. rewrite Hb2. subst s'. cbn.
  destruct (Z.eq_dec q pid) as [->|Hq].
  - now rewrite !upd_same.
  - now rewrite upd_other.
Qed.

(** ** [soft_mmu_switch] *)

(** The first loop: one [paging_write] per used frame of the resident
    process, lowest index first. *)
Lemma unmap_loop_spec (l : list Z) :
  forall s,
  exists s1,
    fold_left unmap_step l s = s1 /\
    table s1 = table s /\ curr_vm_pid s1 = curr_vm_pid s /\
    trace s1 = trace s ++
               map (fun i => PagingWrite i (Frame.page_no (table s i)))
                   (filter (fun i => owned_by (curr_vm_pid s) (table s i)) l) /\
    memory s1 = fold_left (write_out (table s))
                          (filter (fun i => owned_by (curr_vm_pid s) (table s i)) l)
                          (memory s).
Proof.
  induction l as [|a l IH]; intros s.
  - exists s. simpl. rewrite app_nil_r. prop.
  - cbn [fold_left filter].
    destruct (IH (unmap_step s a)) as (s1 & E & Ht & Hc & Htr & Hm).
    exists s1. split; [exact E|]. clear E.
    unfold unmap_step in *.
    destruct (owned_by (curr_vm_pid s) (table s a)).
    + cbn in Ht, Hc, Htr, Hm. cbn [map fold_left].
      rewrite Htr, <- app_assoc. repeat split; assumption.
    + repeat split; assumption.
Qed.

(** The second loop: one [paging_read(i, 0)] and one copy per used frame
    of [pid], lowest index first. *)
Lemma map_loop_spec (pid : Z) (l : list Z) :
  forall s,
  exists s2,
    fold_left (map_step pid) l s = s2 /\
    table s2 = table s /\ curr_vm_pid s2 = curr_vm_pid s /\
    trace s2 = trace s ++
               map (fun i => PagingRead i 0)
                   (filter (fun i => owned_by pid (table s i)) l) /\
    memory s2 = fold_left (copy_in (table s))
                          (filter (fun i => owned_by pid (table s i)) l)
                          (memory s).
Proof.
  induction l as [|a l IH]; intros s.
  - exists s. simpl. rewrite app_nil_r. prop.
  - cbn [fold_left filter].
    destruct (IH (map_step pid s a)) as (s2 & E & Ht & Hc & Htr & Hm).
    exists s2. split; [exact E|]. clear E.
    unfold map_step in *.
    destruct (owned_by pid (table s a)).
    + cbn in Ht, Hc, Htr, Hm. cbn [map fold_left].
      rewrite Htr, <- app_assoc. repeat split; assumption.
    + repeat split; assumption.
Qed.

Lemma soft_mmu_switch_unfold (pid : Z) (s s1 s2 : state) :
  pid <> curr_vm_pid s ->
  fold_left unmap_step frame_ids s = s1 ->
  fold_left (map_step pid) frame_ids s1 = s2 ->
  soft_mmu_switch pid s = Done None (set_curr_vm_pid pid s2).
Proof.
  intros Hne <- <-. unfold soft_mmu_switch.
  apply Z.eqb_neq in Hne. now rewrite Hne.
Qed.

Lemma soft_mmu_switch_resident (pid : Z) (s : state) :
  pid = curr_vm_pid s -> soft_mmu_switch pid s = Done (Some 0) s.
Proof. intros ->. unfold soft_mmu_switch. now rewrite Z.eqb_refl. Qed.

(** The whole switch, by the fields of the state it leaves. *)
Lemma soft_mmu_switch_spec (pid : Z) (s : state) :
  pid <> curr_vm_pid s ->
  exists s1 s2,
    soft_mmu_switch pid s = Done None (set_curr_vm_pid pid s2) /\
    (* after the first loop *)
    table s1 = table s /\ curr_vm_pid s1 = curr_vm_pid s /\
    trace s1 = trace s ++ map (fun i => PagingWrite i (Frame.page_no (table s i)))
                              (frames_of (curr_vm_pid s) s) /\
    memory s1 = fold_left (write_out (table s)) (frames_of (curr_vm_pid s) s) (memory s) /\
    (* after the second loop *)
    table s2 = table s /\ curr_vm_pid s2 = curr_vm_pid s /\
    trace s2 = trace s1 ++ map (fun i => PagingRead i 0) (frames_of pid s) /\
    memory s2 = fold_left (copy_in (table s)) (frames_of pid s) (memory s1).
Proof.
  intros Hne.
  destruct (unmap_loop_spec frame_ids s) as (s1 & E1 & Ht1 & Hc1 & Htr1 & Hm1).
  destruct (map_loop_spec pid frame_ids s1) as (s2 & E2 & Ht2 & Hc2 & Htr2 & Hm2).
  exists s1, s2. split; [now apply soft_mmu_switch_unfold with s1|].
  rewrite Ht1 in Ht2, Htr2, Hm2. rewrite Hc1 in Hc2.
  unfold frames_of. repeat split; assumption.
Qed.

(** C4: [soft_mmu_switch(pid)] returns 0 at once, leaving the state as
    it is, when [pid] is the resident process.  Otherwise it first calls
    [paging_write(i, table[i].page_no)] for every used frame [i] of the
    resident process, then calls [paging_read(i, 0)] for every used frame
    [i] of [pid] and copies [PAGE_SIZE] bytes from there to address
    [table[i].page_no << 12]; [curr_vm_pid] still names the old process
    when both loops are over, and is set to [pid] last. *)
Theorem soft_mmu_switch_two_phase (pid : Z) (s : state) :
  (pid = curr_vm_pid s -> soft_mmu_switch pid s = Done (Some 0) s) /\
  (pid <> curr_vm_pid s ->
   exists s2,
     soft_mmu_switch pid s = Done None (set_curr_vm_pid pid s2) /\
     curr_vm_pid s2 = curr_vm_pid s /\
     curr_vm_pid (set_curr_vm_pid pid s2) = pid /\
     table s2 = table s /\
     trace s2 = trace s
                ++ map (fun i => PagingWrite i (Frame.page_no (table s i)))
                       (frames_of (curr_vm_pid s) s)
                ++ map (fun i => PagingRead i 0) (frames_of pid s) /\
     memory s2 = fold_left
                   (fun m i => memcpy m (page_addr (Frame.page_no (table s i)))
                                      (frame_address i) PAGE_SIZE)
                   (frames_of pid s)
                   (fold_left
                      (fun m i => memcpy m (frame_address i)
                                         (page_addr (Frame.page_no (table s i))) PAGE_SIZE)
                      (frames_of (curr_vm_pid s) s)
                      (memory s))).
Proof.
  split.
  - apply soft_mmu_switch_resident.
  - intros Hne.
    destruct (soft_mmu_switch_spec pid s Hne)
      as (s1 & s2 & Hrun & Ht1 & Hc1 & Htr1 & Hm1 & Ht2 & Hc2 & Htr2 & Hm2).
    exists s2. split; [exact Hrun|]. split; [exact Hc2|]. split; [reflexivity|].
    split; [exact Ht2|]. split.
    + rewrite Htr2, Htr1. symmetry. apply app_assoc.
    + rewrite Hm2, Hm1. reflexivity.
Qed.

(** ** Contents of memory across a switch *)

Lemma apart_outside (a b k : Z) :
  apart a b = true -> 0 <= k < PAGE_SIZE -> in_range a PAGE_SIZE (b + k) = false.
Proof. unfold apart, in_range. lia. Qed.

Lemma apart_sym (a b : Z) : apart a b = apart b a.
Proof. unfold apart. apply orb_comm. Qed.

Lemma in_range_offset (a k : Z) : 0 <= k < PAGE_SIZE -> in_range a PAGE_SIZE (a + k) = true.
Proof. unfold in_range. lia. Qed.

Lemma page_addr_aligned (p : Z) : page_addr p = PAGE_SIZE * (p mod 2 ^ 20).
Proof.
  unfold page_addr, wrap32, PAGE_SIZE. rewrite Z.shiftl_mul_pow2 by lia.
  change (2 ^ 32) with (2 ^ 20 * 2 ^ 12). rewrite Z.mul_mod_distr_r by lia.
  change (2 ^ 12) with 4096. lia.
Qed.

Lemma page_addr_apart (p q : Z) :
  page_addr p <> page_addr q -> apart (page_addr p) (page_addr q) = true.
Proof. rewrite !page_addr_aligned. unfold apart, PAGE_SIZE. lia. Qed.

Lemma separated_spec (tbl : Z -> Frame.mapping) :
  separated tbl = true ->
  forall g j,
    0 <= g < NFRAMES -> 0 <= j < NFRAMES -> usedb tbl g = true -> usedb tbl j = true ->
    (g <> j -> apart (frame_address g) (frame_address j) = true) /\
    apart (frame_address g) (page_addr (Frame.page_no (tbl j))) = true.
Proof.
  unfold separated. rewrite forallb_forall. intros H g j Hg Hj Ug Uj.
  apply in_frame_ids in Hg, Hj. specialize (H g Hg). rewrite Ug in H. cbn [negb orb] in H.
  rewrite forallb_forall in H. specialize (H j Hj). rewrite Uj in H. cbn [negb orb] in H.
  apply andb_true_iff in H. destruct H as [H1 H2]. split; [|exact H2].
  intros Hne. apply Z.eqb_neq in Hne. now rewrite Hne in H1.
Qed.

Lemma owned_by_used (pid : Z) (tbl : Z -> Frame.mapping) (g : Z) :
  owned_by pid (tbl g) = true -> usedb tbl g = true /\ Frame.pid (tbl g) = pid.
Proof.
  unfold owned_by, usedb. intros H. apply andb_true_iff in H. destruct H as [H1 H2].
  split; [exact H1|now apply Z.eqb_eq].
Qed.

(** Addresses outside the storage written are left alone by write-outs. *)
Lemma write_out_untouched (tbl : Z -> Frame.mapping) (L : list Z) :
  forall m x,
    (forall g, In g L -> in_range (frame_address g) PAGE_SIZE x = false) ->
    fold_left (write_out tbl) L m x = m x.
Proof.
  induction L as [|a L IH]; intros m x H; [reflexivity|].
  cbn [fold_left]. rewrite IH by (intros g Hg; apply H; now right).
  unfold write_out. apply memcpy_outside, H. now left.
Qed.

(** Addresses outside the pages copied to are left alone by copy-ins. *)
Lemma copy_in_untouched (tbl : Z -> Frame.mapping) (L : list Z) :
  forall m x,
    (forall g, In g L -> in_range (page_addr (Frame.page_no (tbl g))) PAGE_SIZE x = false) ->
    fold_left (copy_in tbl) L m x = m x.
Proof.
  induction L as [|a L IH]; intros m x H; [reflexivity|].
  cbn [fold_left]. rewrite IH by (intros g Hg; apply H; now right).
  unfold copy_in. apply memcpy_outside, H. now left.
Qed.

(** After the write-outs, the storage of each frame written holds what
    its page held before. *)
Lemma write_out_saves (tbl : Z -> Frame.mapping) (L : list Z) :
  NoDup L ->
  (forall g j, In g L -> In j L ->
               (g <> j -> apart (frame_address g) (frame_address j) = true) /\
               apart (frame_address g) (page_addr (Frame.page_no (tbl j))) = true) ->
  forall m g k,
    In g L -> 0 <= k < PAGE_SIZE ->
    fold_left (write_out tbl) L m (frame_address g + k)
    = m (page_addr (Frame.page_no (tbl g)) + k).
Proof.
  induction 1 as [|a L Ha Hl IH]; intros Hsep m g k Hg Hk; [destruct Hg|].
  cbn [fold_left]. destruct Hg as [<-|Hg].
  - rewrite write_out_untouched.
    + unfold write_out. rewrite memcpy_inside by now apply in_range_offset.
      f_equal. lia.
    + intros j Hj. apply apart_outside; [|assumption].
      apply Hsep; [now right|now left|]. intros ->. contradiction.
  - rewrite IH; try assumption.
    + unfold write_out. apply memcpy_outside, apart_outside; [|assumption].
      apply Hsep; [now left|now right].
    + intros g' j' Hg' Hj'. apply Hsep; now right.
Qed.

(** After the copy-ins, a page holds what the storage of the last frame
    bound to it held, when every frame bound to it held the same. *)
Lemma copy_in_restores (tbl : Z -> Frame.mapping) (P : Z) (X : Z -> Z) (L : list Z) :
  (forall g j, In g L -> In j L ->
               apart (frame_address g) (page_addr (Frame.page_no (tbl j))) = true) ->
  forall m,
    (forall g k, In g L -> page_addr (Frame.page_no (tbl g)) = P -> 0 <= k < PAGE_SIZE ->
                 m (frame_address g + k) = X k) ->
    (exists g, In g L /\ page_addr (Frame.page_no (tbl g)) = P) ->
    forall k, 0 <= k < PAGE_SIZE -> fold_left (copy_in tbl) L m (P + k) = X k.
Proof.
  induction L as [|a L IH]; intros Hsep m Hslots (f & Hf & HP) k Hk; [destruct Hf|].
  cbn [fold_left].
  assert (Hkeep : forall g k', In g (a :: L) -> 0 <= k' < PAGE_SIZE ->
                    copy_in tbl m a (frame_address g + k') = m (frame_address g + k')).
  { intros g k' Hg Hk'. unfold copy_in. apply memcpy_outside.
    apply apart_outside; [|assumption].
    rewrite apart_sym. apply Hsep; [assumption|now left]. }
  destruct (existsb (fun g => page_addr (Frame.page_no (tbl g)) =? P) L) eqn:Ex.
  - apply existsb_exists in Ex. destruct Ex as (g & Hg & Eg). apply Z.eqb_eq in Eg.
    apply IH; try assumption.
    + intros g' j' Hg' Hj'. apply Hsep; now right.
    + intros g' k' Hg' HP' Hk'. rewrite Hkeep; [|now right|assumption].
      apply Hslots; [now right|assumption|assumption].
    + now exists g.
  - assert (Hnone : forall g, In g L -> page_addr (Frame.page_no (tbl g)) <> P).
    { intros g Hg Eg. apply Z.eqb_eq in Eg.
      assert (existsb (fun g => page_addr (Frame.page_no (tbl g)) =? P) L = true)
        by (apply existsb_exists; now exists g).
      congruence. }
    destruct Hf as [<-|Hf]; [|now destruct (Hnone f Hf)].
    rewrite copy_in_untouched.
    + unfold copy_in. rewrite HP. rewrite memcpy_inside by now apply in_range_offset.
      replace (frame_address a + (P + k - P)) with (frame_address a + k) by lia.
      apply Hslots; [now left|assumption|assumption].
    + intros g Hg. apply apart_outside; [|assumption].
      rewrite <- HP. apply page_addr_apart. rewrite HP. now apply Hnone.
Qed.

(** After the copy-ins, a page holds what the storage of frame [f] held
    when no frame copied after [f] is bound to the same page. *)
Lemma copy_in_last (tbl : Z -> Frame.mapping) (f : Z) (L1 L2 : list Z) (m : mem) (k : Z) :
  (forall j, In j L1 ->
             apart (frame_address f) (page_addr (Frame.page_no (tbl j))) = true) ->
  (forall j, In j L2 ->
             page_addr (Frame.page_no (tbl j)) <> page_addr (Frame.page_no (tbl f))) ->
  0 <= k < PAGE_SIZE ->
  fold_left (copy_in tbl) (L1 ++ f :: L2) m (page_addr (Frame.page_no (tbl f)) + k)
  = m (frame_address f + k).
Proof.
  intros H1 H2 Hk. rewrite fold_left_app. cbn [fold_left].
  rewrite copy_in_untouched.
  - unfold copy_in at 1. rewrite memcpy_inside by now apply in_range_offset.
    replace (frame_address f + (page_addr (Frame.page_no (tbl f)) + k
                                - page_addr (Frame.page_no (tbl f))))
      with (frame_address f + k) by lia.
    apply copy_in_untouched. intros j Hj.
    apply apart_outside; [|assumption]. rewrite apart_sym. now apply H1.
  - intros j Hj. apply apart_outside; [|assumption].
    apply page_addr_apart. now apply H2.
Qed.

Lemma bind_then_switch (s0 : state) (pid p f : Z) :
  valid_frame f = true ->
  Frame.use (table s0 f) <> 0 ->
  pid <> curr_vm_pid s0 ->
  separated (table (bound pid p f s0)) = true ->
  (forall j, In j (frames_of pid (bound pid p f s0)) -> f < j ->
             page_addr (Frame.page_no (table (bound pid p f s0) j)) <> page_addr p) ->
  exists s',
    soft_mmu_map pid p f s0 = Done tt (bound pid p f s0) /\
    soft_mmu_switch pid (bound pid p f s0) = Done None s' /\
    curr_vm_pid s' = pid /\
    forall k, 0 <= k < PAGE_SIZE ->
              memory s' (page_addr p + k) = memory s0 (frame_address f + k).
Proof.
  intros Hf Hu Hne Hsep Hlast.
  assert (Hmap : soft_mmu_map pid p f s0 = Done tt (bound pid p f s0)).
  { unfold soft_mmu_map. now rewrite Hf. }
  remember (bound pid p f s0) as s eqn:Es.
  assert (Hc : curr_vm_pid s = curr_vm_pid s0) by (subst s; reflexivity).
  assert (Hm : memory s = memory s0) by (subst s; reflexivity).
  assert (Htf : table s f = Frame.mk (Frame.use (table s0 f)) pid p).
  { subst s. cbn. apply upd_same. }
  assert (Hfr : 0 <= f < NFRAMES).
  { unfold valid_frame in Hf. lia. }
  assert (Hown : owned_by pid (table s f) = true).
  { rewrite Htf. unfold owned_by. cbn. apply Z.eqb_neq in Hu. rewrite Hu, Z.eqb_refl.
    reflexivity. }
  assert (Hin : In f (frames_of pid s)) by (apply frames_of_spec; split; assumption).
  rewrite <- Hc in Hne.
  destruct (soft_mmu_switch_spec pid s Hne)
    as (s1 & s2 & Hrun & _ & _ & _ & Hm1 & _ & _ & _ & Hm2).
  exists (set_curr_vm_pid pid s2). split; [exact Hmap|]. split; [exact Hrun|].
  split; [reflexivity|]. intros k Hk.
  change (memory (set_curr_vm_pid pid s2)) with (memory s2). rewrite Hm2.
  destruct (filter_frame_ids_after _ f Hin) as (L1 & L2 & E & Hafter).
  fold (frames_of pid s) in E.
  assert (Hp : Frame.page_no (table s f) = p) by now rewrite Htf.
  pose proof (separated_spec _ Hsep) as Sep.
  rewrite <- Hp at 1. rewrite E. rewrite copy_in_last; try assumption.
  - rewrite Hm1, <- Hm. apply write_out_untouched. intros g Hg.
    apply frames_of_spec in Hg. destruct Hg as [Hgr Hg].
    apply owned_by_used in Hg. destruct Hg as [Ug Pg].
    apply owned_by_used in Hown. destruct Hown as [Uf Pf].
    apply apart_outside; [|assumption].
    apply (Sep g f); try assumption. intros ->. congruence.
  - intros j Hj.
    assert (Hj' : In j (frames_of pid s)) by (rewrite E; apply in_or_app; now left).
    apply frames_of_spec in Hj'. destruct Hj' as [Hjr Hjo].
    apply owned_by_used in Hjo. apply owned_by_used in Hown.
    apply (Sep f j); prop.
  - intros j Hj. rewrite Hp. apply Hlast; [|now apply Hafter].
    rewrite E. apply in_or_app. right. now right.
Qed.

Lemma NoDup_frames_of (pid : Z) (s : state) : NoDup (frames_of pid s).
Proof. exact (NoDup_filter _ NoDup_frame_ids). Qed.

Lemma frames_of_table (pid : Z) (s s' : state) :
  table s' = table s -> frames_of pid s' = frames_of pid s.
Proof. unfold frames_of. now intros ->. Qed.

Lemma away_and_back (s : state) (q f : Z) :
  q <> curr_vm_pid s ->
  In f (frames_of (curr_vm_pid s) s) ->
  separated (table s) = true ->
  exists s1 s2,
    soft_mmu_switch q s = Done None s1 /\
    soft_mmu_switch (curr_vm_pid s) s1 = Done None s2 /\
    curr_vm_pid s1 = q /\ curr_vm_pid s2 = curr_vm_pid s /\
    forall k, 0 <= k < PAGE_SIZE ->
      memory s1 (frame_address f + k)
        = memory s (page_addr (Frame.page_no (table s f)) + k) /\
      memory s2 (page_addr (Frame.page_no (table s f)) + k)
        = memory s (page_addr (Frame.page_no (table s f)) + k).
Proof.
  intros Hne Hf Hsep. pose proof (separated_spec _ Hsep) as Sep.
  remember (curr_vm_pid s) as pid eqn:Epid.
  (* what membership in the two frame lists means *)
  assert (HA : forall g, In g (frames_of pid s) ->
                         0 <= g < NFRAMES /\ usedb (table s) g = true /\
                         Frame.pid (table s g) = pid).
  { intros g Hg. apply frames_of_spec in Hg. destruct Hg as [Hr Ho].
    apply owned_by_used in Ho. prop. }
  assert (HB : forall g, In g (frames_of q s) ->
                         0 <= g < NFRAMES /\ usedb (table s) g = true /\
                         Frame.pid (table s g) = q).
  { intros g Hg. apply frames_of_spec in Hg. destruct Hg as [Hr Ho].
    apply owned_by_used in Ho. prop. }
  (* switching away *)
  assert (Hne1 : q <> curr_vm_pid s) by now rewrite <- Epid.
  destruct (soft_mmu_switch_spec q s Hne1)
    as (a1 & a2 & Hrun1 & _ & _ & _ & Hma1 & Hta2 & _ & _ & Hma2).
  rewrite <- Epid in Hma1.
  remember (set_curr_vm_pid q a2) as s1 eqn:Es1.
  assert (Hc1 : curr_vm_pid s1 = q) by (subst s1; reflexivity).
  assert (Ht1 : table s1 = table s) by (subst s1; exact Hta2).
  assert (Hm1 : memory s1 = memory a2) by (subst s1; reflexivity).
  (* switching back *)
  assert (Hne2 : pid <> curr_vm_pid s1) by (rewrite Hc1; congruence).
  destruct (soft_mmu_switch_spec pid s1 Hne2)
    as (b1 & b2 & Hrun2 & _ & _ & _ & Hmb1 & _ & _ & _ & Hmb2).
  rewrite Hc1, Ht1, (frames_of_table q s s1 Ht1) in Hmb1.
  rewrite Ht1, (frames_of_table pid s s1 Ht1) in Hmb2.
  exists s1, (set_curr_vm_pid pid b2).
  split; [exact Hrun1|]. split; [exact Hrun2|]. split; [exact Hc1|]. split; [reflexivity|].
  (* the storage of the frames of [pid] after the switch away *)
  assert (Hsaved : forall g k, In g (frames_of pid s) -> 0 <= k < PAGE_SIZE ->
             memory s1 (frame_address g + k)
             = memory s (page_addr (Frame.page_no (table s g)) + k)).
  { intros g k Hg Hk. rewrite Hm1, Hma2. rewrite copy_in_untouched.
    - rewrite Hma1. apply write_out_saves; try assumption; [apply NoDup_frames_of|].
      intros g' j' Hg' Hj'. apply HA in Hg', Hj'. apply (Sep g' j'); prop.
    - intros j Hj. apply HA in Hg. apply HB in Hj.
      apply apart_outside; [|assumption]. rewrite apart_sym. apply (Sep g j); prop. }
  (* ... and after the write-outs of the switch back *)
  assert (Hkept : forall g k, In g (frames_of pid s) -> 0 <= k < PAGE_SIZE ->
             memory b1 (frame_address g + k)
             = memory s (page_addr (Frame.page_no (table s g)) + k)).
  { intros g k Hg Hk. rewrite Hmb1, write_out_untouched; [now apply Hsaved|].
    intros j Hj. apply HA in Hg. apply HB in Hj.
    apply apart_outside; [|assumption]. apply (Sep j g); try prop.
    intros ->. destruct Hg as (_ & _ & Hg), Hj as (_ & _ & Hj). congruence. }
  intros k Hk. split; [now apply Hsaved|].
  change (memory (set_curr_vm_pid pid b2)) with (memory b2). rewrite Hmb2.
  apply (copy_in_restores (table s) (page_addr (Frame.page_no (table s f)))
           (fun k => memory s (page_addr (Frame.page_no (table s f)) + k))).
  - intros g' j' Hg' Hj'. apply HA in Hg', Hj'. apply (Sep g' j'); prop.
  - intros g k' Hg HP Hk'. rewrite Hkept, HP by assumption. reflexivity.
  - now exists f.
  - assumption.
Qed.

(** C5 (amended): with the storage of the used frames separated from
    each other and from the pages they are bound to --
    (1) after [soft_mmu_map(pid, page_no, frame_id)] on an allocated frame
    and [soft_mmu_switch(pid)], the page at [page_no << 12] holds the
    bytes of the storage of [frame_id], provided [pid] was not already the
    resident process and no used frame of [pid] with a higher index is
    bound to the same page address;
    (2) switching from the resident [pid] to any other process and back
    leaves at [page_no << 12], for each used frame of [pid], the bytes
    that the switch away wrote to the storage of that frame. *)
Theorem soft_tlb_round_trip :
  (forall s0 pid p f,
      valid_frame f = true ->
      Frame.use (table s0 f) <> 0 ->
      pid <> curr_vm_pid s0 ->
      separated (table (bound pid p f s0)) = true ->
      (forall j, In j (frames_of pid (bound pid p f s0)) -> f < j ->
                 page_addr (Frame.page_no (table (bound pid p f s0) j)) <> page_addr p) ->
      exists s s',
        soft_mmu_map pid p f s0 = Done tt s /\
        soft_mmu_switch pid s = Done None s' /\
        curr_vm_pid s' = pid /\
        forall k, 0 <= k < PAGE_SIZE ->
                  memory s' (page_addr p + k) = memory s0 (frame_address f + k)) /\
  (forall s pid q f,
      curr_vm_pid s = pid ->
      q <> pid ->
      In f (frames_of pid s) ->
      separated (table s) = true ->
      exists s1 s2,
        soft_mmu_switch q s = Done None s1 /\
        soft_mmu_switch pid s1 = Done None s2 /\
        curr_vm_pid s2 = pid /\
        forall k, 0 <= k < PAGE_SIZE ->
          memory s1 (frame_address f + k)
            = memory s (page_addr (Frame.page_no (table s f)) + k) /\
          memory s2 (page_addr (Frame.page_no (table s f)) + k)
            = memory s (page_addr (Frame.page_no (table s f)) + k)).
Proof.
  split.
  - intros s0 pid p f Hf Hu Hne Hsep Hlast.
    destruct (bind_then_switch s0 pid p f Hf Hu Hne Hsep Hlast) as (s' & H1 & H2 & H3 & H4).
    exists (bound pid p f s0), s'. prop.
  - intros s pid q f <- Hq Hf Hsep.
    destruct (away_and_back s q f Hq Hf Hsep) as (s1 & s2 & H1 & H2 & _ & H3 & H4).
    exists s1, s2. prop.
Qed.

(** ** [setup_identity_region] *)

Lemma leaf_entry_bound (addr i : Z) : 0 <= leaf_entry addr i < 2 ^ 32.
Proof.
  unfold leaf_entry, wrap32. apply entry_bound; [|unfold FLAG_VALID_RWX; lia].
  pose proof (Z.mod_pos_bound (addr + i * PAGE_SIZE) (2 ^ 32) ltac:(lia)) as H.
  rewrite Z.shiftr_div_pow2 by lia. split.
  - apply Z.div_pos; lia.
  - apply Z.div_lt_upper_bound; lia.
Qed.

(** The loop of [setup_identity_region] writes the entries
    [leaf[vpn0 + lo]], ..., [leaf[vpn0 + lo + n - 1]] and nothing else. *)
Lemma leaf_loop_spec (addr vpn0 : Z) (n : nat) :
  forall lo s,
  exists s',
    fold_left (leaf_step addr vpn0) (indices lo n) s = s' /\
    table s' = table s /\ trace s' = trace s /\ frame_id s' = frame_id s /\
    leaf s' = leaf s /\ root s' = root s /\
    (forall i, lo <= i < lo + Z.of_nat n ->
               load32 (memory s') (leaf s + 4 * (vpn0 + i)) = leaf_entry addr i) /\
    (forall b, (forall i, lo <= i < lo + Z.of_nat n ->
                          b + 4 <= leaf s + 4 * (vpn0 + i) \/
                          leaf s + 4 * (vpn0 + i) + 4 <= b) ->
               load32 (memory s') b = load32 (memory s) b).
Proof.
  induction n as [|n IH]; intros lo s.
  - exists s. cbn [indices fold_left]. repeat split; try reflexivity. intros i Hi. lia.
  - cbn [indices fold_left].
    destruct (IH (lo + 1) (leaf_step addr vpn0 s lo))
      as (s' & E & Ht & Htr & Hf & Hl & Hr & Hin & Hout).
    exists s'. split; [exact E|]. clear E.
    change (leaf (leaf_step addr vpn0 s lo)) with (leaf s) in *.
    split; [exact Ht|]. split; [exact Htr|]. split; [exact Hf|].
    split; [exact Hl|]. split; [exact Hr|]. split.
    + intros i Hi. destruct (Z.eq_dec i lo) as [->|Hne].
      * rewrite Hout by (intros j Hj; lia).
        unfold leaf_step. cbn [memory set_memory].
        apply load32_store32_same, leaf_entry_bound.
      * apply Hin. lia.
    + intros b Hb. rewrite Hout by (intros i Hi; apply Hb; lia).
      unfold leaf_step. cbn [memory set_memory].
      apply load32_store32_other. specialize (Hb lo). lia.
Qed.

Lemma setup_identity_region_unfold (addr npages : Z) (s : state) (i : Z) (rest : list Z) :
  Earth.mmu_alloc (earth s) = fn_mmu_alloc ->
  free_frames s = i :: rest ->
  setup_identity_region addr npages s
  = Done tt (fold_left (leaf_step addr (Z.land (Z.shiftr addr 12) 0x3FF))
                       (indices 0 (Z.to_nat npages)) (leaf_installed addr i s)).
Proof.
  intros He Hfree. unfold setup_identity_region, bind, earth_mmu_alloc.
  rewrite He, mmu_alloc_unfold, Hfree. reflexivity.
Qed.

Lemma setup_identity_region_spec (addr npages : Z) (s : state) (i : Z) (rest : list Z) :
  Earth.mmu_alloc (earth s) = fn_mmu_alloc ->
  free_frames s = i :: rest ->
  0 <= addr < 2 ^ 32 ->
  0 <= npages ->
  Z.land (Z.shiftr addr 12) 0x3FF + npages <= 1024 ->
  frame_address i mod PAGE_SIZE = 0 ->
  0 <= frame_address i < 2 ^ 32 ->
  apart (root s) (frame_address i) = true ->
  exists s',
    setup_identity_region addr npages s = Done tt s' /\
    table s' = table (allocated i s) /\
    trace s' = trace s ++ [PagingRead i 1] /\
    frame_id s' = i /\ leaf s' = frame_address i /\ root s' = root s /\
    load32 (memory s') (root s + 4 * Z.shiftr addr 22)
      = Z.lor (Z.shiftr (frame_address i) 2) FLAG_NEXT_LEVEL /\
    (forall k, 0 <= k < npages ->
               load32 (memory s') (frame_address i + 4 * (Z.land (Z.shiftr addr 12) 0x3FF + k))
               = Z.lor (Z.shiftr (addr + k * PAGE_SIZE) 2) FLAG_VALID_RWX) /\
    (forall j, 0 <= j < 1024 ->
               ~ (Z.land (Z.shiftr addr 12) 0x3FF <= j
                  < Z.land (Z.shiftr addr 12) 0x3FF + npages) ->
               load32 (memory s') (frame_address i + 4 * j) = 0) /\
    (forall j, 0 <= j < 1024 -> j <> Z.shiftr addr 22 ->
               load32 (memory s') (root s + 4 * j) = load32 (memory s) (root s + 4 * j)).
Proof.
  intros He Hfree Haddr Hn Hfit Halign Hleaf Hapart.
  set (vpn0 := Z.land (Z.shiftr addr 12) 0x3FF) in *.
  assert (Hvpn0 : 0 <= vpn0 < 1024).
  { unfold vpn0. change 0x3FF with (Z.ones 10). rewrite Z.land_ones by lia.
    apply Z.mod_pos_bound. lia. }
  assert (Hvpn1 : 0 <= Z.shiftr addr 22 < 1024).
  { rewrite Z.shiftr_div_pow2 by lia. split; [apply Z.div_pos; lia|].
    apply Z.div_lt_upper_bound; lia. }
  unfold apart, PAGE_SIZE in Hapart. unfold PAGE_SIZE in Halign.
  destruct (leaf_loop_spec addr vpn0 (Z.to_nat npages) 0 (leaf_installed addr i s))
    as (s' & E & Ht & Htr & Hf & Hl & Hr & Hin & Hout).
  rewrite Z2Nat.id in Hin, Hout by assumption.
  change (leaf (leaf_installed addr i s)) with (frame_address i) in *.
  change (root (leaf_installed addr i s)) with (root s) in *.
  exists s'. split; [rewrite <- E; now apply setup_identity_region_unfold with rest|].
  split; [exact Ht|]. split; [exact Htr|]. split; [exact Hf|].
  split; [exact Hl|]. split; [exact Hr|].
  split; [|split; [|split]].
  - rewrite Hout by (intros k Hk; lia).
    unfold leaf_installed, allocated.
    cbn [memory set_memory leaf set_leaf root set_frame_id set_table log].
    apply load32_store32_same, entry_bound; [|unfold FLAG_NEXT_LEVEL; lia].
    rewrite Z.shiftr_div_pow2 by lia. split; [apply Z.div_pos; lia|].
    apply Z.div_lt_upper_bound; lia.
  - intros k Hk. rewrite Hin by lia. unfold leaf_entry, wrap32.
    rewrite Z.mod_small; [reflexivity|].
    assert (Hbound : addr + k * 4096 < 4096 * (1024 * Z.shiftr addr 22 + vpn0 + k + 1)).
    { unfold vpn0. change 0x3FF with (Z.ones 10). rewrite Z.land_ones by lia.
      rewrite !Z.shiftr_div_pow2 by lia.
      change (2 ^ 12) with 4096. change (2 ^ 22) with (4096 * 1024).
      change (2 ^ 10) with 1024. rewrite <- Z.div_div by lia.
      Z.to_euclidean_division_equations. lia. }
    unfold PAGE_SIZE. lia.
  - intros j Hj Hnot. rewrite Hout by (intros k Hk; lia).
    unfold leaf_installed, allocated.
    cbn [memory set_memory leaf set_leaf root set_frame_id set_table log].
    rewrite load32_store32_other by lia.
    apply load32_memset_zero; unfold PAGE_SIZE; lia.
  - intros j Hj Hne. rewrite Hout by (intros k Hk; lia).
    unfold leaf_installed, allocated.
    cbn [memory set_memory leaf set_leaf root set_frame_id set_table log].
    rewrite load32_store32_other by lia.
    unfold load32, memset, in_range, PAGE_SIZE.
    replace ((frame_address i <=? root s + 4 * j) && (root s + 4 * j <? frame_address i + 4096))
      with false by lia.
    replace ((frame_address i <=? root s + 4 * j + 1)
             && (root s + 4 * j + 1 <? frame_address i + 4096)) with false by lia.
    replace ((frame_address i <=? root s + 4 * j + 2)
             && (root s + 4 * j + 2 <? frame_address i + 4096)) with false by lia.
    replace ((frame_address i <=? root s + 4 * j + 3)
             && (root s + 4 * j + 3 <? frame_address i + 4096)) with false by lia.
    reflexivity.
Qed.

(** C6 (amended): when a frame is free, [setup_identity_region(addr,
    npages)] always allocates a new leaf page table, whether or not the
    root entry covering [addr] is present.  It zero-initializes the leaf,
    stores at root index [addr >> 22] an entry with exactly flag [0x1]
    that points at the leaf frame, and stores at the leaf indices
    [((addr >> 12) & 0x3FF) + k], [k < npages], the values
    [((addr + k * PAGE_SIZE) >> 2) | 0xF], with flags [0xF]; every address
    in these pages then translates to itself.  (The region must fit into
    one leaf table, the leaf frame must be page-aligned and must not be
    the root table's page.) *)
Theorem setup_identity_region_identity_map
        (addr npages : Z) (s : state) (i : Z) (rest : list Z) :
  Earth.mmu_alloc (earth s) = fn_mmu_alloc ->
  free_frames s = i :: rest ->
  0 <= addr < 2 ^ 32 ->
  0 <= npages ->
  Z.land (Z.shiftr addr 12) 0x3FF + npages <= 1024 ->
  frame_address i mod PAGE_SIZE = 0 ->
  0 <= frame_address i < 2 ^ 32 ->
  apart (root s) (frame_address i) = true ->
  exists s',
    setup_identity_region addr npages s = Done tt s' /\
    (* the leaf table is a newly allocated frame *)
    frame_id s' = i /\ leaf s' = frame_address i /\ root s' = root s /\
    unused s i = true /\ unused s' i = false /\
    trace s' = trace s ++ [PagingRead i 1] /\
    (* the root entry *)
    load32 (memory s') (root s + 4 * Z.shiftr addr 22)
      = Z.lor (Z.shiftr (frame_address i) 2) FLAG_NEXT_LEVEL /\
    Z.land (load32 (memory s') (root s + 4 * Z.shiftr addr 22)) 0x3FF = FLAG_NEXT_LEVEL /\
    Z.shiftl (Z.shiftr (load32 (memory s') (root s + 4 * Z.shiftr addr 22)) 10) 12
      = frame_address i /\
    (* the leaf entries *)
    (forall k, 0 <= k < npages ->
       load32 (memory s') (frame_address i + 4 * (Z.land (Z.shiftr addr 12) 0x3FF + k))
         = Z.lor (Z.shiftr (addr + k * PAGE_SIZE) 2) FLAG_VALID_RWX /\
       Z.land (load32 (memory s')
                 (frame_address i + 4 * (Z.land (Z.shiftr addr 12) 0x3FF + k))) 0xF
         = FLAG_VALID_RWX) /\
    (forall j, 0 <= j < 1024 ->
               ~ (Z.land (Z.shiftr addr 12) 0x3FF <= j
                  < Z.land (Z.shiftr addr 12) 0x3FF + npages) ->
               load32 (memory s') (frame_address i + 4 * j) = 0) /\
    (* virtual == physical *)
    (forall va, Z.shiftr addr 12 <= Z.shiftr va 12 < Z.shiftr addr 12 + npages ->
                sv32_walk (memory s') (root s') va = Some va).
Proof.
  intros He Hfree Haddr Hn Hfit Halign Hleaf Hapart.
  destruct (setup_identity_region_spec addr npages s i rest He Hfree Haddr Hn Hfit
              Halign Hleaf Hapart)
    as (s' & Hrun & Ht & Htr & Hf & Hl & Hr & Hroot & Hentries & Hzero & _).
  assert (Hi : In i (free_frames s)) by (rewrite Hfree; now left).
  apply free_frames_spec in Hi. destruct Hi as [Hir Hiu].
  unfold PAGE_SIZE in Halign.
  assert (Hflag1 : Z.land (Z.lor (Z.shiftr (frame_address i) 2) FLAG_NEXT_LEVEL) 0x3FF
                   = FLAG_NEXT_LEVEL).
  { change 0x3FF with (Z.ones 10). apply entry_flags; [lia|reflexivity|].
    rewrite Z.shiftr_div_pow2 by lia. change (2 ^ 2) with 4. change (2 ^ 10) with 1024.
    Z.to_euclidean_division_equations. lia. }
  assert (Hflag1' : Z.land (Z.lor (Z.shiftr (frame_address i) 2) FLAG_NEXT_LEVEL) 0xF
                    = FLAG_NEXT_LEVEL).
  { change 0xF with (Z.ones 4). apply entry_flags; [lia|reflexivity|].
    rewrite Z.shiftr_div_pow2 by lia. change (2 ^ 2) with 4. change (2 ^ 4) with 16.
    Z.to_euclidean_division_equations. lia. }
  assert (Hptr : Z.shiftl (Z.shiftr (Z.lor (Z.shiftr (frame_address i) 2) FLAG_NEXT_LEVEL) 10) 12
                 = frame_address i).
  { rewrite entry_ppn by (unfold FLAG_NEXT_LEVEL; lia).
    rewrite Z.shiftr_shiftr by lia. rewrite Z.shiftr_div_pow2, Z.shiftl_mul_pow2 by lia.
    change (2 ^ (2 + 10)) with 4096. change (2 ^ 12) with 4096.
    Z.to_euclidean_division_equations. lia. }
  exists s'. split; [exact Hrun|]. split; [exact Hf|]. split; [exact Hl|].
  split; [exact Hr|]. split; [exact Hiu|].
  split; [unfold unused; rewrite Ht; unfold allocated; cbn; now rewrite upd_same|].
  split; [exact Htr|]. split; [exact Hroot|].
  split; [rewrite Hroot; exact Hflag1|]. split; [rewrite Hroot; exact Hptr|].
  split; [|split; [exact Hzero|]].
  - intros k Hk. rewrite (Hentries k Hk). split; [reflexivity|apply entry_low_flags].
  - intros va Hva. unfold sv32_walk. rewrite Hr.
    set (A := Z.shiftr addr 12) in *. set (V := Z.shiftr va 12) in *.
    assert (HA : 0 <= A).
    { unfold A. rewrite Z.shiftr_div_pow2 by lia. apply Z.div_pos; lia. }
    assert (Hv0 : Z.land A 0x3FF = A mod 1024).
    { change 0x3FF with (Z.ones 10). now rewrite Z.land_ones by lia. }
    assert (Hv1 : Z.shiftr addr 22 = A / 1024).
    { unfold A. rewrite !Z.shiftr_div_pow2 by lia.
      change (2 ^ 22) with (2 ^ 12 * 1024). rewrite Z.div_div by lia. reflexivity. }
    assert (HV1 : Z.shiftr va 22 = V / 1024).
    { unfold V. rewrite !Z.shiftr_div_pow2 by lia.
      change (2 ^ 22) with (2 ^ 12 * 1024). rewrite Z.div_div by lia. reflexivity. }
    assert (HVidx : Z.land V 0x3FF = Z.land A 0x3FF + (V - A)).
    { rewrite Hv0. change 0x3FF with (Z.ones 10). rewrite Z.land_ones by lia.
      change (2 ^ 10) with 1024. rewrite Hv0 in Hfit.
      Z.to_euclidean_division_equations. lia. }
    assert (HVroot : V / 1024 = A / 1024).
    { rewrite Hv0 in Hfit. Z.to_euclidean_division_equations. lia. }
    rewrite HV1, HVroot, <- Hv1, Hroot, Hflag1'. cbn [Z.eqb FLAG_NEXT_LEVEL Pos.eqb].
    rewrite Hptr, HVidx.
    rewrite (Hentries (V - A)) by lia. rewrite entry_low_flags. cbn [Z.eqb FLAG_VALID_RWX Pos.eqb].
    f_equal. rewrite entry_ppn by (unfold FLAG_VALID_RWX; lia).
    rewrite Z.shiftr_shiftr by lia. change 0xFFF with (Z.ones 12).
    rewrite Z.land_ones by lia.
    rewrite Z.shiftr_div_pow2, Z.shiftl_mul_pow2 by lia.
    change (2 ^ (2 + 10)) with 4096. change (2 ^ 12) with 4096.
    unfold PAGE_SIZE.
    assert (HVdef : V = va / 4096).
    { unfold V. now rewrite Z.shiftr_div_pow2 by lia. }
    assert (HAdef : A = addr / 4096).
    { unfold A. now rewrite Z.shiftr_div_pow2 by lia. }
    assert (Hpage : (addr + (V - A) * 4096) / 4096 = V).
    { rewrite Z.div_add by lia. lia. }
    rewrite Hpage, HVdef. Z.to_euclidean_division_equations. lia.
Qed.

(** ** [pagetable_mmu_map] and [pagetable_mmu_switch] *)

(** C8: the page-table versions of [mmu_map] and [mmu_switch] end in
    [FATAL] with their diagnostic for every input and in every state:
    they never return, nothing after the call runs, and the state is
    left as it was. *)
Theorem pagetable_mmu_unimplemented :
  forall (pid page_no fid : Z) (s : state),
    pagetable_mmu_map pid page_no fid s
      = Halted "mmu_map() using page table translation not implemented" s /\
    pagetable_mmu_switch pid s
      = Halted "mmu_switch() using page table translation not implemented" s /\
    (forall r s', pagetable_mmu_map pid page_no fid s <> Done r s') /\
    (forall r s', pagetable_mmu_switch pid s <> Done r s') /\
    (forall (B : Type) (k : Z -> M state B),
        bind (pagetable_mmu_map pid page_no fid) k s
          = Halted "mmu_map() using page table translation not implemented" s /\
        bind (pagetable_mmu_switch pid) k s
          = Halted "mmu_switch() using page table translation not implemented" s).
Proof.
  intros pid page_no fid s. unfold pagetable_mmu_map, pagetable_mmu_switch, bind, FATAL.
  repeat split; try reflexivity; intros r s' H; discriminate H.
Qed.

(** ** [pagetable_identity_mapping] *)

Lemma leaf_loop_rest (addr vpn0 : Z) (l : list Z) :
  forall s,
    earth (fold_left (leaf_step addr vpn0) l s) = earth s /\
    pid_to_pagetable_base (fold_left (leaf_step addr vpn0) l s) = pid_to_pagetable_base s /\
    curr_vm_pid (fold_left (leaf_step addr vpn0) l s) = curr_vm_pid s /\
    console (fold_left (leaf_step addr vpn0) l s) = console s.
Proof.
  induction l as [|a l IH]; intros s; [repeat split|].
  cbn [fold_left]. destruct (IH (leaf_step addr vpn0 s a)) as (-> & -> & -> & ->).
  repeat split.
Qed.

Lemma free_frames_table (s s' : state) :
  table s' = table s -> free_frames s' = free_frames s.
Proof. unfold free_frames, unused. now intros ->. Qed.

(** One call of [setup_identity_region], as far as the frame table, the
    interface and the trace go; it runs whenever a frame is free. *)
Lemma setup_identity_region_runs (addr npages : Z) (s : state) (i : Z) (rest : list Z) :
  Earth.mmu_alloc (earth s) = fn_mmu_alloc ->
  free_frames s = i :: rest ->
  exists s',
    setup_identity_region addr npages s = Done tt s' /\
    earth s' = earth s /\ free_frames s' = rest /\
    table s' = table (allocated i s) /\
    trace s' = trace s ++ [PagingRead i 1] /\
    root s' = root s /\ pid_to_pagetable_base s' = pid_to_pagetable_base s /\
    curr_vm_pid s' = curr_vm_pid s /\ console s' = console s.
Proof.
  intros He Hfree.
  destruct (leaf_loop_spec addr (Z.land (Z.shiftr addr 12) 0x3FF) (Z.to_nat npages) 0
              (leaf_installed addr i s))
    as (s' & E & Ht & Htr & _ & _ & Hr & _).
  destruct (leaf_loop_rest addr (Z.land (Z.shiftr addr 12) 0x3FF)
              (indices 0 (Z.to_nat npages)) (leaf_installed addr i s))
    as (Hea & Hb & Hc & Hco).
  rewrite E in Hea, Hb, Hc, Hco.
  exists s'. split; [rewrite <- E; now apply setup_identity_region_unfold with rest|].
  split; [exact Hea|]. split.
  { rewrite (free_frames_table (allocated i s) s' Ht). now apply free_frames_allocated. }
  split; [exact Ht|]. split; [exact Htr|]. split; [exact Hr|].
  split; [exact Hb|]. split; [exact Hc|exact Hco].
Qed.

Lemma marks_nil (tbl : Z -> Frame.mapping) : marks [] tbl tbl.
Proof. intros j. reflexivity. Qed.

Lemma marks_allocated (ids : list Z) (tbl : Z -> Frame.mapping) (s s' : state) (i : Z) :
  marks ids tbl (table s) -> ~ In i ids -> table s' = table (allocated i s) ->
  marks (i :: ids) tbl (table s').
Proof.
  intros H Hi -> j. unfold allocated, mem_index. cbn [table set_table log existsb].
  fold (mem_index j ids). unfold upd. destruct (Z.eqb_spec j i) as [->|Hne]; cbn [orb].
  - rewrite (H i). destruct (mem_index i ids) eqn:E; [|reflexivity].
    apply mem_index_In in E. contradiction.
  - apply H.
Qed.

(** The same call, as far as the two [static] variables go. *)
Lemma setup_identity_region_leaf (addr npages : Z) (s : state) (i : Z) (rest : list Z) :
  Earth.mmu_alloc (earth s) = fn_mmu_alloc ->
  free_frames s = i :: rest ->
  exists s',
    setup_identity_region addr npages s = Done tt s' /\
    frame_id s' = i /\ leaf s' = frame_address i /\
    unused s i = true /\ unused s' i = false.
Proof.
  intros He Hfree.
  destruct (leaf_loop_spec addr (Z.land (Z.shiftr addr 12) 0x3FF) (Z.to_nat npages) 0
              (leaf_installed addr i s))
    as (s' & E & Ht & _ & Hf & Hl & _).
  exists s'. split; [rewrite <- E; now apply setup_identity_region_unfold with rest|].
  split; [exact Hf|]. split; [exact Hl|]. split.
  - assert (Hi : In i (free_frames s)) by (rewrite Hfree; now left).
    now apply free_frames_spec in Hi.
  - unfold unused. rewrite Ht. unfold leaf_installed, allocated.
    cbn [table set_table set_memory set_leaf set_frame_id log]. now rewrite upd_same.
Qed.

(** [pagetable_identity_mapping] takes the seven lowest free frames (the
    root table, then one leaf table per region) and writes no field of
    the frame table but their [use]. *)
Lemma pagetable_identity_mapping_runs (pid : Z) (s : state)
      (i0 i1 i2 i3 i4 i5 i6 : Z) (rest : list Z) :
  Earth.mmu_alloc (earth s) = fn_mmu_alloc ->
  valid_pid pid = true ->
  free_frames s = i0 :: i1 :: i2 :: i3 :: i4 :: i5 :: i6 :: rest ->
  exists s',
    pagetable_identity_mapping pid s = Done tt s' /\
    earth s' = earth s /\ free_frames s' = rest /\
    marks [i6; i5; i4; i3; i2; i1; i0] (table s) (table s') /\
    trace s' = trace s ++ map (fun i => PagingRead i 1) [i0; i1; i2; i3; i4; i5; i6] /\
    root s' = frame_address i0 /\
    pid_to_pagetable_base s' = upd (pid_to_pagetable_base s) pid (frame_address i0) /\
    curr_vm_pid s' = curr_vm_pid s /\ console s' = console s.
Proof.
  intros He Hpid Hfree.
  assert (Halloc : earth_mmu_alloc s = Done (0, i0, frame_address i0) (allocated i0 s)).
  { unfold earth_mmu_alloc. now rewrite He, mmu_alloc_unfold, Hfree. }
  remember (root_installed pid i0 s) as r eqn:Er.
  assert (Hroot : (fun s0 : state =>
             let '(_, fid, cached_addr) := (0, i0, frame_address i0) in
             let s1 := set_root cached_addr (set_frame_id fid s0) in
             let s2 := set_memory (memset (memory s1) (root s1) 0 PAGE_SIZE) s1 in
             if valid_pid pid
             then Done tt (set_pid_to_pagetable_base
                             (upd (pid_to_pagetable_base s2) pid (root s2)) s2)
             else Undefined) (allocated i0 s) = Done tt r).
  { cbn beta iota zeta. rewrite Hpid, Er. reflexivity. }
  assert (Her : earth r = earth s) by (subst r; reflexivity).
  assert (Htr : table r = table (allocated i0 s)) by (subst r; reflexivity).
  assert (Hfr : free_frames r = i1 :: i2 :: i3 :: i4 :: i5 :: i6 :: rest).
  { rewrite (free_frames_table _ _ Htr). now apply free_frames_allocated. }
  assert (Hrr : root r = frame_address i0) by (subst r; reflexivity).
  assert (Hbr : pid_to_pagetable_base r = upd (pid_to_pagetable_base s) pid (frame_address i0))
    by (subst r; reflexivity).
  assert (Hcr : curr_vm_pid r = curr_vm_pid s) by (subst r; reflexivity).
  assert (Hcor : console r = console s) by (subst r; reflexivity).
  assert (Htrr : trace r = trace s ++ [PagingRead i0 1]) by (subst r; reflexivity).
  rewrite <- Her in He.
  destruct (setup_identity_region_runs 0x02000000 16 r i1 _ He Hfr)
    as (s1 & R1 & E1 & F1 & T1 & Tr1 & Ro1 & B1 & C1 & Co1).
  rewrite <- E1 in He.
  destruct (setup_identity_region_runs 0x10013000 1 s1 i2 _ He F1)
    as (s2 & R2 & E2 & F2 & T2 & Tr2 & Ro2 & B2 & C2 & Co2).
  rewrite <- E2 in He.
  destruct (setup_identity_region_runs 0x20400000 1024 s2 i3 _ He F2)
    as (s3 & R3 & E3 & F3 & T3 & Tr3 & Ro3 & B3 & C3 & Co3).
  rewrite <- E3 in He.
  destruct (setup_identity_region_runs 0x20800000 1024 s3 i4 _ He F3)
    as (s4 & R4 & E4 & F4 & T4 & Tr4 & Ro4 & B4 & C4 & Co4).
  rewrite <- E4 in He.
  destruct (setup_identity_region_runs 0x08000000 8 s4 i5 _ He F4)
    as (s5 & R5 & E5 & F5 & T5 & Tr5 & Ro5 & B5 & C5 & Co5).
  rewrite <- E5 in He.
  destruct (setup_identity_region_runs 0x80000000 1024 s5 i6 _ He F5)
    as (s6 & R6 & E6 & F6 & T6 & Tr6 & Ro6 & B6 & C6 & Co6).
  exists s6. split.
  { unfold pagetable_identity_mapping.
    rewrite (bind_done _ _ _ _ _ Halloc).
    rewrite (bind_done _ _ _ _ _ Hroot).
    rewrite (bind_done _ _ _ _ _ R1), (bind_done _ _ _ _ _ R2), (bind_done _ _ _ _ _ R3).
    rewrite (bind_done _ _ _ _ _ R4), (bind_done _ _ _ _ _ R5). exact R6. }
  split; [congruence|]. split; [exact F6|].
  split.
  { pose proof (NoDup_free_frames s) as ND. rewrite Hfree in ND.
    apply NoDup_cons_iff in ND. destruct ND as [N0 ND].
    apply NoDup_cons_iff in ND. destruct ND as [N1 ND].
    apply NoDup_cons_iff in ND. destruct ND as [N2 ND].
    apply NoDup_cons_iff in ND. destruct ND as [N3 ND].
    apply NoDup_cons_iff in ND. destruct ND as [N4 ND].
    apply NoDup_cons_iff in ND. destruct ND as [N5 ND].
    cbn [In] in N0, N1, N2, N3, N4, N5.
    pose proof (marks_allocated [] (table s) s r i0 (marks_nil _) (fun H => H) Htr) as M.
    apply (marks_allocated _ _ r s1 i1) in M; [|cbn [In]; prop_eq|exact T1].
    apply (marks_allocated _ _ s1 s2 i2) in M; [|cbn [In]; prop_eq|exact T2].
    apply (marks_allocated _ _ s2 s3 i3) in M; [|cbn [In]; prop_eq|exact T3].
    apply (marks_allocated _ _ s3 s4 i4) in M; [|cbn [In]; prop_eq|exact T4].
    apply (marks_allocated _ _ s4 s5 i5) in M; [|cbn [In]; prop_eq|exact T5].
    apply (marks_allocated _ _ s5 s6 i6) in M; [|cbn [In]; prop_eq|exact T6].
    exact M. }
  split.
  { rewrite Tr6, Tr5, Tr4, Tr3, Tr2, Tr1, Htrr. cbn [map].
    rewrite <- !app_assoc. reflexivity. }
  split; [congruence|]. split; [congruence|]. split; congruence.
Qed.

(** ** [mmu_init] *)

Lemma await_choice_spec (junk : list ascii) (c : ascii) (rest : list ascii) (s : state) :
  forallb (fun x => negb (is_choice x)) junk = true ->
  is_choice c = true ->
  await_choice (junk ++ c :: rest) s = Done c (set_console rest s).
Proof.
  induction junk as [|x junk IH]; cbn [app await_choice forallb]; intros Hj Hc.
  - now rewrite Hc.
  - apply andb_true_iff in Hj. destruct Hj as [Hx Hj].
    apply negb_true_iff in Hx. rewrite Hx. now apply IH.
Qed.

Lemma await_choice_blocked (junk : list ascii) (s : state) :
  forallb (fun x => negb (is_choice x)) junk = true ->
  await_choice junk s = Blocked (set_console [] s).
Proof.
  induction junk as [|x junk IH]; cbn [await_choice forallb]; intros Hj; [reflexivity|].
  apply andb_true_iff in Hj. destruct Hj as [Hx Hj].
  apply negb_true_iff in Hx. rewrite Hx. now apply IH.
Qed.

Lemma mmu_init_unfold (s : state) (junk : list ascii) (c : ascii) (rest : list ascii) :
  console s = junk ++ c :: rest ->
  forallb (fun x => negb (is_choice x)) junk = true ->
  is_choice c = true ->
  mmu_init s =
  if platform_eqb (Earth.platform (earth (probed c rest s))) ARTY && (c =? "0")%char
  then Halted "Arty board doesn't support page tables (supervisor mode)." (probed c rest s)
  else
    match (if (c =? "0")%char then
             pagetable_identity_mapping 0 ;;;
             (fun s =>
                let e := earth s in
                Done tt (install (Earth.mmu_alloc e) (Earth.mmu_free e)
                                 fn_pagetable_mmu_map fn_pagetable_mmu_switch s))
           else ret tt) (wired c rest s) with
    | Done _ s' => Done tt (paging_init s')
    | Halted msg s' => Halted msg s'
    | Blocked s' => Blocked s'
    | Undefined => Undefined
    end.
Proof.
  intros Hcon Hjunk Hc. unfold mmu_init.
  rewrite bind_step.
  match goal with |- bind _ _ ?s1 = _ =>
    assert (H2 : (fun s0 : state => await_choice (console s0) s0) s1
                 = Done c (set_console rest s1))
  end.
  { cbn beta. cbn [console log]. rewrite Hcon. now apply await_choice_spec. }
  rewrite (bind_done _ _ _ _ _ H2). clear H2.
  rewrite !bind_step.
  match goal with |- bind _ _ ?s4 = _ =>
    assert (H5 : probe_store s4
                 = Done tt (if probe_traps s4 then platform_detect 0 s4
                            else set_memory (store32 (memory s4) 0x1000 1) s4))
  end.
  { unfold probe_store. cbn [probe_traps excp_register set_platform set_earth log
                             set_console earth Earth.excp_handler].
    destruct (probe_traps s); reflexivity. }
  rewrite (bind_done _ _ _ _ _ H5). clear H5.
  rewrite bind_step.
  unfold wired. fold (probed c rest s). generalize (probed c rest s). intros s6.
  unfold bind at 1.
  destruct (platform_eqb (Earth.platform (earth s6)) ARTY && (c =? "0")%char);
    [reflexivity|].
  rewrite bind_step.
  unfold bind at 1.
  match goal with |- context [match ?X with _ => _ end] => destruct X end; reflexivity.
Qed.

Lemma probed_fields (c : ascii) (rest : list ascii) (s : state) :
  earth (probed c rest s)
    = Earth.mk (if probe_traps s then ARTY else QEMU) NULL
               (Earth.mmu_alloc (earth s)) (Earth.mmu_free (earth s))
               (Earth.mmu_map (earth s)) (Earth.mmu_switch (earth s)) /\
  trace (probed c rest s) = trace s ++ banner c /\
  table (probed c rest s) = table s /\
  console (probed c rest s) = rest /\
  pid_to_pagetable_base (probed c rest s) = pid_to_pagetable_base s.
Proof.
  unfold probed, banner. cbn zeta.
  cbn [probe_traps excp_register set_platform set_earth log set_console].
  destruct (probe_traps s); cbn; rewrite <- ?app_assoc; repeat split; reflexivity.
Qed.

Lemma installed_fields (alloc free map switch : funptr) (p : state) :
  earth (paging_init (install alloc free map switch p))
    = Earth.mk (Earth.platform (earth p)) (Earth.excp_handler (earth p))
               alloc free map switch /\
  trace (paging_init (install alloc free map switch p)) = trace p ++ [PagingInit] /\
  table (paging_init (install alloc free map switch p)) = table p /\
  console (paging_init (install alloc free map switch p)) = console p /\
  pid_to_pagetable_base (paging_init (install alloc free map switch p))
    = pid_to_pagetable_base p.
Proof. repeat split. Qed.

Lemma install_fields (alloc free map switch : funptr) (p : state) :
  earth (install alloc free map switch p)
    = Earth.mk (Earth.platform (earth p)) (Earth.excp_handler (earth p))
               alloc free map switch /\
  trace (install alloc free map switch p) = trace p /\
  table (install alloc free map switch p) = table p /\
  console (install alloc free map switch p) = console p /\
  pid_to_pagetable_base (install alloc free map switch p) = pid_to_pagetable_base p.
Proof. repeat split. Qed.

(** C7: [mmu_init] reads the console until a line starts with ['0'] or
    ['1'] (and waits forever if none does), then probes the platform.
    With ['0'] on a platform where the probe traps it ends in [FATAL],
    leaving the four interface pointers as they were.  Otherwise it
    installs [mmu_alloc], [mmu_free], [soft_mmu_map], [soft_mmu_switch];
    with ['0'] it then runs [pagetable_identity_mapping(0)] and replaces
    only the map and switch pointers by the page-table versions; the call
    of [paging_init] comes last. *)
Theorem mmu_init_boot_sequence
        (s : state) (junk : list ascii) (c : ascii) (rest : list ascii) :
  console s = junk ++ c :: rest ->
  forallb (fun x => negb (is_choice x)) junk = true ->
  is_choice c = true ->
  (* page tables chosen, capability-limited platform *)
  (c = "0"%char -> probe_traps s = true ->
   mmu_init s
     = Halted "Arty board doesn't support page tables (supervisor mode)." (probed c rest s) /\
   Earth.platform (earth (probed c rest s)) = ARTY /\
   Earth.mmu_alloc (earth (probed c rest s)) = Earth.mmu_alloc (earth s) /\
   Earth.mmu_free (earth (probed c rest s)) = Earth.mmu_free (earth s) /\
   Earth.mmu_map (earth (probed c rest s)) = Earth.mmu_map (earth s) /\
   Earth.mmu_switch (earth (probed c rest s)) = Earth.mmu_switch (earth s) /\
   trace (probed c rest s) = trace s ++ banner c) /\
  (* software TLB chosen *)
  (c = "1"%char ->
   mmu_init s = Done tt (paging_init (wired c rest s)) /\
   earth (paging_init (wired c rest s))
     = Earth.mk (if probe_traps s then ARTY else QEMU) NULL
                fn_mmu_alloc fn_mmu_free fn_soft_mmu_map fn_soft_mmu_switch /\
   trace (paging_init (wired c rest s)) = trace s ++ banner c ++ [PagingInit] /\
   table (paging_init (wired c rest s)) = table s /\
   console (paging_init (wired c rest s)) = rest) /\
  (* page tables chosen, capable platform *)
  (c = "0"%char -> probe_traps s = false -> valid_pid 0 = true ->
   forall i0 i1 i2 i3 i4 i5 i6 more,
     free_frames s = i0 :: i1 :: i2 :: i3 :: i4 :: i5 :: i6 :: more ->
     exists s1 s',
       earth (wired c rest s)
         = Earth.mk QEMU NULL fn_mmu_alloc fn_mmu_free fn_soft_mmu_map fn_soft_mmu_switch /\
       pagetable_identity_mapping 0 (wired c rest s) = Done tt s1 /\
       mmu_init s = Done tt s' /\
       earth s' = Earth.mk QEMU NULL fn_mmu_alloc fn_mmu_free
                           fn_pagetable_mmu_map fn_pagetable_mmu_switch /\
       trace s' = trace s ++ banner c
                  ++ map (fun i => PagingRead i 1) [i0; i1; i2; i3; i4; i5; i6]
                  ++ [PagingInit] /\
       pid_to_pagetable_base s' 0 = frame_address i0 /\
       console s' = rest) /\
  (* no valid choice is ever typed *)
  (forall s0, forallb (fun x => negb (is_choice x)) (console s0) = true ->
              exists s', mmu_init s0 = Blocked s').
Proof.
  intros Hcon Hjunk Hc.
  pose proof (mmu_init_unfold s junk c rest Hcon Hjunk Hc) as Hrun.
  destruct (probed_fields c rest s) as (He & Htrace & Htable & Hconsole & Hbase).
  unfold wired in *. remember (probed c rest s) as p eqn:Ep. clear Ep.
  rewrite He in Hrun. cbn [Earth.platform] in Hrun.
  split; [|split; [|split]].
  - intros -> Htraps. rewrite Htraps in *. rewrite Ascii.eqb_refl in Hrun.
    cbn [platform_eqb andb] in Hrun.
    split; [exact Hrun|]. rewrite He. repeat split; try reflexivity. exact Htrace.
  - intros ->.
    replace (platform_eqb (if probe_traps s then ARTY else QEMU) ARTY && ("1" =? "0")%char)
      with false in Hrun by (destruct (probe_traps s); reflexivity).
    replace ("1" =? "0")%char with false in Hrun by reflexivity.
    split; [exact Hrun|].
    destruct (installed_fields fn_mmu_alloc fn_mmu_free fn_soft_mmu_map fn_soft_mmu_switch p)
      as (-> & -> & -> & -> & _).
    rewrite He, Htrace, Htable, Hconsole.
    repeat split; try reflexivity. symmetry. apply app_assoc.
  - intros -> Htraps Hpid i0 i1 i2 i3 i4 i5 i6 more Hfree.
    rewrite Htraps in *. rewrite Ascii.eqb_refl in Hrun.
    cbn [platform_eqb andb] in Hrun.
    destruct (install_fields fn_mmu_alloc fn_mmu_free fn_soft_mmu_map fn_soft_mmu_switch p)
      as (Hew & Htrw & Htw & Hcw & _).
    remember (install fn_mmu_alloc fn_mmu_free fn_soft_mmu_map fn_soft_mmu_switch p)
      as w eqn:Ew.
    clear Ew. rewrite He in Hew. rewrite Htrace in Htrw. rewrite Htable in Htw.
    rewrite Hconsole in Hcw.
    destruct (pagetable_identity_mapping_runs 0 w i0 i1 i2 i3 i4 i5 i6 more)
      as (s1 & R & E1 & _ & _ & Tr1 & Ro1 & B1 & _ & Co1).
    { now rewrite Hew. }
    { exact Hpid. }
    { now rewrite (free_frames_table _ _ Htw). }
    rewrite (bind_done _ _ _ _ _ R) in Hrun.
    exists s1. eexists. split; [exact Hew|]. split; [exact R|]. split; [exact Hrun|].
    destruct (installed_fields (Earth.mmu_alloc (earth s1)) (Earth.mmu_free (earth s1))
                fn_pagetable_mmu_map fn_pagetable_mmu_switch s1)
      as (-> & -> & _ & -> & ->).
    rewrite E1, Hew, Tr1, Htrw, B1, Co1, Hcw.
    split; [reflexivity|]. split; [now rewrite <- !app_assoc|].
    split; [apply upd_same|reflexivity].
  - intros s0 H0. unfold mmu_init. rewrite bind_step.
    eexists. unfold bind at 1. cbn [console log].
    rewrite (await_choice_blocked _ _ H0). reflexivity.
Qed.

(** ** Frames that were allocated but never bound *)

Lemma mmu_alloc_frame (s s' : state) (r : Z * Z * Z) :
  mmu_alloc s = Done r s' ->
  forall j,
    Frame.pid (table s' j) = Frame.pid (table s j) /\
    Frame.page_no (table s' j) = Frame.page_no (table s j) /\
    (j <> snd (fst r) -> table s' j = table s j).
Proof.
  rewrite mmu_alloc_unfold. destruct (free_frames s) as [|i rest]; [discriminate|].
  intros [= <- <-] j. unfold allocated. cbn [table set_table log fst snd]. unfold upd.
  destruct (Z.eqb_spec j i) as [->|Hne]; [|prop].
  repeat split. intros H. now contradiction H.
Qed.

Lemma mmu_free_inv (pid : Z) (s s' : state) :
  mmu_free pid s = Done tt s' ->
  (forall i, In i (frames_of pid s) -> table s' i = Frame.zero) /\
  (forall i, ~ In i (frames_of pid s) -> table s' i = table s i).
Proof.
  destruct (mmu_free_loop_spec pid s) as (s1 & E1 & _ & Hin & Hout & _).
  destruct (valid_pid pid) eqn:Hpid.
  - rewrite (mmu_free_unfold pid s s1 Hpid E1). intros [= <-]. split; assumption.
  - unfold mmu_free. rewrite Hpid. discriminate.
Qed.

Lemma soft_mmu_map_inv (pid page_no fid : Z) (s s' : state) :
  soft_mmu_map pid page_no fid s = Done tt s' ->
  0 <= fid < NFRAMES /\ forall i, i <> fid -> table s' i = table s i.
Proof.
  unfold soft_mmu_map. destruct (valid_frame fid) eqn:Hf; [|discriminate].
  intros [= <-]. split; [unfold valid_frame in Hf; lia|].
  intros i Hi. cbn [table set_table]. now apply upd_other.
Qed.

Lemma run_calls_unbound_clean (cs : list call) :
  forall bound_frames s bound_frames' s',
    unbound_clean bound_frames s ->
    run_calls cs bound_frames s = Done bound_frames' s' ->
    unbound_clean bound_frames' s'.
Proof.
  induction cs as [|[|pid|pid page_no fid] cs IH];
    intros bf s bf' s' [Hrange Hclean] Hrun; cbn [run_calls] in Hrun.
  - injection Hrun as <- <-. split; assumption.
  - unfold bind in Hrun. destruct (mmu_alloc s) as [r s1| | |] eqn:E; try discriminate.
    apply (IH bf s1); [|exact Hrun]. split; [exact Hrange|].
    intros i Hi. destruct (mmu_alloc_frame s s1 r E i) as (-> & -> & _). now apply Hclean.
  - unfold bind in Hrun. destruct (mmu_free pid s) as [[] s1| | |] eqn:E; try discriminate.
    destruct (mmu_free_inv pid s s1 E) as [Hin Hout].
    apply (IH _ s1 _ _) in Hrun; [exact Hrun|]. split.
    + intros i Hi. apply filter_In in Hi. now apply Hrange.
    + intros i Hi. destruct (owned_by pid (table s i)) eqn:Ho.
      * destruct (in_dec Z.eq_dec i bf) as [Hb|Hb].
        -- rewrite Hin; [split; reflexivity|]. apply frames_of_spec. split; [|exact Ho].
           now apply Hrange.
        -- destruct (in_dec Z.eq_dec i (frames_of pid s)) as [Hf|Hf].
           ++ rewrite (Hin i Hf). split; reflexivity.
           ++ rewrite (Hout i Hf). now apply Hclean.
      * assert (Hb : ~ In i bf).
        { intros Hb. apply Hi. apply filter_In. split; [exact Hb|]. now rewrite Ho. }
        rewrite Hout; [now apply Hclean|].
        rewrite frames_of_spec. intros [_ H]. congruence.
  - unfold bind in Hrun.
    destruct (soft_mmu_map pid page_no fid s) as [[] s1| | |] eqn:E; try discriminate.
    destruct (soft_mmu_map_inv pid page_no fid s s1 E) as [Hf Hother].
    apply (IH _ s1 _ _) in Hrun; [exact Hrun|]. split.
    + intros i [<-|Hi]; [exact Hf|now apply Hrange].
    + intros i Hi. rewrite Hother; [apply Hclean|]; intros H; apply Hi; [now right|now left].
Qed.

Lemma mmu_free_runs (pid : Z) (s : state) :
  valid_pid pid = true ->
  exists s', mmu_free pid s = Done tt s' /\ pid_to_pagetable_base s' pid = 0.
Proof.
  intros Hpid. destruct (mmu_free_loop_spec pid s) as (s1 & E1 & _).
  eexists. split; [exact (mmu_free_unfold pid s s1 Hpid E1)|]. apply upd_same.
Qed.

(** C10: [mmu_alloc] writes nothing in the frame table but the [use]
    flag of the frame it returns.  Hence, after any sequence of
    [mmu_alloc], [mmu_free] and [soft_mmu_map] calls from boot, a used
    frame that was not bound since its entry was last zeroed still has
    owner pid 0, and [mmu_free(0)] reclaims it.  In particular the seven
    frames that [pagetable_identity_mapping(0)] allocates at boot for the
    root and leaf tables are owned by pid 0 and [mmu_free(0)] frees them
    all. *)
Theorem unbound_frames_owned_by_pid_0 :
  (forall s r s',
      mmu_alloc s = Done r s' ->
      Frame.use (table s' (snd (fst r))) = 1 /\
      forall j,
        Frame.pid (table s' j) = Frame.pid (table s j) /\
        Frame.page_no (table s' j) = Frame.page_no (table s j) /\
        (j <> snd (fst r) -> table s' j = table s j)) /\
  (forall cs s0 bound_frames s,
      (forall i, table s0 i = Frame.zero) ->
      run_calls cs [] s0 = Done bound_frames s ->
      valid_pid 0 = true ->
      exists s',
        mmu_free 0 s = Done tt s' /\
        forall i, 0 <= i < NFRAMES -> Frame.use (table s i) <> 0 -> ~ In i bound_frames ->
                  Frame.pid (table s i) = 0 /\ table s' i = Frame.zero) /\
  (forall s,
      (forall i, table s i = Frame.zero) ->
      Earth.mmu_alloc (earth s) = fn_mmu_alloc ->
      valid_pid 0 = true ->
      exists s1 s2,
        pagetable_identity_mapping 0 s = Done tt s1 /\
        (forall i, 0 <= i <= 6 -> table s1 i = Frame.mk 1 0 0) /\
        (forall i, ~ 0 <= i <= 6 -> table s1 i = Frame.zero) /\
        pid_to_pagetable_base s1 0 = root s1 /\
        mmu_free 0 s1 = Done tt s2 /\
        (forall i, table s2 i = Frame.zero) /\
        pid_to_pagetable_base s2 0 = 0).
Proof.
  split; [|split].
  - intros s r s' H. split; [|exact (mmu_alloc_frame s s' r H)].
    revert H. rewrite mmu_alloc_unfold. destruct (free_frames s) as [|i rest]; [discriminate|].
    intros [= <- <-]. unfold allocated. cbn [table set_table log fst snd].
    now rewrite upd_same.
  - intros cs s0 bf s Hzero Hrun Hpid.
    assert (Hinv : unbound_clean bf s).
    { apply (run_calls_unbound_clean cs [] s0 bf s); [|exact Hrun].
      split; [intros i []|]. intros i _. now rewrite Hzero. }
    destruct (mmu_free_runs 0 s Hpid) as (s' & Hfree & _).
    exists s'. split; [exact Hfree|]. intros i Hi Hu Hb.
    destruct Hinv as [_ Hclean]. destruct (Hclean i Hb) as [Hp _].
    split; [exact Hp|].
    apply (mmu_free_inv 0 s s' Hfree). apply frames_of_spec. split; [exact Hi|].
    unfold owned_by. rewrite Hp. apply Z.eqb_neq in Hu. now rewrite Hu.
  - intros s Hzero He Hpid.
    assert (Hfree : free_frames s = 0 :: 1 :: 2 :: 3 :: 4 :: 5 :: 6 :: indices 7 249).
    { rewrite free_frames_all, frame_ids_head; [reflexivity|].
      intros i _. unfold unused. now rewrite Hzero. }
    destruct (pagetable_identity_mapping_runs 0 s 0 1 2 3 4 5 6 _ He Hpid Hfree)
      as (s1 & R & _ & _ & Hmarks & _ & Hroot & Hbase & _).
    assert (H1 : forall i, 0 <= i <= 6 -> table s1 i = Frame.mk 1 0 0).
    { intros i Hi. rewrite (Hmarks i), Hzero.
      replace (mem_index i [6; 5; 4; 3; 2; 1; 0]) with true; [reflexivity|].
      symmetry. apply mem_index_In. cbn [In]. lia. }
    assert (H0 : forall i, ~ 0 <= i <= 6 -> table s1 i = Frame.zero).
    { intros i Hi. rewrite (Hmarks i), Hzero.
      destruct (mem_index i [6; 5; 4; 3; 2; 1; 0]) eqn:E; [|reflexivity].
      apply mem_index_In in E. cbn [In] in E. lia. }
    destruct (mmu_free_runs 0 s1 Hpid) as (s2 & Hfr & Hb2).
    destruct (mmu_free_inv 0 s1 s2 Hfr) as [Hin Hout].
    exists s1, s2. split; [exact R|]. split; [exact H1|]. split; [exact H0|].
    split; [rewrite Hbase, Hroot; apply upd_same|].
    split; [exact Hfr|]. split; [|exact Hb2].
    intros i. destruct (in_dec Z.eq_dec i (frames_of 0 s1)) as [Hf|Hf].
    + now apply Hin.
    + rewrite (Hout i Hf).
      destruct (Z_le_dec 0 i) as [Hl|Hl]; [|apply H0; lia].
      destruct (Z_le_dec i 6) as [Hh|Hh]; [|apply H0; lia].
      exfalso. apply Hf, frames_of_spec. rewrite H1 by lia.
      split; [unfold NFRAMES; lia|reflexivity].
Qed.

(** ** Accounting of the frames *)

Lemma length_filter_split {A : Type} (P Q R : A -> bool) (l : list A) :
  (forall x, In x l -> R x = P x || Q x) ->
  (forall x, In x l -> P x && Q x = false) ->
  List.length (filter R l) = (List.length (filter P l) + List.length (filter Q l))%nat.
Proof.
  induction l as [|a l IH]; intros HR HPQ; [reflexivity|].
  cbn [filter]. rewrite (HR a) by now left.
  pose proof (HPQ a (or_introl eq_refl)) as Ha.
  assert (IH' : List.length (filter R l)
                = (List.length (filter P l) + List.length (filter Q l))%nat).
  { apply IH; intros x Hx; [apply HR|apply HPQ]; now right. }
  destruct (P a), (Q a); cbn [orb andb List.length] in *; try discriminate; lia.
Qed.

(** X1: every successful [mmu_alloc] takes exactly one frame out of the
    unused ones, and [mmu_free(pid)] gives back exactly the used frames
    of [pid]. *)
Theorem free_frame_accounting :
  (forall s r s',
      mmu_alloc s = Done r s' ->
      List.length (free_frames s) = S (List.length (free_frames s'))) /\
  (forall pid s s',
      mmu_free pid s = Done tt s' ->
      List.length (free_frames s')
      = (List.length (free_frames s) + List.length (frames_of pid s))%nat).
Proof.
  split.
  - intros s r s' H. rewrite mmu_alloc_unfold in H.
    destruct (free_frames s) as [|i rest] eqn:E; [discriminate|].
    injection H as _ <-. now rewrite (free_frames_allocated s i rest E).
  - intros pid s s' H. destruct (mmu_free_inv pid s s' H) as [Hin Hout].
    unfold free_frames, frames_of. apply length_filter_split.
    + intros x Hx. apply in_frame_ids in Hx. unfold unused.
      destruct (owned_by pid (table s x)) eqn:Ho.
      * rewrite Hin by (apply frames_of_spec; split; assumption).
        now rewrite orb_true_r.
      * rewrite Hout; [now rewrite orb_false_r|].
        rewrite frames_of_spec. intros [_ Hx']. congruence.
    + intros x _. unfold unused, owned_by.
      destruct (Frame.use (table s x) =? 0); reflexivity.
Qed.

(** Freeing the frames of [pid] and allocating again. *)
Lemma mmu_free_then_alloc_spec (pid : Z) (s : state) (i : Z) :
  valid_pid pid = true ->
  0 <= i < NFRAMES ->
  unused s i = true \/ owned_by pid (table s i) = true ->
  (forall j, 0 <= j < i -> unused s j = false /\ owned_by pid (table s j) = false) ->
  exists s1 s2,
    mmu_free pid s = Done tt s1 /\
    mmu_alloc s1 = Done (0, i, frame_address i) s2 /\
    table s2 i = (if owned_by pid (table s i) then Frame.mk 1 0 0
                  else mark_used (table s i)) /\
    (forall j, j <> i -> table s2 j = table s1 j) /\
    trace s2 = trace s ++ map PagingInvalidate (frames_of pid s) ++ [PagingRead i 1] /\
    memory s2 = memory s /\
    curr_vm_pid s2 = curr_vm_pid s.
Proof.
  intros Hpid Hi Hfree Hlow.
  destruct (mmu_free_loop_spec pid s) as (l1 & E1 & Htr & Hin & Hout & _ & Hm & Hc & _).
  pose proof (mmu_free_unfold pid s l1 Hpid E1) as Hrun. clear E1.
  remember (set_pid_to_pagetable_base (upd (pid_to_pagetable_base l1) pid 0) l1) as s1 eqn:Es1.
  assert (Ht : table s1 = table l1) by (subst s1; reflexivity).
  assert (Htr1 : trace s1 = trace l1) by (subst s1; reflexivity).
  assert (Hm1 : memory s1 = memory l1) by (subst s1; reflexivity).
  assert (Hc1 : curr_vm_pid s1 = curr_vm_pid l1) by (subst s1; reflexivity).
  clear Es1.
  assert (Hkeep : forall j, owned_by pid (table s j) = false -> table s1 j = table s j).
  { intros j Ho. rewrite Ht. apply Hout. rewrite frames_of_spec. intros [_ H]. congruence. }
  assert (Hti : table s1 i = if owned_by pid (table s i) then Frame.zero else table s i).
  { destruct (owned_by pid (table s i)) eqn:Ho.
    - rewrite Ht. apply Hin. apply frames_of_spec. split; assumption.
    - now apply Hkeep. }
  assert (Ui : unused s1 i = true).
  { unfold unused. rewrite Hti. destruct (owned_by pid (table s i)); [reflexivity|].
    destruct Hfree as [H|H]; [exact H|discriminate]. }
  assert (Hl : forall j, 0 <= j < i -> unused s1 j = false).
  { intros j Hj. destruct (Hlow j Hj) as [Hu Ho]. unfold unused. rewrite (Hkeep j Ho).
    exact Hu. }
  exists s1, (allocated i s1). split; [exact Hrun|]. split.
  { unfold mmu_alloc. now rewrite (find_frame_ids_first (unused s1) i Hi Ui Hl). }
  split.
  { unfold allocated. cbn [table set_table log]. rewrite upd_same, Hti.
    destruct (owned_by pid (table s i)); reflexivity. }
  split.
  { intros j Hj. unfold allocated. cbn [table set_table log]. now apply upd_other. }
  split.
  { unfold allocated. cbn [trace set_table log]. rewrite Htr1, Htr.
    symmetry. apply app_assoc. }
  split.
  { unfold allocated. cbn [memory set_table log]. now rewrite Hm1. }
  unfold allocated. cbn [curr_vm_pid set_table log]. now rewrite Hc1.
Qed.

(** X2: frames given back by [mmu_free(pid)] are handed out again: the
    next [mmu_alloc] returns the lowest frame that was unused or owned by
    [pid]; a frame that [pid] owned comes back with owner and page
    zeroed.  Neither call writes to memory. *)
Theorem mmu_free_then_alloc_recycles (pid : Z) (s : state) (i : Z) :
  valid_pid pid = true ->
  0 <= i < NFRAMES ->
  unused s i = true \/ owned_by pid (table s i) = true ->
  (forall j, 0 <= j < i -> unused s j = false /\ owned_by pid (table s j) = false) ->
  exists s1 s2,
    mmu_free pid s = Done tt s1 /\
    mmu_alloc s1 = Done (0, i, frame_address i) s2 /\
    table s2 i = (if owned_by pid (table s i) then Frame.mk 1 0 0
                  else mark_used (table s i)) /\
    (forall j, j <> i -> table s2 j = table s1 j) /\
    trace s2 = trace s ++ map PagingInvalidate (frames_of pid s) ++ [PagingRead i 1] /\
    memory s2 = memory s.
Proof.
  intros Hpid Hi Hfree Hlow.
  destruct (mmu_free_then_alloc_spec pid s i Hpid Hi Hfree Hlow)
    as (s1 & s2 & H1 & H2 & H3 & H4 & H5 & H6 & _).
  exists s1, s2. repeat split; assumption.
Qed.

(** ** Binding frames *)

(** X3: [soft_mmu_map(pid, page_no, frame_id)] only moves frame
    [frame_id]: if the frame is allocated it becomes a frame of [pid]
    with page [page_no] and stops being a frame of its former owner; if
    it is not allocated no process gets it.  Every other frame keeps its
    owner, the set of unused frames is the same, and no device is called
    nor memory written. *)
Theorem soft_mmu_map_transfers_ownership (pid p f : Z) (s : state) :
  valid_frame f = true ->
  exists s',
    soft_mmu_map pid p f s = Done tt s' /\
    trace s' = trace s /\ memory s' = memory s /\ curr_vm_pid s' = curr_vm_pid s /\
    free_frames s' = free_frames s /\
    (forall q i, In i (frames_of q s') <->
                 (i = f /\ q = pid /\ Frame.use (table s f) <> 0) \/
                 (i <> f /\ In i (frames_of q s))) /\
    Frame.page_no (table s' f) = p.
Proof.
  intros Hf. exists (bound pid p f s).
  split; [unfold soft_mmu_map; now rewrite Hf|].
  split; [reflexivity|]. split; [reflexivity|]. split; [reflexivity|].
  assert (Hr : 0 <= f < NFRAMES) by (unfold valid_frame in Hf; lia).
  split; [|split].
  - unfold free_frames. apply filter_ext. intros x. unfold unused, bound.
    cbn [table set_table]. unfold upd.
    destruct (Z.eqb_spec x f) as [->|]; reflexivity.
  - intros q i. rewrite !frames_of_spec. unfold bound. cbn [table set_table]. unfold upd.
    destruct (Z.eqb_spec i f) as [->|Hne].
    + unfold owned_by. cbn [Frame.use Frame.pid].
      rewrite andb_true_iff, negb_true_iff, Z.eqb_neq, Z.eqb_eq.
      split.
      * intros (_ & Hu & Hp). left. repeat split; [now symmetry|exact Hu].
      * intros [(_ & -> & Hu)|(Hne & _)]; [|now contradiction Hne].
        repeat split; try assumption; lia.
    + split; [intros H; right; split; assumption|].
      intros [(E & _)|(_ & H)]; [now contradiction Hne|exact H].
  - unfold bound. cbn [table set_table]. now rewrite upd_same.
Qed.

(** X4: [soft_mmu_map] does not look at [use], and [mmu_alloc] does not
    reset the owner: binding a frame that is not allocated gives [pid]
    nothing and leaves the frame unused, but when [mmu_alloc] later hands
    this frame out it is at once a frame of [pid], bound to the page. *)
Theorem soft_mmu_map_unallocated_then_alloc (pid p f : Z) (s : state) (rest : list Z) :
  free_frames s = f :: rest ->
  exists s1 s2,
    soft_mmu_map pid p f s = Done tt s1 /\
    (forall q, frames_of q s1 = frames_of q s) /\
    free_frames s1 = f :: rest /\
    mmu_alloc s1 = Done (0, f, frame_address f) s2 /\
    table s2 f = Frame.mk 1 pid p /\
    In f (frames_of pid s2).
Proof.
  intros Hfree.
  assert (Hf : In f (free_frames s)) by (rewrite Hfree; now left).
  apply free_frames_spec in Hf. destruct Hf as [Hr Hu].
  assert (Hv : valid_frame f = true) by (unfold valid_frame; lia).
  assert (Hu0 : Frame.use (table s f) = 0) by (unfold unused in Hu; lia).
  remember (bound pid p f s) as s1 eqn:Es1.
  assert (Ht : table s1 = upd (table s) f (Frame.mk (Frame.use (table s f)) pid p))
    by (subst s1; reflexivity).
  assert (Hfree1 : free_frames s1 = f :: rest).
  { rewrite <- Hfree. unfold free_frames. apply filter_ext. intros x. unfold unused.
    rewrite Ht. unfold upd. destruct (Z.eqb_spec x f) as [->|]; reflexivity. }
  assert (Htf : table (allocated f s1) f = Frame.mk 1 pid p).
  { unfold allocated. cbn [table set_table log]. rewrite upd_same, Ht, upd_same.
    reflexivity. }
  exists s1, (allocated f s1).
  split; [unfold soft_mmu_map; rewrite Hv, Es1; reflexivity|].
  split; [|split; [exact Hfree1|split; [|split; [exact Htf|]]]].
  - intros q. unfold frames_of. apply filter_ext. intros x. rewrite Ht. unfold upd.
    destruct (Z.eqb_spec x f) as [->|]; [|reflexivity].
    unfold owned_by. cbn [Frame.use]. now rewrite Hu0.
  - rewrite mmu_alloc_unfold, Hfree1. reflexivity.
  - apply frames_of_spec. split; [exact Hr|]. rewrite Htf. unfold owned_by.
    cbn [Frame.use Frame.pid]. now rewrite Z.eqb_refl.
Qed.

(** ** What a switch leaves alone *)

Lemma unmap_loop_rest (l : list Z) :
  forall s,
    pid_to_pagetable_base (fold_left unmap_step l s) = pid_to_pagetable_base s /\
    earth (fold_left unmap_step l s) = earth s /\
    console (fold_left unmap_step l s) = console s.
Proof.
  induction l as [|a l IH]; intros s; [repeat split|].
  cbn [fold_left]. destruct (IH (unmap_step s a)) as (-> & -> & ->).
  unfold unmap_step. destruct (owned_by (curr_vm_pid s) (table s a)); repeat split.
Qed.

Lemma map_loop_rest (pid : Z) (l : list Z) :
  forall s,
    pid_to_pagetable_base (fold_left (map_step pid) l s) = pid_to_pagetable_base s /\
    earth (fold_left (map_step pid) l s) = earth s /\
    console (fold_left (map_step pid) l s) = console s.
Proof.
  induction l as [|a l IH]; intros s; [repeat split|].
  cbn [fold_left]. destruct (IH (map_step pid s a)) as (-> & -> & ->).
  unfold map_step. destruct (owned_by pid (table s a)); repeat split.
Qed.

(** X5: [soft_mmu_switch(pid)] always returns, with [pid] resident.  It
    writes neither the frame table, nor [pid_to_pagetable_base], nor the
    [earth] interface, and in memory it writes only inside the storage of
    the frames of the outgoing process and inside the pages that the
    frames of [pid] are bound to: every other byte is as before; in
    particular the pages of the outgoing process are not cleared. *)
Theorem soft_mmu_switch_footprint (pid : Z) (s : state) :
  exists r s',
    soft_mmu_switch pid s = Done r s' /\
    curr_vm_pid s' = pid /\
    table s' = table s /\
    pid_to_pagetable_base s' = pid_to_pagetable_base s /\
    earth s' = earth s /\
    (forall x,
        (forall g, In g (frames_of (curr_vm_pid s) s) ->
                   in_range (frame_address g) PAGE_SIZE x = false) ->
        (forall g, In g (frames_of pid s) ->
                   in_range (page_addr (Frame.page_no (table s g))) PAGE_SIZE x = false) ->
        memory s' x = memory s x).
Proof.
  destruct (Z.eq_dec pid (curr_vm_pid s)) as [E|Hne].
  - exists (Some 0), s. split; [now apply soft_mmu_switch_resident|].
    split; [now symmetry|]. repeat split.
  - destruct (unmap_loop_spec frame_ids s) as (s1 & E1 & Ht1 & _ & _ & Hm1).
    destruct (map_loop_spec pid frame_ids s1) as (s2 & E2 & Ht2 & _ & _ & Hm2).
    destruct (unmap_loop_rest frame_ids s) as (Hb1 & He1 & _).
    destruct (map_loop_rest pid frame_ids s1) as (Hb2 & He2 & _).
    rewrite E1 in Hb1, He1. rewrite E2 in Hb2, He2.
    pose proof (soft_mmu_switch_unfold pid s s1 s2 Hne E1 E2) as Hrun. clear E1 E2.
    rewrite Ht1 in Ht2, Hm2.
    exists None, (set_curr_vm_pid pid s2). split; [exact Hrun|].
    split; [reflexivity|]. split; [exact Ht2|].
    split; [cbn [pid_to_pagetable_base set_curr_vm_pid]; congruence|].
    split; [cbn [earth set_curr_vm_pid]; congruence|].
    intros x Hout Hin. cbn [memory set_curr_vm_pid]. rewrite Hm2.
    rewrite (copy_in_untouched (table s) _ _ x Hin). rewrite Hm1.
    exact (write_out_untouched (table s) _ _ x Hout).
Qed.

(** X14: [mmu_free] does not reset the resident process of
    [soft_mmu_switch].  When the resident process is freed and a frame is
    then allocated and bound for the same process id, [soft_mmu_switch]
    for that id returns 0 at once: no [paging_read] is made and memory is
    still as it was before the free, so the new frame is never brought to
    its page. *)
Theorem mmu_free_keeps_resident (pid p : Z) (s : state) (f : Z) :
  valid_pid pid = true ->
  curr_vm_pid s = pid ->
  0 <= f < NFRAMES ->
  unused s f = true \/ owned_by pid (table s f) = true ->
  (forall j, 0 <= j < f -> unused s j = false /\ owned_by pid (table s j) = false) ->
  exists s1 s2 s3,
    mmu_free pid s = Done tt s1 /\
    mmu_alloc s1 = Done (0, f, frame_address f) s2 /\
    soft_mmu_map pid p f s2 = Done tt s3 /\
    In f (frames_of pid s3) /\
    Frame.page_no (table s3 f) = p /\
    soft_mmu_switch pid s3 = Done (Some 0) s3 /\
    memory s3 = memory s /\
    trace s3 = trace s ++ map PagingInvalidate (frames_of pid s) ++ [PagingRead f 1].
Proof.
  intros Hpid Hres Hf Hfree Hlow.
  destruct (mmu_free_then_alloc_spec pid s f Hpid Hf Hfree Hlow)
    as (s1 & s2 & H1 & H2 & H3 & _ & H5 & H6 & H7).
  assert (Hv : valid_frame f = true) by (unfold valid_frame; lia).
  assert (Hu : Frame.use (table s2 f) = 1).
  { rewrite H3. destruct (owned_by pid (table s f)); reflexivity. }
  exists s1, s2, (bound pid p f s2). split; [exact H1|]. split; [exact H2|].
  split; [unfold soft_mmu_map; now rewrite Hv|].
  assert (Ht : table (bound pid p f s2) f = Frame.mk 1 pid p).
  { unfold bound. cbn [table set_table]. now rewrite upd_same, Hu. }
  split.
  { apply frames_of_spec. split; [exact Hf|]. rewrite Ht. unfold owned_by.
    cbn [Frame.use Frame.pid]. now rewrite Z.eqb_refl. }
  split; [now rewrite Ht|].
  split; [apply soft_mmu_switch_resident; cbn [curr_vm_pid bound set_table]; congruence|].
  split; [exact H6|exact H5].
Qed.

(** ** Page tables: more than one region *)

Lemma load32_memset_outside (m : mem) (dst c len b : Z) :
  b + 4 <= dst \/ dst + len <= b -> load32 (memset m dst c len) b = load32 m b.
Proof.
  intros H. unfold load32, memset, in_range.
  replace ((dst <=? b) && (b <? dst + len)) with false by lia.
  replace ((dst <=? b + 1) && (b + 1 <? dst + len)) with false by lia.
  replace ((dst <=? b + 2) && (b + 2 <? dst + len)) with false by lia.
  replace ((dst <=? b + 3) && (b + 3 <? dst + len)) with false by lia.
  reflexivity.
Qed.

Lemma vpn0_bound (addr : Z) : 0 <= Z.land (Z.shiftr addr 12) 0x3FF < 1024.
Proof.
  change 0x3FF with (Z.ones 10). rewrite Z.land_ones by lia.
  apply Z.mod_pos_bound. lia.
Qed.

Lemma vpn1_bound (addr : Z) : 0 <= addr < 2 ^ 32 -> 0 <= Z.shiftr addr 22 < 1024.
Proof.
  intros H. rewrite Z.shiftr_div_pow2 by lia. split; [apply Z.div_pos; lia|].
  apply Z.div_lt_upper_bound; lia.
Qed.

(** A call of [setup_identity_region] writes the leaf page and one word
    of the root table, and no other word, when the region fits. *)
Lemma setup_identity_region_frame (addr npages : Z) (s : state) (i : Z) (rest : list Z) :
  Earth.mmu_alloc (earth s) = fn_mmu_alloc ->
  free_frames s = i :: rest ->
  0 <= npages ->
  Z.land (Z.shiftr addr 12) 0x3FF + npages <= 1024 ->
  exists s',
    setup_identity_region addr npages s = Done tt s' /\
    forall b,
      b + 4 <= frame_address i \/ frame_address i + PAGE_SIZE <= b ->
      b + 4 <= root s + 4 * Z.shiftr addr 22 \/ root s + 4 * Z.shiftr addr 22 + 4 <= b ->
      load32 (memory s') b = load32 (memory s) b.
Proof.
  intros He Hfree Hn Hfit.
  pose proof (vpn0_bound addr) as Hvpn0.
  destruct (leaf_loop_spec addr (Z.land (Z.shiftr addr 12) 0x3FF) (Z.to_nat npages) 0
              (leaf_installed addr i s))
    as (s' & E & _ & _ & _ & _ & _ & _ & Hout).
  rewrite Z2Nat.id in Hout by assumption.
  change (leaf (leaf_installed addr i s)) with (frame_address i) in *.
  exists s'. split; [rewrite <- E; now apply setup_identity_region_unfold with rest|].
  intros b Hb1 Hb2. unfold PAGE_SIZE in Hb1.
  rewrite Hout by (intros k Hk; lia).
  unfold leaf_installed, allocated.
  cbn [memory set_memory leaf set_leaf root set_frame_id set_table log].
  rewrite load32_store32_other by lia.
  apply load32_memset_outside. unfold PAGE_SIZE. lia.
Qed.

(** One call, with everything it does to the state. *)
Lemma setup_identity_region_step (addr npages : Z) (s : state) (i : Z) (rest : list Z) :
  Earth.mmu_alloc (earth s) = fn_mmu_alloc ->
  free_frames s = i :: rest ->
  fits addr npages ->
  table_frame i ->
  apart (root s) (frame_address i) = true ->
  exists s',
    setup_identity_region addr npages s = Done tt s' /\
    earth s' = earth s /\ free_frames s' = rest /\
    table s' = table (allocated i s) /\
    trace s' = trace s ++ [PagingRead i 1] /\
    root s' = root s /\ pid_to_pagetable_base s' = pid_to_pagetable_base s /\
    load32 (memory s') (root s + 4 * Z.shiftr addr 22)
      = Z.lor (Z.shiftr (frame_address i) 2) FLAG_NEXT_LEVEL /\
    (forall j, 0 <= j < 1024 ->
               load32 (memory s') (frame_address i + 4 * j)
               = leaf_entry_of (addr, npages, i) j) /\
    (forall b,
        b + 4 <= frame_address i \/ frame_address i + PAGE_SIZE <= b ->
        b + 4 <= root s + 4 * Z.shiftr addr 22 \/ root s + 4 * Z.shiftr addr 22 + 4 <= b ->
        load32 (memory s') b = load32 (memory s) b).
Proof.
  intros He Hfree (Haddr & Hn & Hfit) (Halign & Hleaf) Hapart.
  destruct (setup_identity_region_spec addr npages s i rest He Hfree Haddr Hn Hfit
              Halign Hleaf Hapart)
    as (s' & Hrun & _ & _ & _ & _ & _ & Hroot & Hentries & Hzero & _).
  destruct (setup_identity_region_runs addr npages s i rest He Hfree)
    as (s1 & Hrun1 & Hea & Hfr & Ht & Htr & Hr & Hb & _).
  destruct (setup_identity_region_frame addr npages s i rest He Hfree Hn Hfit)
    as (s2 & Hrun2 & Hframe).
  rewrite Hrun in Hrun1, Hrun2.
  injection Hrun1 as <-. injection Hrun2 as <-.
  exists s'. split; [exact Hrun|]. split; [exact Hea|]. split; [exact Hfr|].
  split; [exact Ht|]. split; [exact Htr|]. split; [exact Hr|]. split; [exact Hb|].
  split; [exact Hroot|]. split; [|exact Hframe].
  intros j Hj. unfold leaf_entry_of. cbn [fst snd].
  destruct ((Z.land (Z.shiftr addr 12) 0x3FF <=? j)
            && (j <? Z.land (Z.shiftr addr 12) 0x3FF + npages)) eqn:Hin.
  - replace j with (Z.land (Z.shiftr addr 12) 0x3FF + (j - Z.land (Z.shiftr addr 12) 0x3FF))
      at 1 by lia.
    apply Hentries. lia.
  - apply Hzero; [exact Hj|]. lia.
Qed.

(** The step of the induction behind [pagetable_identity_mapping]: a
    further region, with its leaf table in a frame away from the tables
    set up so far. *)
Lemma setup_identity_region_installs
      (addr npages : Z) (s : state) (i : Z) (rest : list Z) (tables : list leaf_table) :
  Earth.mmu_alloc (earth s) = fn_mmu_alloc ->
  free_frames s = i :: rest ->
  fits addr npages ->
  table_frame i ->
  apart (root s) (frame_address i) = true ->
  (forall t, In t tables ->
             apart (frame_address (snd t)) (frame_address i) = true /\
             apart (root s) (frame_address (snd t)) = true) ->
  tables_installed tables s ->
  exists s',
    setup_identity_region addr npages s = Done tt s' /\
    earth s' = earth s /\ free_frames s' = rest /\
    trace s' = trace s ++ [PagingRead i 1] /\
    root s' = root s /\ pid_to_pagetable_base s' = pid_to_pagetable_base s /\
    tables_installed ((addr, npages, i) :: tables) s'.
Proof.
  intros He Hfree Hfits Hframe Hapart Holder [Hroots Hleaves].
  destruct (setup_identity_region_step addr npages s i rest He Hfree Hfits Hframe Hapart)
    as (s' & Hrun & Hea & Hfr & _ & Htr & Hr & Hb & Hroot & Hleaf & Hrest).
  destruct Hfits as (Haddr & _ & _).
  pose proof (vpn1_bound addr Haddr) as Hvpn1.
  exists s'. split; [exact Hrun|]. split; [exact Hea|]. split; [exact Hfr|].
  split; [exact Htr|]. split; [exact Hr|]. split; [exact Hb|].
  unfold apart, PAGE_SIZE in Hapart. unfold PAGE_SIZE in Hrest.
  split.
  - intros j Hj. rewrite Hr. unfold root_entry_of. cbn [find fst snd].
    destruct (Z.eqb_spec (Z.shiftr addr 22) j) as [<-|Hne].
    + exact Hroot.
    + rewrite Hrest by lia. apply Hroots. exact Hj.
  - intros t j [<-|Ht] Hj.
    + apply Hleaf. exact Hj.
    + destruct (Holder t Ht) as [H1 H2]. unfold apart, PAGE_SIZE in H1, H2.
      rewrite Hrest by lia. now apply Hleaves.
Qed.

(** The regions of a list, each with the frame of the same position. *)
Lemma setup_regions_installs (l : list (Z * Z)) :
  forall (fs : list Z) (s : state) (tables : list leaf_table) (rest : list Z),
    Earth.mmu_alloc (earth s) = fn_mmu_alloc ->
    free_frames s = fs ++ rest ->
    List.length fs = List.length l ->
    (forall r, In r l -> fits (fst r) (snd r)) ->
    (forall i, In i fs ->
               table_frame i /\ apart (root s) (frame_address i) = true /\
               forall t, In t tables ->
                         apart (frame_address (snd t)) (frame_address i) = true) ->
    (forall i j, In i fs -> In j fs -> i <> j ->
                 apart (frame_address i) (frame_address j) = true) ->
    (forall t, In t tables -> apart (root s) (frame_address (snd t)) = true) ->
    tables_installed tables s ->
    exists s',
      setup_regions l s = Done tt s' /\
      earth s' = earth s /\ free_frames s' = rest /\
      trace s' = trace s ++ map (fun i => PagingRead i 1) fs /\
      root s' = root s /\ pid_to_pagetable_base s' = pid_to_pagetable_base s /\
      tables_installed (rev (combine l fs) ++ tables) s'.
Proof.
  induction l as [|[addr npages] l IH];
    intros fs s tables rest He Hfree Hlen Hfits Hfs Hpair Hroot Hinv.
  - destruct fs; [|discriminate]. exists s. cbn [setup_regions combine rev app map].
    rewrite app_nil_r. repeat split; try reflexivity; try apply Hinv. exact Hfree.
  - destruct fs as [|i fs]; [discriminate|]. cbn [app] in Hfree.
    destruct (Hfs i (or_introl eq_refl)) as (Hframe & Hapart & Hold).
    destruct (setup_identity_region_installs addr npages s i (fs ++ rest) tables
                He Hfree (Hfits _ (or_introl eq_refl)) Hframe Hapart)
      as (s1 & Hrun & Hea & Hfr & Htr & Hr & Hb & Hinv1).
    { intros t Ht. split; [now apply Hold|now apply Hroot]. }
    { exact Hinv. }
    assert (Hni : ~ In i fs).
    { pose proof (NoDup_free_frames s) as ND. rewrite Hfree in ND.
      apply NoDup_cons_iff in ND. destruct ND as [ND _].
      intros Hi. apply ND. apply in_or_app. now left. }
    destruct (IH fs s1 ((addr, npages, i) :: tables) rest) as
      (s' & Hrun' & Hea' & Hfr' & Htr' & Hr' & Hb' & Hinv').
    + now rewrite Hea.
    + exact Hfr.
    + cbn [List.length] in Hlen. lia.
    + intros r Hr0. apply Hfits. now right.
    + intros j Hj. destruct (Hfs j (or_intror Hj)) as (H1 & H2 & H3).
      split; [exact H1|]. split; [now rewrite Hr|].
      intros t [<-|Ht]; [|now apply H3]. cbn [snd].
      apply Hpair; [now left|now right|]. intros ->. contradiction.
    + intros a b Ha Hb0. apply Hpair; now right.
    + intros t [<-|Ht]; rewrite Hr; [exact Hapart|now apply Hroot].
    + exact Hinv1.
    + exists s'. cbn [setup_regions fst snd].
      split; [rewrite (bind_done _ _ _ _ _ Hrun); exact Hrun'|].
      split; [congruence|]. split; [exact Hfr'|].
      split; [rewrite Htr', Htr; cbn [map]; rewrite <- app_assoc; reflexivity|].
      split; [congruence|]. split; [congruence|].
      cbn [combine rev]. rewrite <- app_assoc. exact Hinv'.
Qed.

Lemma next_level_decode (a : Z) :
  a mod PAGE_SIZE = 0 -> 0 <= a < 2 ^ 32 ->
  Z.land (Z.lor (Z.shiftr a 2) FLAG_NEXT_LEVEL) 0xF = FLAG_NEXT_LEVEL /\
  Z.shiftl (Z.shiftr (Z.lor (Z.shiftr a 2) FLAG_NEXT_LEVEL) 10) 12 = a.
Proof.
  try clear frame_address; try clear MAX_NPROCESS.
  unfold PAGE_SIZE. intros Halign Ha. split.
  - change 0xF with (Z.ones 4). apply entry_flags; [lia|reflexivity|].
    rewrite Z.shiftr_div_pow2 by lia. change (2 ^ 2) with 4. change (2 ^ 4) with 16.
    Z.to_euclidean_division_equations. lia.
  - rewrite entry_ppn by (unfold FLAG_NEXT_LEVEL; lia).
    rewrite Z.shiftr_shiftr by lia. rewrite Z.shiftr_div_pow2, Z.shiftl_mul_pow2 by lia.
    change (2 ^ (2 + 10)) with 4096. change (2 ^ 12) with 4096.
    Z.to_euclidean_division_equations. lia.
Qed.

Lemma leaf_entry_translates (addr k va : Z) :
  Z.shiftr va 12 = Z.shiftr addr 12 + k ->
  Z.shiftl (Z.shiftr (Z.lor (Z.shiftr (addr + k * PAGE_SIZE) 2) FLAG_VALID_RWX) 10) 12
  + Z.land va 0xFFF = va.
Proof.
  try clear frame_address; try clear MAX_NPROCESS.
  intros Hk. rewrite entry_ppn by (unfold FLAG_VALID_RWX; lia).
  rewrite Z.shiftr_shiftr by lia. change 0xFFF with (Z.ones 12).
  rewrite Z.land_ones by lia.
  rewrite Z.shiftr_div_pow2, Z.shiftl_mul_pow2 by lia.
  rewrite !Z.shiftr_div_pow2 in Hk by lia.
  change (2 ^ (2 + 10)) with 4096. change (2 ^ 12) with 4096 in *.
  unfold PAGE_SIZE. rewrite Z.div_add by lia. rewrite <- Hk.
  Z.to_euclidean_division_equations. lia.
Qed.

(** Inside one 4 MB window, the leaf index tells whether the page
    belongs to the region. *)
Lemma in_region_index (addr npages va : Z) :
  Z.shiftr addr 22 = Z.shiftr va 22 ->
  (Z.land (Z.shiftr addr 12) 0x3FF <=? Z.land (Z.shiftr va 12) 0x3FF)
  && (Z.land (Z.shiftr va 12) 0x3FF <? Z.land (Z.shiftr addr 12) 0x3FF + npages)
  = in_region addr npages va /\
  Z.shiftr va 12
  = Z.shiftr addr 12 + (Z.land (Z.shiftr va 12) 0x3FF - Z.land (Z.shiftr addr 12) 0x3FF).
Proof.
  try clear frame_address; try clear MAX_NPROCESS.
  intros Hwin. unfold in_region.
  assert (H22 : forall x, Z.shiftr x 22 = Z.shiftr x 12 / 1024).
  { intros x. rewrite !Z.shiftr_div_pow2 by lia.
    change (2 ^ 22) with (2 ^ 12 * 1024). now rewrite Z.div_div by lia. }
  rewrite !H22 in Hwin.
  change 0x3FF with (Z.ones 10). rewrite !Z.land_ones by lia. change (2 ^ 10) with 1024.
  generalize dependent (Z.shiftr addr 12). generalize (Z.shiftr va 12). intros V A Hwin.
  assert (HV : V = 1024 * (V / 1024) + V mod 1024) by (apply Z.div_mod; lia).
  assert (HA : A = 1024 * (A / 1024) + A mod 1024) by (apply Z.div_mod; lia).
  rewrite Hwin in HA. split; [|lia].
  destruct (Z.leb_spec (A mod 1024) (V mod 1024)), (Z.leb_spec A V),
           (Z.ltb_spec (V mod 1024) (A mod 1024 + npages)), (Z.ltb_spec V (A + npages));
    cbn [andb]; try reflexivity; lia.
Qed.

Lemma in_region_window (addr npages va : Z) :
  fits addr npages -> in_region addr npages va = true ->
  Z.shiftr addr 22 = Z.shiftr va 22.
Proof.
  try clear frame_address; try clear MAX_NPROCESS.
  intros (_ & _ & Hfit) H. unfold in_region in H.
  assert (H22 : forall x, Z.shiftr x 22 = Z.shiftr x 12 / 1024).
  { intros x. rewrite !Z.shiftr_div_pow2 by lia.
    change (2 ^ 22) with (2 ^ 12 * 1024). now rewrite Z.div_div by lia. }
  rewrite !H22. revert Hfit H.
  change 0x3FF with (Z.ones 10). rewrite Z.land_ones by lia. change (2 ^ 10) with 1024.
  generalize (Z.shiftr addr 12). generalize (Z.shiftr va 12). intros V A Hfit H.
  apply andb_true_iff in H. destruct H as [H1 H2].
  apply Z.leb_le in H1. apply Z.ltb_lt in H2.
  Z.to_euclidean_division_equations. lia.
Qed.

(** The walk through installed tables. *)
Lemma sv32_walk_installed (tables : list leaf_table) (s : state) (va : Z) :
  tables_installed tables s ->
  (forall t, In t tables -> table_frame (snd t)) ->
  0 <= va < 2 ^ 32 ->
  sv32_walk (memory s) (root s) va =
  match find (fun t => Z.shiftr (fst (fst t)) 22 =? Z.shiftr va 22) tables with
  | Some t => if in_region (fst (fst t)) (snd (fst t)) va then Some va else None
  | None => None
  end.
Proof.
  intros [Hroots Hleaves] Hok Hva. unfold sv32_walk.
  rewrite Hroots by now apply vpn1_bound. unfold root_entry_of.
  destruct (find (fun t => Z.shiftr (fst (fst t)) 22 =? Z.shiftr va 22) tables)
    as [t|] eqn:F; [|reflexivity].
  apply find_some in F. destruct F as [Ht E]. apply Z.eqb_eq in E.
  destruct (Hok t Ht) as (Hal & Hrg).
  destruct (next_level_decode _ Hal Hrg) as [Hflag Hptr].
  rewrite Hflag, Z.eqb_refl, Hptr.
  rewrite (Hleaves t _ Ht (vpn0_bound va)). unfold leaf_entry_of.
  destruct (in_region_index (fst (fst t)) (snd (fst t)) va E) as [Hidx Hpage].
  rewrite Hidx.
  destruct (in_region (fst (fst t)) (snd (fst t)) va); [|reflexivity].
  rewrite entry_low_flags, Z.eqb_refl. f_equal.
  now apply leaf_entry_translates.
Qed.

(** With one leaf table per 4 MB window, the walk succeeds exactly
    inside the regions. *)
Lemma find_window_covered (tables : list leaf_table) (va : Z) :
  (forall t, In t tables -> fits (fst (fst t)) (snd (fst t))) ->
  NoDup (map (fun t : leaf_table => Z.shiftr (fst (fst t)) 22) tables) ->
  match find (fun t => Z.shiftr (fst (fst t)) 22 =? Z.shiftr va 22) tables with
  | Some t => if in_region (fst (fst t)) (snd (fst t)) va then Some va else None
  | None => None
  end
  = if existsb (fun t => in_region (fst (fst t)) (snd (fst t)) va) tables
    then Some va else None.
Proof.
  try clear frame_address; try clear MAX_NPROCESS.
  induction tables as [|t tables IH]; intros Hfits ND; [reflexivity|].
  cbn [find existsb map] in *. apply NoDup_cons_iff in ND. destruct ND as [Hnew ND].
  assert (IH' := IH (fun t0 H => Hfits t0 (or_intror H)) ND). clear IH.
  destruct (Z.eqb_spec (Z.shiftr (fst (fst t)) 22) (Z.shiftr va 22)) as [E|Hne].
  - destruct (in_region (fst (fst t)) (snd (fst t)) va); [reflexivity|]. cbn [orb].
    replace (existsb (fun t0 => in_region (fst (fst t0)) (snd (fst t0)) va) tables)
      with false; [reflexivity|].
    symmetry. apply not_true_is_false. intros Hex. apply existsb_exists in Hex.
    destruct Hex as (t' & Ht' & Hin). apply Hnew. apply in_map_iff. exists t'.
    split; [|exact Ht'].
    rewrite E. apply (in_region_window _ (snd (fst t'))); [|exact Hin].
    apply Hfits. now right.
  - replace (in_region (fst (fst t)) (snd (fst t)) va) with false; [exact IH'|].
    symmetry. apply not_true_is_false. intros Hin. apply Hne.
    apply (in_region_window _ (snd (fst t))); [|exact Hin]. apply Hfits. now left.
Qed.

(** ** [setup_identity_region]: what it replaces, what it overruns *)

(** X6: [setup_identity_region] replaces the root entry of the 4 MB
    window of [addr]; it does not add to a leaf table that is already
    there.  After the call every address of that window outside the
    [npages] pages of the region faults, whatever was mapped there
    before, and the frame of the former leaf table stays allocated. *)
Theorem setup_identity_region_replaces_window
        (addr npages : Z) (s : state) (i : Z) (rest : list Z) :
  Earth.mmu_alloc (earth s) = fn_mmu_alloc ->
  free_frames s = i :: rest ->
  0 <= addr < 2 ^ 32 ->
  0 <= npages ->
  Z.land (Z.shiftr addr 12) 0x3FF + npages <= 1024 ->
  frame_address i mod PAGE_SIZE = 0 ->
  0 <= frame_address i < 2 ^ 32 ->
  apart (root s) (frame_address i) = true ->
  exists s',
    setup_identity_region addr npages s = Done tt s' /\
    (forall j, unused s j = false -> unused s' j = false) /\
    (forall va, 0 <= va < 2 ^ 32 ->
                Z.shiftr va 22 = Z.shiftr addr 22 ->
                in_region addr npages va = false ->
                sv32_walk (memory s') (root s') va = None).
Proof.
  intros He Hfree Haddr Hn Hfit Halign Hleaf Hapart.
  destruct (setup_identity_region_spec addr npages s i rest He Hfree Haddr Hn Hfit
              Halign Hleaf Hapart)
    as (s' & Hrun & Ht & _ & _ & _ & Hr & Hroot & _ & Hzero & _).
  exists s'. split; [exact Hrun|]. split.
  - intros j Hj. unfold unused. rewrite Ht.
    change (Frame.use (table (allocated i s) j) =? 0) with (unused (allocated i s) j).
    rewrite unused_allocated. destruct (j =? i); [reflexivity|exact Hj].
  - intros va Hva Hwin Hout. unfold sv32_walk. rewrite Hr, Hwin, Hroot.
    destruct (next_level_decode _ Halign Hleaf) as [Hflag Hptr].
    rewrite Hflag, Z.eqb_refl, Hptr.
    destruct (in_region_index addr npages va (eq_sym Hwin)) as [Hidx _].
    rewrite Hout in Hidx.
    rewrite Hzero; [reflexivity|apply vpn0_bound|]. lia.
Qed.

(** X7: the loop of [setup_identity_region] checks no bound: entry [k]
    of the region is stored at leaf index [((addr >> 12) & 0x3FF) + k]
    for every [k < npages], and where this index reaches 1024 the store
    falls behind the page of the leaf table. *)
Theorem setup_identity_region_overruns_leaf
        (addr npages : Z) (s : state) (i : Z) (rest : list Z) :
  Earth.mmu_alloc (earth s) = fn_mmu_alloc ->
  free_frames s = i :: rest ->
  0 <= addr < 2 ^ 32 ->
  0 <= npages ->
  exists s',
    setup_identity_region addr npages s = Done tt s' /\
    leaf s' = frame_address i /\
    forall k, 0 <= k < npages ->
      load32 (memory s') (frame_address i + 4 * (Z.land (Z.shiftr addr 12) 0x3FF + k))
        = leaf_entry addr k /\
      (1024 <= Z.land (Z.shiftr addr 12) 0x3FF + k ->
       in_range (frame_address i) PAGE_SIZE
                (frame_address i + 4 * (Z.land (Z.shiftr addr 12) 0x3FF + k)) = false).
Proof.
  intros He Hfree _ Hn.
  destruct (leaf_loop_spec addr (Z.land (Z.shiftr addr 12) 0x3FF) (Z.to_nat npages) 0
              (leaf_installed addr i s))
    as (s' & E & _ & _ & _ & Hl & _ & Hin & _).
  rewrite Z2Nat.id in Hin by assumption.
  change (leaf (leaf_installed addr i s)) with (frame_address i) in *.
  exists s'. split; [rewrite <- E; now apply setup_identity_region_unfold with rest|].
  split; [exact Hl|]. intros k Hk. split; [apply Hin; lia|].
  intros Hover. unfold in_range, PAGE_SIZE. lia.
Qed.

(** ** [pagetable_identity_mapping]: frames and translation *)

Lemma bind_ext {S A B : Type} (m : M S A) (k k' : A -> M S B) (s : S) :
  (forall a s', k a s' = k' a s') -> bind m k s = bind m k' s.
Proof. intros H. unfold bind. destruct (m s); [apply H|reflexivity..]. Qed.

Lemma bind_ret_tt {S : Type} (m : M S unit) (s : S) : bind m (fun _ => ret tt) s = m s.
Proof. unfold bind, ret. destruct (m s) as [[] ?| | |]; reflexivity. Qed.

(** Once the root table is in frame [i], the rest is the list of regions. *)
Lemma pagetable_identity_mapping_unfold (pid : Z) (s : state) (i : Z) (rest : list Z) :
  Earth.mmu_alloc (earth s) = fn_mmu_alloc ->
  valid_pid pid = true ->
  free_frames s = i :: rest ->
  pagetable_identity_mapping pid s = setup_regions identity_regions (root_installed pid i s).
Proof.
  intros He Hpid Hfree.
  assert (Halloc : earth_mmu_alloc s = Done (0, i, frame_address i) (allocated i s)).
  { unfold earth_mmu_alloc. now rewrite He, mmu_alloc_unfold, Hfree. }
  assert (Hroot : (fun s0 : state =>
             let '(_, fid, cached_addr) := (0, i, frame_address i) in
             let s1 := set_root cached_addr (set_frame_id fid s0) in
             let s2 := set_memory (memset (memory s1) (root s1) 0 PAGE_SIZE) s1 in
             if valid_pid pid
             then Done tt (set_pid_to_pagetable_base
                             (upd (pid_to_pagetable_base s2) pid (root s2)) s2)
             else Undefined) (allocated i s) = Done tt (root_installed pid i s)).
  { cbn beta iota zeta. rewrite Hpid. reflexivity. }
  unfold pagetable_identity_mapping.
  rewrite (bind_done _ _ _ _ _ Halloc). rewrite (bind_done _ _ _ _ _ Hroot).
  generalize (root_installed pid i s). intros r.
  unfold identity_regions. cbn [setup_regions fst snd].
  do 5 (apply bind_ext; intros _ ?).
  symmetry. apply bind_ret_tt.
Qed.

Lemma pagetable_identity_mapping_no_frame (pid : Z) (s : state) :
  Earth.mmu_alloc (earth s) = fn_mmu_alloc ->
  free_frames s = [] ->
  pagetable_identity_mapping pid s = Halted "mmu_alloc: no more available frames" s.
Proof.
  intros He Hfree. unfold pagetable_identity_mapping, bind at 1, earth_mmu_alloc.
  now rewrite He, mmu_alloc_unfold, Hfree.
Qed.

(** With fewer unused frames than regions, the list of calls halts in
    [mmu_alloc], having taken every frame that was left. *)
Lemma setup_regions_exhausts (l : list (Z * Z)) :
  forall s,
    Earth.mmu_alloc (earth s) = fn_mmu_alloc ->
    (List.length (free_frames s) < List.length l)%nat ->
    exists s',
      setup_regions l s = Halted "mmu_alloc: no more available frames" s' /\
      free_frames s' = [] /\
      trace s' = trace s ++ map (fun i => PagingRead i 1) (free_frames s) /\
      pid_to_pagetable_base s' = pid_to_pagetable_base s /\ root s' = root s.
Proof.
  induction l as [|[addr npages] l IH]; intros s He Hlen; [cbn in Hlen; lia|].
  cbn [setup_regions fst snd].
  destruct (free_frames s) as [|i rest] eqn:Hfree.
  - exists s. split.
    + unfold bind, setup_identity_region, bind, earth_mmu_alloc.
      now rewrite He, mmu_alloc_unfold, Hfree.
    + split; [exact Hfree|]. cbn [map]. rewrite app_nil_r. repeat split.
  - destruct (setup_identity_region_runs addr npages s i rest He Hfree)
      as (s1 & Hrun & Hea & Hfr & _ & Htr & Hr & Hb & _).
    destruct (IH s1) as (s' & Hrun' & Hfr' & Htr' & Hb' & Hr').
    + now rewrite Hea.
    + rewrite Hfr. cbn [List.length] in Hlen. lia.
    + exists s'. split; [rewrite (bind_done _ _ _ _ _ Hrun); exact Hrun'|].
      split; [exact Hfr'|].
      split; [rewrite Htr', Htr, Hfr; cbn [map]; rewrite <- app_assoc; reflexivity|].
      split; congruence.
Qed.

(** X8: [pagetable_identity_mapping] needs seven unused frames.  With
    seven or more it returns and takes the seven lowest; with fewer it
    halts in [mmu_alloc] after taking every frame that was left (none of
    them is given back), and when at least one was left the page-table
    base of [pid] already points at the root table. *)
Theorem pagetable_identity_mapping_needs_seven_frames (pid : Z) (s : state) :
  Earth.mmu_alloc (earth s) = fn_mmu_alloc ->
  valid_pid pid = true ->
  ((List.length (free_frames s) < 7)%nat ->
   exists s',
     pagetable_identity_mapping pid s = Halted "mmu_alloc: no more available frames" s' /\
     free_frames s' = [] /\
     trace s' = trace s ++ map (fun i => PagingRead i 1) (free_frames s) /\
     (forall i rest, free_frames s = i :: rest ->
                     pid_to_pagetable_base s' pid = frame_address i)) /\
  ((7 <= List.length (free_frames s))%nat ->
   exists s',
     pagetable_identity_mapping pid s = Done tt s' /\
     free_frames s' = skipn 7 (free_frames s) /\
     trace s' = trace s ++ map (fun i => PagingRead i 1) (firstn 7 (free_frames s))).
Proof.
  intros He Hpid. split.
  - intros Hlen. destruct (free_frames s) as [|i rest] eqn:Hfree.
    + exists s. split; [now apply pagetable_identity_mapping_no_frame|].
      split; [exact Hfree|]. split; [cbn [map]; now rewrite app_nil_r|].
      intros i rest H. discriminate H.
    + rewrite (pagetable_identity_mapping_unfold pid s i rest He Hpid Hfree).
      remember (root_installed pid i s) as r eqn:Er.
      assert (Her : earth r = earth s) by (subst r; reflexivity).
      assert (Htr : table r = table (allocated i s)) by (subst r; reflexivity).
      assert (Hfr : free_frames r = rest).
      { rewrite (free_frames_table _ _ Htr). now apply free_frames_allocated. }
      assert (Hbr : pid_to_pagetable_base r = upd (pid_to_pagetable_base s) pid (frame_address i))
        by (subst r; reflexivity).
      assert (Htrr : trace r = trace s ++ [PagingRead i 1]) by (subst r; reflexivity).
      clear Er.
      destruct (setup_regions_exhausts identity_regions r) as (s' & Hrun & Hf & Ht & Hb & _).
      { now rewrite Her. }
      { rewrite Hfr. cbn [List.length] in Hlen. cbn. lia. }
      exists s'. split; [exact Hrun|]. split; [exact Hf|]. split.
      * rewrite Ht, Htrr, Hfr. cbn [map]. rewrite <- app_assoc. reflexivity.
      * intros i' rest' [= <- _]. rewrite Hb, Hbr. apply upd_same.
  - intros Hlen.
    destruct (free_frames s) as [|i0 [|i1 [|i2 [|i3 [|i4 [|i5 [|i6 rest]]]]]]] eqn:Hfree;
      cbn [List.length] in Hlen; try lia.
    destruct (pagetable_identity_mapping_runs pid s i0 i1 i2 i3 i4 i5 i6 rest He Hpid Hfree)
      as (s' & Hrun & _ & Hf & _ & Htr & _).
    exists s'. split; [exact Hrun|]. split; [exact Hf|exact Htr].
Qed.

Lemma identity_regions_fit (r : Z * Z) : In r identity_regions -> fits (fst r) (snd r).
Proof.
  try clear frame_address; try clear MAX_NPROCESS.
  unfold identity_regions. cbn [In]. intros H.
  repeat (destruct H as [<-|H];
          [unfold fits; cbn [fst snd]; repeat split; vm_compute;
           first [reflexivity|intros H0; discriminate H0]|]).
  destruct H.
Qed.

(** The tables that [pagetable_identity_mapping] builds, with the walk
    through them. *)
Lemma pagetable_identity_mapping_installs (pid : Z) (s : state)
      (i0 i1 i2 i3 i4 i5 i6 : Z) (rest : list Z) :
  Earth.mmu_alloc (earth s) = fn_mmu_alloc ->
  valid_pid pid = true ->
  free_frames s = i0 :: i1 :: i2 :: i3 :: i4 :: i5 :: i6 :: rest ->
  (forall i, In i [i0; i1; i2; i3; i4; i5; i6] -> table_frame i) ->
  (forall i j, In i [i0; i1; i2; i3; i4; i5; i6] -> In j [i0; i1; i2; i3; i4; i5; i6] ->
               i <> j -> apart (frame_address i) (frame_address j) = true) ->
  exists s',
    pagetable_identity_mapping pid s = Done tt s' /\
    earth s' = earth s /\ free_frames s' = rest /\
    root s' = frame_address i0 /\
    pid_to_pagetable_base s' = upd (pid_to_pagetable_base s) pid (frame_address i0) /\
    forall va, 0 <= va < 2 ^ 32 ->
               sv32_walk (memory s') (root s') va = if covered va then Some va else None.
Proof.
  intros He Hpid Hfree Hframes Hpair.
  rewrite (pagetable_identity_mapping_unfold pid s i0 _ He Hpid Hfree).
  remember (root_installed pid i0 s) as r eqn:Er.
  assert (Her : earth r = earth s) by (subst r; reflexivity).
  assert (Htr : table r = table (allocated i0 s)) by (subst r; reflexivity).
  assert (Hfr : free_frames r = [i1; i2; i3; i4; i5; i6] ++ rest).
  { rewrite (free_frames_table _ _ Htr). now apply free_frames_allocated. }
  assert (Hrr : root r = frame_address i0) by (subst r; reflexivity).
  assert (Hbr : pid_to_pagetable_base r = upd (pid_to_pagetable_base s) pid (frame_address i0))
    by (subst r; reflexivity).
  assert (Hmr : memory r = memset (memory s) (frame_address i0) 0 PAGE_SIZE)
    by (subst r; reflexivity).
  clear Er.
  assert (Hinv : tables_installed [] r).
  { split; [|intros t j []]. intros j Hj. rewrite Hrr, Hmr. unfold root_entry_of.
    cbn [find]. apply load32_memset_zero; unfold PAGE_SIZE; lia. }
  assert (Hni : ~ In i0 [i1; i2; i3; i4; i5; i6]).
  { pose proof (NoDup_free_frames s) as ND. rewrite Hfree in ND.
    apply NoDup_cons_iff in ND. destruct ND as [ND _].
    intros Hi. apply ND. cbn [In] in *. prop. }
  destruct (setup_regions_installs identity_regions [i1; i2; i3; i4; i5; i6] r [] rest)
    as (s' & Hrun & Hea & Hf & _ & Hr & Hb & Hinv').
  { now rewrite Her. }
  { exact Hfr. }
  { reflexivity. }
  { exact identity_regions_fit. }
  { intros i Hi. split; [apply Hframes; now right|]. split; [|intros t []].
    rewrite Hrr. apply Hpair; [now left|now right|]. intros ->. contradiction. }
  { intros i j Hi Hj. apply Hpair; now right. }
  { intros t []. }
  { exact Hinv. }
  exists s'. split; [exact Hrun|]. split; [congruence|]. split; [exact Hf|].
  split; [congruence|]. split; [congruence|].
  intros va Hva. rewrite app_nil_r in Hinv'.
  assert (Hin : forall t, In t (rev (combine identity_regions [i1; i2; i3; i4; i5; i6])) ->
                          In (fst t) identity_regions /\
                          In (snd t) [i1; i2; i3; i4; i5; i6]).
  { intros [r0 i] Ht. apply in_rev in Ht. split.
    - exact (in_combine_l _ _ _ _ Ht).
    - exact (in_combine_r _ _ _ _ Ht). }
  rewrite (sv32_walk_installed _ s' va Hinv'); [|intros t Ht; apply Hframes; right;
                                                  now apply Hin|exact Hva].
  rewrite find_window_covered.
  - unfold covered, identity_regions. cbn [combine rev app existsb fst snd].
    repeat match goal with
           | |- context [in_region ?a ?n va] => destruct (in_region a n va)
           end; reflexivity.
  - intros t Ht. apply identity_regions_fit. now apply Hin.
  - unfold identity_regions. cbn [combine rev app map fst snd].
    change (NoDup [512; 32; 130; 129; 64; 8]).
    repeat (apply NoDup_cons; [cbn [In]; lia|]). apply NoDup_nil.
Qed.

(** X9: when the seven frames it takes are distinct pages of the
    physical address space, [pagetable_identity_mapping(pid)] leaves a
    page table, registered as the base of [pid], through which every
    address of the six regions (CLINT, UART0, boot ROM, disk image, ITIM,
    DTIM) translates to itself and every other 32-bit address faults. *)
Theorem pagetable_identity_mapping_translates (pid : Z) (s : state)
        (i0 i1 i2 i3 i4 i5 i6 : Z) (rest : list Z) :
  Earth.mmu_alloc (earth s) = fn_mmu_alloc ->
  valid_pid pid = true ->
  free_frames s = i0 :: i1 :: i2 :: i3 :: i4 :: i5 :: i6 :: rest ->
  (forall i, In i [i0; i1; i2; i3; i4; i5; i6] ->
             frame_address i mod PAGE_SIZE = 0 /\ 0 <= frame_address i < 2 ^ 32) ->
  (forall i j, In i [i0; i1; i2; i3; i4; i5; i6] -> In j [i0; i1; i2; i3; i4; i5; i6] ->
               i <> j -> apart (frame_address i) (frame_address j) = true) ->
  exists s',
    pagetable_identity_mapping pid s = Done tt s' /\
    pid_to_pagetable_base s' pid = root s' /\
    (forall va, 0 <= va < 2 ^ 32 ->
                sv32_walk (memory s') (pid_to_pagetable_base s' pid) va
                = if covered va then Some va else None) /\
    (forall addr npages va,
        In (addr, npages) identity_regions ->
        addr <= va < addr + npages * PAGE_SIZE ->
        sv32_walk (memory s') (pid_to_pagetable_base s' pid) va = Some va).
Proof.
  intros He Hpid Hfree Hframes Hpair.
  destruct (pagetable_identity_mapping_installs pid s i0 i1 i2 i3 i4 i5 i6 rest
              He Hpid Hfree Hframes Hpair)
    as (s' & Hrun & _ & _ & Hr & Hb & Hwalk).
  assert (Hbase : pid_to_pagetable_base s' pid = root s').
  { rewrite Hb, Hr. apply upd_same. }
  exists s'. split; [exact Hrun|]. split; [exact Hbase|]. rewrite Hbase.
  split; [exact Hwalk|].
  intros addr npages va Hin Hva.
  pose proof (identity_regions_fit _ Hin) as (Haddr & Hn & Hfit). cbn [fst snd] in *.
  assert (Hcov : covered va = true).
  { unfold covered. apply existsb_exists. exists (addr, npages). split; [exact Hin|].
    cbn [fst snd]. unfold in_region.
    assert (Hal : addr mod 4096 = 0).
    { clear - Hin. unfold identity_regions in Hin. cbn [In] in Hin.
      repeat (destruct Hin as [[= <- _]|Hin]; [reflexivity|]). destruct Hin. }
    rewrite !Z.shiftr_div_pow2 by lia. change (2 ^ 12) with 4096.
    unfold PAGE_SIZE in Hva.
    clear - Hva Hal. apply andb_true_iff. split; [apply Z.leb_le|apply Z.ltb_lt].
    - apply Z.div_le_mono; lia.
    - apply Z.div_lt_upper_bound; [lia|].
      assert (addr = 4096 * (addr / 4096)) by (apply Z_div_exact_full_2; lia). lia. }
  rewrite Hwalk, Hcov; [reflexivity|].
  unfold PAGE_SIZE in Hva.
  assert (Hup : addr + npages * 4096 <= 2 ^ 32).
  { clear - Hin. unfold identity_regions in Hin. cbn [In] in Hin.
    repeat (destruct Hin as [[= <- <-]|Hin];
            [vm_compute; intros H0; discriminate H0|]). destruct Hin. }
  lia.
Qed.

(** ** [mmu_init]: memory *)

Lemma probed_memory (c : ascii) (rest : list ascii) (s : state) :
  memory (probed c rest s)
    = (if probe_traps s then memory s else store32 (memory s) 0x1000 1) /\
  curr_vm_pid (probed c rest s) = curr_vm_pid s.
Proof.
  unfold probed. cbn zeta.
  cbn [probe_traps excp_register set_platform set_earth log set_console].
  destruct (probe_traps s); split; reflexivity.
Qed.

Lemma installed_memory (alloc free map switch : funptr) (p : state) :
  memory (paging_init (install alloc free map switch p)) = memory p /\
  curr_vm_pid (paging_init (install alloc free map switch p)) = curr_vm_pid p.
Proof. repeat split. Qed.

(** X10: with the software TLB chosen, [mmu_init] takes no frame and
    sets no page-table base.  Its probe of the platform is a real store
    where it does not trap: the word at address [0x1000] then reads 1 and
    no other byte of memory changes; where the probe traps, memory is
    left as it was and the platform is [ARTY].  The fault handler is
    removed again in both cases. *)
Theorem mmu_init_software_probe (s : state) (junk rest : list ascii) :
  console s = junk ++ "1"%char :: rest ->
  forallb (fun x => negb (is_choice x)) junk = true ->
  exists s',
    mmu_init s = Done tt s' /\
    free_frames s' = free_frames s /\
    pid_to_pagetable_base s' = pid_to_pagetable_base s /\
    curr_vm_pid s' = curr_vm_pid s /\
    Earth.platform (earth s') = (if probe_traps s then ARTY else QEMU) /\
    Earth.excp_handler (earth s') = NULL /\
    (probe_traps s = true -> memory s' = memory s) /\
    (probe_traps s = false ->
     load32 (memory s') 0x1000 = 1 /\
     forall x, in_range 0x1000 4 x = false -> memory s' x = memory s x).
Proof.
  intros Hcon Hjunk.
  pose proof (mmu_init_unfold s junk "1"%char rest Hcon Hjunk eq_refl) as Hrun.
  destruct (probed_fields "1"%char rest s) as (He & _ & Htable & _ & Hbase).
  destruct (probed_memory "1"%char rest s) as (Hmem & Hcurr).
  unfold wired in *. remember (probed "1"%char rest s) as p eqn:Ep. clear Ep.
  rewrite He in Hrun. cbn [Earth.platform] in Hrun.
  replace (platform_eqb (if probe_traps s then ARTY else QEMU) ARTY && ("1" =? "0")%char)
    with false in Hrun by (destruct (probe_traps s); reflexivity).
  replace ("1" =? "0")%char with false in Hrun by reflexivity.
  change (mmu_init s = Done tt (paging_init (install fn_mmu_alloc fn_mmu_free fn_soft_mmu_map
                                                     fn_soft_mmu_switch p))) in Hrun.
  destruct (installed_fields fn_mmu_alloc fn_mmu_free fn_soft_mmu_map fn_soft_mmu_switch p)
    as (Hei & _ & Hti & _ & Hbi).
  destruct (installed_memory fn_mmu_alloc fn_mmu_free fn_soft_mmu_map fn_soft_mmu_switch p)
    as (Hmi & Hci).
  remember (paging_init (install fn_mmu_alloc fn_mmu_free fn_soft_mmu_map
                                 fn_soft_mmu_switch p)) as s' eqn:Es'.
  clear Es'. exists s'. split; [exact Hrun|].
  split; [apply free_frames_table; congruence|].
  split; [congruence|]. split; [congruence|].
  rewrite Hei, He. cbn [Earth.platform Earth.excp_handler].
  split; [reflexivity|]. split; [reflexivity|].
  rewrite Hmi, Hmem. split; intros Htraps; rewrite Htraps; [reflexivity|].
  split.
  - apply load32_store32_same. lia.
  - intros x Hx. unfold store32. now rewrite Hx.
Qed.

(** X11: with page tables chosen on a platform where the probe does not
    trap, [mmu_init] returns with the seven lowest unused frames taken
    and with the identity mapping in place for process 0: through
    [pid_to_pagetable_base[0]] every address of the six regions
    translates to itself and every other 32-bit address faults. *)
Theorem mmu_init_page_tables_translate
        (s : state) (junk rest : list ascii) (i0 i1 i2 i3 i4 i5 i6 : Z) (more : list Z) :
  console s = junk ++ "0"%char :: rest ->
  forallb (fun x => negb (is_choice x)) junk = true ->
  probe_traps s = false ->
  valid_pid 0 = true ->
  free_frames s = i0 :: i1 :: i2 :: i3 :: i4 :: i5 :: i6 :: more ->
  (forall i, In i [i0; i1; i2; i3; i4; i5; i6] ->
             frame_address i mod PAGE_SIZE = 0 /\ 0 <= frame_address i < 2 ^ 32) ->
  (forall i j, In i [i0; i1; i2; i3; i4; i5; i6] -> In j [i0; i1; i2; i3; i4; i5; i6] ->
               i <> j -> apart (frame_address i) (frame_address j) = true) ->
  exists s',
    mmu_init s = Done tt s' /\
    free_frames s' = more /\
    pid_to_pagetable_base s' 0 = frame_address i0 /\
    forall va, 0 <= va < 2 ^ 32 ->
               sv32_walk (memory s') (pid_to_pagetable_base s' 0) va
               = if covered va then Some va else None.
Proof.
  intros Hcon Hjunk Htraps Hpid Hfree Hframes Hpair.
  pose proof (mmu_init_unfold s junk "0"%char rest Hcon Hjunk eq_refl) as Hrun.
  destruct (probed_fields "0"%char rest s) as (He & _ & Htable & _).
  unfold wired in *. remember (probed "0"%char rest s) as p eqn:Ep. clear Ep.
  rewrite He in Hrun. cbn [Earth.platform] in Hrun.
  rewrite Htraps in *. rewrite Ascii.eqb_refl in Hrun.
  cbn [platform_eqb andb] in Hrun.
  destruct (install_fields fn_mmu_alloc fn_mmu_free fn_soft_mmu_map fn_soft_mmu_switch p)
    as (Hew & _ & Htw & _).
  remember (install fn_mmu_alloc fn_mmu_free fn_soft_mmu_map fn_soft_mmu_switch p)
    as w eqn:Ew.
  clear Ew. rewrite He in Hew. rewrite Htable in Htw.
  destruct (pagetable_identity_mapping_installs 0 w i0 i1 i2 i3 i4 i5 i6 more)
    as (s1 & R & _ & Hf & Hr & Hb & Hwalk).
  { now rewrite Hew. }
  { exact Hpid. }
  { now rewrite (free_frames_table _ _ Htw). }
  { exact Hframes. }
  { exact Hpair. }
  rewrite (bind_done _ _ _ _ _ R) in Hrun.
  destruct (installed_fields (Earth.mmu_alloc (earth s1)) (Earth.mmu_free (earth s1))
              fn_pagetable_mmu_map fn_pagetable_mmu_switch s1)
    as (_ & _ & Hti & _ & Hbi).
  destruct (installed_memory (Earth.mmu_alloc (earth s1)) (Earth.mmu_free (earth s1))
              fn_pagetable_mmu_map fn_pagetable_mmu_switch s1)
    as (Hmi & _).
  eexists. split; [exact Hrun|].
  split; [rewrite (free_frames_table _ _ Hti); exact Hf|].
  rewrite Hbi, Hmi, Hb, upd_same. split; [reflexivity|].
  intros va Hva. rewrite <- Hr. now apply Hwalk.
Qed.

End Mmu.

(** * [library/syscall/servers.c] *)

Module Servers.

(** A request as [sys_send] gets it. *)
Inductive request : Type :=
| dir_request (type ino : Z) (name : string)
| file_request (type ino offset : Z).

(** The two [static] variables of the file, and the message queues of
    the process that [sys_send] and [sys_recv] work on. *)
Record state : Type := mkState
  { sender : Z                        (* [static int sender] *)
  ; buf : list Z                      (* [static char buf[SYSCALL_MSG_LEN]] *)
  ; inbox : list (Z * list Z)         (* messages still to be received: sender and bytes *)
  ; outbox : list (Z * request)       (* messages sent so far: receiver and request *) }.

(** The C string that [char* name] points at: the characters before the
    first NUL. *)
Fixpoint c_string (name : string) : string :=
  match name with
  | EmptyString => EmptyString
  | String c rest => if (c =? "000")%char then EmptyString else String c (c_string rest)
  end.

Section Stubs.

Set Default Proof Using "Type".

(** Server ids, request types and status codes are declared in
    [servers.h] and [egos.h], the block size in [disk.h]; none of these
    is among the sources. *)
Variables GPID_DIR GPID_FILE DIR_LOOKUP FILE_READ DIR_OK FILE_OK BLOCK_SIZE : Z.

(** The size of the field [char name[DIR_NAME_SIZE]] of
    [struct dir_request], declared in [servers.h]. *)
Variable DIR_NAME_SIZE : Z.

(** The layout of [struct dir_reply] and [struct file_reply] is declared
    in [servers.h]: what [reply->status], [reply->ino] and
    [reply->block.bytes] read from the bytes of [buf]. *)
Variables dir_reply_status dir_reply_ino file_reply_status : list Z -> Z.
Variable file_reply_block : list Z -> list Z.

(** Modelled from the spec: [sys_send] of [library/syscall/syscall.c],
    which is not among the sources: "[send(destination, message, length)]". *)
Definition sys_send (receiver : Z) (req : request) : M state unit :=
  fun s => Done tt (mkState (sender s) (buf s) (inbox s) (outbox s ++ [(receiver, req)])).

(** Modelled from the spec: [sys_recv] of [library/syscall/syscall.c]:
    "[recv() -> (sender, message)]"; the call waits until a message
    arrives, then stores its sender and its bytes through the two
    pointers. *)
Definition sys_recv : M state unit :=
  fun s =>
    match inbox s with
    | [] => Blocked s
    | (from, bytes) :: rest => Done tt (mkState from bytes rest (outbox s))
    end.

(** [strcpy(req.name, name)] writes the characters of the name and the
    terminating NUL into [req.name] and checks no length: the copy stays
    inside the field exactly when the name has fewer than
    [DIR_NAME_SIZE] characters. *)
Definition name_fits (name : string) : bool :=
  Z.of_nat (String.length (c_string name)) <? DIR_NAME_SIZE.

(** [int dir_lookup(int dir_ino, char* name)]; a name that does not fit
    is written past the end of [req]. *)
Definition dir_lookup (dir_ino : Z) (name : string) : M state Z :=
  (fun s => if name_fits name then Done tt s else Undefined) ;;;
  sys_send GPID_DIR (dir_request DIR_LOOKUP dir_ino (c_string name)) ;;;
  sys_recv ;;;
  fun s =>
    if negb (sender s =? GPID_DIR) then FATAL "dir_lookup: an error occurred" s
    else Done (if dir_reply_status (buf s) =? DIR_OK then dir_reply_ino (buf s) else -1) s.

(** [int file_read(int file_ino, int offset, char* block)]: the result
    is the returned [int] with the bytes left in the caller's [block]. *)
Definition file_read (file_ino offset : Z) (block : list Z) : M state (Z * list Z) :=
  sys_send GPID_FILE (file_request FILE_READ file_ino offset) ;;;
  sys_recv ;;;
  fun s =>
    if negb (sender s =? GPID_FILE) then FATAL "file_read: an error occurred" s
    else
      let block := firstn (Z.to_nat BLOCK_SIZE) (file_reply_block (buf s))
                   ++ skipn (Z.to_nat BLOCK_SIZE) block in
      Done (if file_reply_status (buf s) =? FILE_OK then 0 else -1, block) s.




(** X12: a stub sends its request before it waits for the reply.  With
    no message to receive, [dir_lookup] (for a name that fits into the
    request) and [file_read] do not return (and do not halt): the request
    is in the outbox, and [sender] and [buf] are as they were. *)
Theorem server_stubs_send_then_wait (s : state) :
  inbox s = [] ->
  (forall dir_ino name,
      name_fits name = true ->
      dir_lookup dir_ino name s
      = Blocked (mkState (sender s) (buf s) []
                         (outbox s ++ [(GPID_DIR,
                                        dir_request DIR_LOOKUP dir_ino (c_string name))]))) /\
  (forall file_ino offset block,
      file_read file_ino offset block s
      = Blocked (mkState (sender s) (buf s) []
                         (outbox s ++ [(GPID_FILE, file_request FILE_READ file_ino offset)]))).
Proof.
  intros Hin. split.
  - intros dir_ino name Hfit. unfold dir_lookup, bind. rewrite Hfit.
    unfold sys_send, sys_recv. cbn [inbox]. rewrite Hin. reflexivity.
  - intros file_ino offset block. unfold file_read, bind, sys_send, sys_recv. cbn [inbox].
    rewrite Hin. reflexivity.
Qed.


End Stubs.

End Servers.

(** * Worked instances

    The parameters are instantiated with a frame cache of 256 pages from
    address [0x80004000] on and with 16 processes; memory starts zeroed. *)

Definition example_frame_address (f : Z) : Z := 0x80004000 + f * PAGE_SIZE.

Definition example_nprocess : Z := 16.

Definition zero_memory : mem := fun _ => 0.

(** The state at boot, on a platform where the probe does not trap. *)
Definition example_boot : state := boot_state zero_memory false [].

(** The state a call leaves, whether it returned or not. *)
Definition after {A : Type} (o : outcome state A) : state :=
  match o with
  | Done _ s | Halted _ s | Blocked s => s
  | Undefined => example_boot
  end.

(** Process 5 is resident and frame 0 is allocated and filled with
    [0xAB] through the address that [mmu_alloc] returned. *)
Definition example_resident : state :=
  let s := after (soft_mmu_switch example_frame_address 5 example_boot) in
  let s := after (mmu_alloc example_frame_address s) in
  set_memory (memset (memory s) (example_frame_address 0) 0xAB PAGE_SIZE) s.

(** No process is resident and frame 0 is allocated and filled with [0xAB]. *)
Definition example_allocated : state :=
  let s := after (mmu_alloc example_frame_address example_boot) in
  set_memory (memset (memory s) (example_frame_address 0) 0xAB PAGE_SIZE) s.

(** Frame 0 belongs to process 5 (page 10), frame 1 to process 6. *)
Definition example_owned : state :=
  set_table (upd (upd (fun _ => Frame.zero) 0 (Frame.mk 1 5 10)) 1 (Frame.mk 1 6 11))
            example_boot.

(** The boot state once [mmu_init] has installed [mmu_alloc]. *)
Definition example_installed : state :=
  install fn_mmu_alloc fn_mmu_free fn_soft_mmu_map fn_soft_mmu_switch example_boot.

(** The same once [pagetable_identity_mapping(0)] has run. *)
Definition example_mapped : state :=
  after (pagetable_identity_mapping example_nprocess example_frame_address 0
                                    example_installed).

(** The root table is allocated (frame 0) and no region is set up yet. *)
Definition example_rooted : state :=
  root_installed example_frame_address 0 0 example_installed.

(** The operator types [x], then [1]. *)
Definition example_console : state := boot_state zero_memory false ["x"; "1"]%char.

(** At boot the first call returns frame 0, and three calls in a row
    return three distinct frames. *)
Lemma mmu_alloc_first_fit_witness :
  mmu_alloc example_frame_address example_boot
  = Done (0, 0, example_frame_address 0) (allocated 0 example_boot) /\
  exists ids s',
    alloc_many example_frame_address 3 example_boot = Done ids s' /\
    List.length ids = 3%nat /\ NoDup ids.
Proof.
  split.
  - refine (proj1 (proj1 (mmu_alloc_first_fit_unique_ids example_frame_address)
                         example_boot 0 _ _ _)).
    + unfold NFRAMES. lia.
    + reflexivity.
    + intros j Hj. lia.
  - destruct (proj1 (proj2 (mmu_alloc_first_fit_unique_ids example_frame_address))
                    example_boot 3%nat) as (ids & s' & H1 & H2 & H3 & _).
    + vm_compute. lia.
    + exists ids, s'. repeat split; assumption.
Defined.

(** From boot, 256 calls hand out every frame and call 257 halts. *)
Lemma mmu_alloc_exhaustion_witness :
  exists s',
    alloc_many example_frame_address (Z.to_nat NFRAMES) example_boot = Done frame_ids s' /\
    mmu_alloc example_frame_address s' = Halted "mmu_alloc: no more available frames" s' /\
    alloc_many example_frame_address (S (Z.to_nat NFRAMES)) example_boot
      = Halted "mmu_alloc: no more available frames" s'.
Proof.
  apply (proj2 (proj2 (proj2 (proj2 (mmu_alloc_fatal_iff_exhausted example_frame_address))))).
  intros i Hi. reflexivity.
Defined.

(** Freeing process 5 clears its frame 0 and leaves frame 1 of process 6. *)
Lemma mmu_free_witness :
  exists s',
    mmu_free example_nprocess 5 example_owned = Done tt s' /\
    table s' 0 = Frame.mk 0 0 0 /\
    table s' 1 = Frame.mk 1 6 11 /\
    pid_to_pagetable_base s' 5 = 0.
Proof.
  destruct (mmu_free_clears_and_idempotent example_nprocess 5 example_owned)
    as (s' & H1 & _ & H3 & H4 & H5 & _).
  - reflexivity.
  - exists s'. split; [exact H1|]. split; [|split; [|exact H5]].
    + apply H3. vm_compute. left. reflexivity.
    + rewrite H4; [reflexivity|]. vm_compute. intros [H|[]]. discriminate H.
Defined.

(** Frame 0 belongs to process 16, one past the last of the 16 processes. *)
Definition example_stray : state :=
  set_table (upd (fun _ => Frame.zero) 0 (Frame.mk 1 16 3)) example_boot.

(** C3, as stated for every pid, fails for a pid that does not index
    [pid_to_pagetable_base]: with 16 processes, the loop of [mmu_free(16)]
    clears frame 0, and the store [pid_to_pagetable_base[16] = 0] that
    follows is outside the array, so that the call has no defined result
    and no page-table-base record of the pid is cleared. *)
Lemma mmu_free_out_of_range_counterexample :
  valid_pid example_nprocess 16 = false /\
  owned_by 16 (table example_stray 0) = true /\
  table (fold_left (mmu_free_step 16) frame_ids example_stray) 0 = Frame.zero /\
  mmu_free example_nprocess 16 example_stray = Undefined.
Proof. repeat split; vm_compute; reflexivity. Qed.

(** With process 5 resident, switching to 5 does nothing and switching
    to 6 runs the two loops before the marker moves. *)
Lemma soft_mmu_switch_witness :
  soft_mmu_switch example_frame_address 5 example_resident = Done (Some 0) example_resident /\
  exists s2,
    soft_mmu_switch example_frame_address 6 example_resident
      = Done None (set_curr_vm_pid 6 s2) /\
    curr_vm_pid s2 = 5.
Proof.
  split.
  - apply (proj1 (soft_mmu_switch_two_phase example_frame_address 5 example_resident)).
    reflexivity.
  - destruct (proj2 (soft_mmu_switch_two_phase example_frame_address 6 example_resident))
      as (s2 & H1 & H2 & _).
    + vm_compute. discriminate.
    + exists s2. split; [exact H1|]. rewrite H2. reflexivity.
Defined.

(** C5, as stated, fails when [pid] is already resident: the switch
    returns at once, and the page at [10 << 12] keeps its zeros while the
    storage of frame 0 holds [0xAB]. *)
Lemma soft_tlb_resident_counterexample :
  exists s s',
    Frame.use (table example_resident 0) = 1 /\
    soft_mmu_map 5 10 0 example_resident = Done tt s /\
    soft_mmu_switch example_frame_address 5 s = Done (Some 0) s' /\
    memory s' (page_addr 10) = 0 /\
    memory example_resident (example_frame_address 0) = 0xAB.
Proof.
  exists (bound 5 10 0 example_resident), (bound 5 10 0 example_resident).
  split; [vm_compute; reflexivity|]. split; [reflexivity|].
  split; [|split; vm_compute; reflexivity].
  apply soft_mmu_switch_resident. vm_compute. reflexivity.
Qed.

(** Frame 0 bound to page 10 of process 5: switching to 5 brings the
    [0xAB] bytes to [10 << 12]; and with 5 resident, switching to 6 and
    back leaves that page as it was. *)
Lemma soft_tlb_round_trip_witness :
  (exists s s',
     soft_mmu_map 5 10 0 example_allocated = Done tt s /\
     soft_mmu_switch example_frame_address 5 s = Done None s' /\
     curr_vm_pid s' = 5 /\
     forall k, 0 <= k < PAGE_SIZE ->
               memory s' (page_addr 10 + k)
               = memory example_allocated (example_frame_address 0 + k)) /\
  (exists s1 s2,
     soft_mmu_switch example_frame_address 6 (bound 5 10 0 example_resident) = Done None s1 /\
     soft_mmu_switch example_frame_address 5 s1 = Done None s2 /\
     curr_vm_pid s2 = 5 /\
     forall k, 0 <= k < PAGE_SIZE ->
       memory s1 (example_frame_address 0 + k)
         = memory (bound 5 10 0 example_resident) (page_addr 10 + k) /\
       memory s2 (page_addr 10 + k)
         = memory (bound 5 10 0 example_resident) (page_addr 10 + k)).
Proof.
  split.
  - apply (proj1 (soft_tlb_round_trip example_frame_address) example_allocated 5 10 0).
    + reflexivity.
    + vm_compute. discriminate.
    + vm_compute. discriminate.
    + vm_compute. reflexivity.
    + intros j Hj Hlt. exfalso. vm_compute in Hj. destruct Hj as [<-|[]]. lia.
  - apply (proj2 (soft_tlb_round_trip example_frame_address)
                 (bound 5 10 0 example_resident) 5 6 0).
    + vm_compute. reflexivity.
    + discriminate.
    + vm_compute. left. reflexivity.
    + vm_compute. reflexivity.
Defined.

(** C6, as stated, fails where the root entry is present: after
    [pagetable_identity_mapping(0)] the root entry that covers
    [0x02000000] (index 8) is valid, and a further call for that address
    still takes a new frame (frame 7) for a leaf table. *)
Lemma setup_identity_region_allocates_anyway :
  Z.land (load32 (memory example_mapped) (root example_mapped + 4 * Z.shiftr 0x02000000 22))
         FLAG_NEXT_LEVEL = 1 /\
  unused example_mapped 7 = true /\
  exists s',
    setup_identity_region example_frame_address 0x02000000 16 example_mapped = Done tt s' /\
    frame_id s' = 7 /\ leaf s' = example_frame_address 7 /\ unused s' 7 = false.
Proof.
  split; [vm_compute; reflexivity|].
  destruct (setup_identity_region_leaf example_frame_address 0x02000000 16 example_mapped
              7 (tl (free_frames example_mapped)))
    as (s' & Hrun & Hf & Hl & Hu & Hu').
  - vm_compute. reflexivity.
  - vm_compute. reflexivity.
  - split; [exact Hu|]. exists s'. repeat split; assumption.
Qed.

(** The CLINT region, set up right after the root table was allocated:
    the leaf table goes to frame 1 and its sixteen pages map to themselves. *)
Lemma setup_identity_region_witness :
  exists s',
    setup_identity_region example_frame_address 0x02000000 16 example_rooted = Done tt s' /\
    frame_id s' = 1 /\
    (forall va, Z.shiftr 0x02000000 12 <= Z.shiftr va 12 < Z.shiftr 0x02000000 12 + 16 ->
                sv32_walk (memory s') (root s') va = Some va).
Proof.
  destruct (setup_identity_region_identity_map example_frame_address 0x02000000 16
              example_rooted 1 (tl (free_frames example_rooted)))
    as (s' & H1 & H2 & H).
  - reflexivity.
  - vm_compute. reflexivity.
  - change (2 ^ 32) with 4294967296. lia.
  - lia.
  - vm_compute. discriminate.
  - reflexivity.
  - change (2 ^ 32) with 4294967296. unfold example_frame_address, PAGE_SIZE. lia.
  - reflexivity.
  - exists s'. split; [exact H1|]. split; [exact H2|]. apply H.
Defined.

(** The operator types [x] and then [1]: the software TLB is installed. *)
Lemma mmu_init_witness :
  mmu_init example_nprocess example_frame_address example_console
  = Done tt (paging_init (wired "1" [] example_console)) /\
  earth (paging_init (wired "1" [] example_console))
  = Earth.mk QEMU NULL fn_mmu_alloc fn_mmu_free fn_soft_mmu_map fn_soft_mmu_switch /\
  console (paging_init (wired "1" [] example_console)) = [].
Proof.
  destruct (mmu_init_boot_sequence example_nprocess example_frame_address example_console
              ["x"%char] "1"%char [])
    as (_ & H & _).
  - reflexivity.
  - reflexivity.
  - reflexivity.
  - destruct (H eq_refl) as (H1 & H2 & _ & _ & H5).
    split; [exact H1|]. split; [exact H2|exact H5].
Defined.

(** Two frames allocated and only frame 0 bound. *)
Definition example_calls : list call := [CallAlloc; CallAlloc; CallMap 5 10 0].

(** At boot the page-table frames 0..6 go back with [mmu_free(0)]; and
    after [example_calls], frame 1, allocated and never bound, is owned by
    pid 0 and goes back with [mmu_free(0)] too. *)
Lemma unbound_frames_witness :
  (exists s1 s2,
     pagetable_identity_mapping example_nprocess example_frame_address 0 example_installed
       = Done tt s1 /\
     (forall i, 0 <= i <= 6 -> table s1 i = Frame.mk 1 0 0) /\
     (forall i, ~ 0 <= i <= 6 -> table s1 i = Frame.zero) /\
     pid_to_pagetable_base s1 0 = root s1 /\
     mmu_free example_nprocess 0 s1 = Done tt s2 /\
     (forall i, table s2 i = Frame.zero) /\
     pid_to_pagetable_base s2 0 = 0) /\
  (exists s s',
     run_calls example_nprocess example_frame_address example_calls [] example_boot
       = Done [0] s /\
     Frame.use (table s 1) = 1 /\ Frame.pid (table s 1) = 0 /\
     mmu_free example_nprocess 0 s = Done tt s' /\
     table s' 1 = Frame.zero).
Proof.
  split.
  - apply (proj2 (proj2 (unbound_frames_owned_by_pid_0 example_nprocess
                           example_frame_address))).
    + intros i. reflexivity.
    + reflexivity.
    + reflexivity.
  - assert (Hrun : exists s,
               run_calls example_nprocess example_frame_address example_calls [] example_boot
               = Done [0] s /\ Frame.use (table s 1) = 1).
    { eexists. split; [reflexivity|]. vm_compute. reflexivity. }
    destruct Hrun as (s & Hrun & Hu).
    destruct (proj1 (proj2 (unbound_frames_owned_by_pid_0 example_nprocess
                              example_frame_address))
                    example_calls example_boot [0] s) as (s' & Hfree & H).
    + intros i. reflexivity.
    + exact Hrun.
    + reflexivity.
    + destruct (H 1) as [Hp Hz].
      * unfold NFRAMES. lia.
      * rewrite Hu. discriminate.
      * intros [E|[]]. discriminate E.
      * exists s, s'. repeat split; assumption.
Defined.




(** ** Instances of the further properties *)

(** An allocation at boot takes the unused frames from 256 to 255, and
    freeing process 5, which holds one frame, brings them from 254 to 255. *)
Lemma free_frame_accounting_witness :
  List.length (free_frames example_boot)
  = S (List.length (free_frames (allocated 0 example_boot))) /\
  List.length (free_frames (after (mmu_free example_nprocess 5 example_owned)))
  = (List.length (free_frames example_owned) + List.length (frames_of 5 example_owned))%nat.
Proof.
  split.
  - apply (proj1 (free_frame_accounting example_nprocess example_frame_address)
                 example_boot (0, 0, example_frame_address 0)).
    vm_compute. reflexivity.
  - apply (proj2 (free_frame_accounting example_nprocess example_frame_address)
                 5 example_owned).
    vm_compute. reflexivity.
Defined.

(** Frame 0 of process 5 is freed and handed out again, zeroed. *)
Lemma mmu_free_then_alloc_witness :
  exists s1 s2,
    mmu_free example_nprocess 5 example_owned = Done tt s1 /\
    mmu_alloc example_frame_address s1 = Done (0, 0, example_frame_address 0) s2 /\
    table s2 0 = Frame.mk 1 0 0.
Proof.
  destruct (mmu_free_then_alloc_recycles example_nprocess example_frame_address
              5 example_owned 0)
    as (s1 & s2 & H1 & H2 & H3 & _).
  - reflexivity.
  - unfold NFRAMES. lia.
  - right. reflexivity.
  - intros j Hj. lia.
  - exists s1, s2. split; [exact H1|]. split; [exact H2|]. rewrite H3. reflexivity.
Defined.

(** Frame 0 goes from process 5 to process 6. *)
Lemma soft_mmu_map_transfer_witness :
  exists s',
    soft_mmu_map 6 12 0 example_owned = Done tt s' /\
    In 0 (frames_of 5 example_owned) /\
    In 0 (frames_of 6 s') /\ ~ In 0 (frames_of 5 s').
Proof.
  destruct (soft_mmu_map_transfers_ownership 6 12 0 example_owned)
    as (s' & H1 & _ & _ & _ & _ & H & _).
  - reflexivity.
  - exists s'. split; [exact H1|]. split; [vm_compute; left; reflexivity|]. split.
    + apply H. left. repeat split. vm_compute. discriminate.
    + intros H0. apply H in H0. destruct H0 as [(_ & E & _)|(E & _)].
      * discriminate E.
      * now apply E.
Defined.

(** At boot frame 0 is bound before it is allocated: process 5 holds
    nothing, and the first allocation returns frame 0 bound to its page 10. *)
Lemma soft_mmu_map_unallocated_witness :
  exists s1 s2,
    soft_mmu_map 5 10 0 example_boot = Done tt s1 /\
    frames_of 5 s1 = [] /\
    mmu_alloc example_frame_address s1 = Done (0, 0, example_frame_address 0) s2 /\
    table s2 0 = Frame.mk 1 5 10.
Proof.
  destruct (soft_mmu_map_unallocated_then_alloc example_frame_address 5 10 0 example_boot
              (tl (free_frames example_boot)))
    as (s1 & s2 & H1 & H2 & _ & H4 & H5 & _).
  - vm_compute. reflexivity.
  - exists s1, s2. split; [exact H1|]. split; [rewrite H2; vm_compute; reflexivity|].
    split; assumption.
Defined.

(** Process 5 is resident and holds frame 0 (page 10). *)
Definition example_running : state := bound 5 10 0 example_resident.

(** Process 5 is freed while resident; frame 0 is allocated again and
    bound to its page 11, and the switch to process 5 does nothing. *)
Lemma mmu_free_keeps_resident_witness :
  exists s1 s2 s3,
    mmu_free example_nprocess 5 example_running = Done tt s1 /\
    mmu_alloc example_frame_address s1 = Done (0, 0, example_frame_address 0) s2 /\
    soft_mmu_map 5 11 0 s2 = Done tt s3 /\
    In 0 (frames_of 5 s3) /\
    soft_mmu_switch example_frame_address 5 s3 = Done (Some 0) s3.
Proof.
  destruct (mmu_free_keeps_resident example_nprocess example_frame_address
              5 11 example_running 0)
    as (s1 & s2 & s3 & H1 & H2 & H3 & H4 & _ & H6 & _).
  - reflexivity.
  - reflexivity.
  - unfold NFRAMES. lia.
  - right. vm_compute. reflexivity.
  - intros j Hj. lia.
  - exists s1, s2, s3. repeat split; assumption.
Defined.

(** The CLINT region is set up after the root table. *)
Definition example_clint : state :=
  after (setup_identity_region example_frame_address 0x02000000 16 example_rooted).

(** Address [0x02000000] translates once the CLINT region is set up, and
    faults once a one-page region of the same 4 MB window is set up next. *)
Lemma setup_identity_region_replaces_witness :
  sv32_walk (memory example_clint) (root example_clint) 0x02000000 = Some 0x02000000 /\
  exists s',
    setup_identity_region example_frame_address 0x02010000 1 example_clint = Done tt s' /\
    sv32_walk (memory s') (root s') 0x02000000 = None.
Proof.
  split; [vm_compute; reflexivity|].
  destruct (setup_identity_region_replaces_window example_frame_address 0x02010000 1
              example_clint 2 (tl (free_frames example_clint)))
    as (s' & H1 & _ & H).
  - vm_compute. reflexivity.
  - vm_compute. reflexivity.
  - change (2 ^ 32) with 4294967296. lia.
  - lia.
  - vm_compute. discriminate.
  - reflexivity.
  - change (2 ^ 32) with 4294967296. unfold example_frame_address, PAGE_SIZE. lia.
  - vm_compute. reflexivity.
  - exists s'. split; [exact H1|]. apply H.
    + change (2 ^ 32) with 4294967296. lia.
    + reflexivity.
    + reflexivity.
Defined.

(** A region of two pages that starts at the last page of a 4 MB window:
    the second entry is stored in the first word of the next frame. *)
Lemma setup_identity_region_overrun_witness :
  exists s',
    setup_identity_region example_frame_address 0x023FF000 2 example_rooted = Done tt s' /\
    leaf s' = example_frame_address 1 /\
    load32 (memory s') (example_frame_address 2) = leaf_entry 0x023FF000 1.
Proof.
  destruct (setup_identity_region_overruns_leaf example_frame_address 0x023FF000 2
              example_rooted 1 (tl (free_frames example_rooted)))
    as (s' & H1 & H2 & H).
  - reflexivity.
  - vm_compute. reflexivity.
  - change (2 ^ 32) with 4294967296. lia.
  - lia.
  - exists s'. split; [exact H1|]. split; [exact H2|].
    destruct (H 1) as [H3 _]; [lia|]. exact H3.
Defined.

(** All frames but the last two are taken. *)
Definition example_nearly_full : state :=
  set_table (fun i => if i <? 254 then Frame.mk 1 1 0 else Frame.zero) example_installed.

(** With two frames left [pagetable_identity_mapping(0)] halts after
    taking both, the root table being frame 254. *)
Lemma pagetable_identity_mapping_exhaustion_witness :
  exists s',
    pagetable_identity_mapping example_nprocess example_frame_address 0 example_nearly_full
    = Halted "mmu_alloc: no more available frames" s' /\
    free_frames s' = [] /\
    pid_to_pagetable_base s' 0 = example_frame_address 254.
Proof.
  destruct (proj1 (pagetable_identity_mapping_needs_seven_frames
                     example_nprocess example_frame_address 0 example_nearly_full
                     eq_refl eq_refl))
    as (s' & H1 & H2 & _ & H4).
  - vm_compute. lia.
  - exists s'. split; [exact H1|]. split; [exact H2|].
    apply (H4 254 [255]). vm_compute. reflexivity.
Defined.

(** At boot the identity mapping of process 0 translates the UART
    register at [0x10013004] to itself and faults on the page after it. *)
Lemma pagetable_identity_mapping_translates_witness :
  exists s',
    pagetable_identity_mapping example_nprocess example_frame_address 0 example_installed
    = Done tt s' /\
    sv32_walk (memory s') (pid_to_pagetable_base s' 0) 0x10013004 = Some 0x10013004 /\
    sv32_walk (memory s') (pid_to_pagetable_base s' 0) 0x10014000 = None.
Proof.
  destruct (pagetable_identity_mapping_translates example_nprocess example_frame_address 0
              example_installed 0 1 2 3 4 5 6 (skipn 7 (free_frames example_installed)))
    as (s' & H1 & _ & H & _).
  - reflexivity.
  - reflexivity.
  - vm_compute. reflexivity.
  - intros i Hi. cbn [In] in Hi. unfold example_frame_address, PAGE_SIZE.
    change (2 ^ 32) with 4294967296.
    repeat (destruct Hi as [<-|Hi]; [split; [reflexivity|lia]|]). destruct Hi.
  - intros i j _ _ Hne. unfold apart, example_frame_address, PAGE_SIZE. lia.
  - exists s'. split; [exact H1|]. split.
    + rewrite H; [reflexivity|]. change (2 ^ 32) with 4294967296. lia.
    + rewrite H; [reflexivity|]. change (2 ^ 32) with 4294967296. lia.
Defined.

(** The operator types [x], then [1], where the probe does not trap:
    no frame is taken and the word at [0x1000] reads 1. *)
Lemma mmu_init_software_probe_witness :
  exists s',
    mmu_init example_nprocess example_frame_address example_console = Done tt s' /\
    free_frames s' = free_frames example_console /\
    load32 (memory s') 0x1000 = 1.
Proof.
  destruct (mmu_init_software_probe example_nprocess example_frame_address example_console
              ["x"%char] [])
    as (s' & H1 & H2 & _ & _ & _ & _ & _ & H8).
  - reflexivity.
  - reflexivity.
  - exists s'. split; [exact H1|]. split; [exact H2|]. apply H8. reflexivity.
Defined.

(** The operator types [0] where the probe does not trap. *)
Definition example_console_0 : state := boot_state zero_memory false ["0"%char].

(** Booting with page tables: the first byte of the DTIM translates to
    itself and address 0 faults. *)
Lemma mmu_init_page_tables_witness :
  exists s',
    mmu_init example_nprocess example_frame_address example_console_0 = Done tt s' /\
    sv32_walk (memory s') (pid_to_pagetable_base s' 0) 0x80000000 = Some 0x80000000 /\
    sv32_walk (memory s') (pid_to_pagetable_base s' 0) 0 = None.
Proof.
  destruct (mmu_init_page_tables_translate example_nprocess example_frame_address
              example_console_0 [] [] 0 1 2 3 4 5 6
              (skipn 7 (free_frames example_console_0)))
    as (s' & H1 & _ & _ & H).
  - reflexivity.
  - reflexivity.
  - reflexivity.
  - reflexivity.
  - vm_compute. reflexivity.
  - intros i Hi. cbn [In] in Hi. unfold example_frame_address, PAGE_SIZE.
    change (2 ^ 32) with 4294967296.
    repeat (destruct Hi as [<-|Hi]; [split; [reflexivity|lia]|]). destruct Hi.
  - intros i j _ _ Hne. unfold apart, example_frame_address, PAGE_SIZE. lia.
  - exists s'. split; [exact H1|]. split.
    + rewrite H; [reflexivity|]. change (2 ^ 32) with 4294967296. lia.
    + rewrite H; [reflexivity|]. change (2 ^ 32) with 4294967296. lia.
Defined.

(** No message is pending. *)
Definition example_silent : Servers.state := Servers.mkState 0 [] [] [].

(** With no reply [dir_lookup] waits, its request sent. *)
Lemma server_stubs_wait_witness :
  Servers.dir_lookup 3 1 0 32 (fun b => nth 0 b 0) (fun b => nth 1 b 0) 1 "bin"%string
                     example_silent
  = Blocked (Servers.mkState 0 [] [] [(3, Servers.dir_request 1 1 "bin"%string)]).
Proof.
  exact (proj1 (Servers.server_stubs_send_then_wait 3 2 1 1 0 0 512 32
                  (fun b => nth 0 b 0) (fun b => nth 1 b 0) (fun b => nth 0 b 0)
                  (fun b => skipn 1 b) example_silent eq_refl) 1 "bin"%string eq_refl).
Defined.


